(** * Cricket Motion Analyzer: a shallow embedding and its properties

    The pipeline of the repository, one module per source file:
    - [video_extractor]   : [extract_frames]
    - [pose_estimator]    : [extract_pose_from_frames]
    - [feature_extractor] : [_angle], [extract_biomechanics]
    - [renderer]          : [_angle], [render_skeleton_video]
    - [visualizer]        : [_load_landmarks], [_skeleton_trace],
                            [compare_poses]

    - [main]              : [run_pipeline]

    Python floats are idealised as real numbers ([R]): every float is a
    real, but an operation on floats is the exact one, where the code
    rounds its result to binary64.  A rounded result can differ from the
    exact one in its last place, and so can an integer truncated from it;
    the properties below are stated so that they hold of the rounded
    results as well: bounds are closed, and where a frame shows a pixel
    position or an angle, the property relates what is drawn to what else
    is drawn, not to the exact value.  The one float computation on small
    integers only, the radius of a trail circle, is carried out in
    binary64 itself.  The native frame rate of a video, which only enters
    an integer floor division, is a rational ([Q]).  Exceptions are values
    of [exn], fallible functions return a [result].  Definitions come
    first, theorems follow. *)

From Stdlib Require Import Reals Lra Lia ZArith QArith Qround.
From Stdlib Require Import String DecimalString DecimalNat List.
From Stdlib Require PrimFloat FloatOps SpecFloat Uint63.
From stdpp Require Import gmap strings list.

(* ===================================================================== *)
(** * Part I: definitions                                                 *)
(* ===================================================================== *)

(** ** Exceptions and results *)

Inductive exn :=
| FileNotFoundError
| RuntimeError (msg : string)
| ZeroDivisionError
| KeyError
| AttributeError
| IndexError.

Inductive result (A : Type) :=
| Ok (a : A)
| Raise (e : exn).
Arguments Ok {A} a.
Arguments Raise {A} e.

Definition rbind {A B} (m : result A) (k : A → result B) : result B :=
  match m with
  | Ok a => k a
  | Raise e => Raise e
  end.

(** [result] is a monad in the sense of stdpp: [x ← m; k] sequences two
    fallible steps and propagates the first exception. *)
#[global] Instance result_ret : MRet result := λ A a, Ok a.
#[global] Instance result_bind : MBind result := λ A B k m, rbind m k.

Definition is_Ok {A} (m : result A) : Prop :=
  match m with Ok _ => True | Raise _ => False end.

Definition raises {A} (m : result A) : Prop :=
  match m with Ok _ => False | Raise _ => True end.

(** ** [math] on idealised floats *)

(** [math.atan2 y x]: the argument of the point [(x, y)].  The exact value
    lies in [(-PI, PI]]; the float that the code gets is the rounded one,
    in [[-pi, pi]] with both ends reached. *)
Definition atan2 (y x : R) : R :=
  if Rlt_dec 0 x then atan (y / x)
  else if Rlt_dec x 0 then
    (if Rle_dec 0 y then atan (y / x) + PI else atan (y / x) - PI)%R
  else if Rlt_dec 0 y then (PI / 2)%R
  else if Rlt_dec y 0 then (- (PI / 2))%R
  else 0%R.

(** [math.degrees]. *)
Definition degrees (x : R) : R := (x * (180 / PI))%R.

(** [int(x)] on a float: truncation towards zero. *)
Definition int_of_float (x : R) : Z :=
  if Rle_dec 0 x then Int_part x else (- Int_part (- x))%Z.

(** ** Binary64 arithmetic on small integers *)

(** [float(n)] for a small integer. *)
Definition binary64_of_Z (n : Z) : PrimFloat.float :=
  PrimFloat.of_uint63 (Uint63.of_Z n).

(** [int(x)] on a finite binary64 float: the mantissa shifted by the
    exponent, which truncates towards zero.  (On an infinity or a NaN
    [int] raises; no call below reaches one.) *)
Definition int_of_binary64 (x : PrimFloat.float) : Z :=
  match FloatOps.Prim2SF x with
  | SpecFloat.S754_finite s m e =>
      let a := match e with
               | Z0 => Zpos m
               | Zpos p => Z.shiftl (Zpos m) (Zpos p)
               | Zneg p => Z.shiftr (Zpos m) (Zpos p)
               end in
      if s then (- a)%Z else a
  | _ => 0%Z
  end.

(** ** Data model *)

(** One landmark of a record: the JSON object
    [{"x": .., "y": .., "z": .., "vis": ..}], with finite numbers for its
    four values (the [NaN] and [Infinity] that [json.load] accepts are not
    in the model). *)
Record landmark := Landmark {
  lm_x : R;
  lm_y : R;
  lm_z : R;
  lm_vis : R
}.

(** A landmark record maps a point index to its landmark.  On disk the
    keys are the decimal strings [str(i)]; the map is keyed by the index
    itself. *)
Abbreviation record := (gmap nat landmark).

(** The JSON files on disk, by path. *)
Abbreviation json_files := (gmap string record).

(** A path argument is a [str] or a [pathlib.Path]; both carry the path
    text, but only a [Path] has attributes such as [.name]. *)
Inductive path_like :=
| Str (s : string)
| PathObj (s : string).

(** [str(p)], which is also what [open(p)] and [Path(p)] see. *)
Definition fspath (p : path_like) : string :=
  match p with
  | Str s => s
  | PathObj s => s
  end.

(** [dir / name] on [pathlib] paths. *)
Definition joinpath (dir name : string) : string :=
  (dir ++ "/" ++ name)%string.

(** A decoded image: its [shape] and an opaque identifier of its pixels. *)
Record image := Image {
  img_h : Z;
  img_w : Z;
  img_pixels : nat
}.

(** The captions the renderer writes: [f"Elbow {ang:.0f}°"] and
    [f"Frame {i}/{n}"]. *)
Inductive caption :=
| ElbowText (ang : R)
| FrameText (i n : nat).

(** What the code calls in other libraries, and the image files on disk:
    [Path(p).stem] and [Path(p).name] on a path text, [cv2.imread],
    [pose.process] (which yields the landmark list of a detected pose, or
    nothing), and [cv2.getTextSize] on a caption. *)
Record externals := Externals {
  stem : string → string;
  name_of : string → string;
  imread : string → option image;
  pose_process : image → option (list landmark);
  getTextSize : caption → Z * Z
}.

(** [json.load(open(p))]. *)
Definition load_json (fs : json_files) (p : path_like) : result record :=
  match fs !! fspath p with
  | Some lm => Ok lm
  | None => Raise FileNotFoundError
  end.

(** ** video_extractor.py *)

Module video_extractor.

(** A video source as [cv2.VideoCapture] sees it: whether the file
    exists, whether it opens, the reported [CAP_PROP_FPS] and the frames
    it decodes before [read()] returns [False]. *)
Record video := Video {
  vid_exists : bool;
  vid_opens : bool;
  vid_fps : Q;
  vid_frames : list image
}.

(** What a call has done to the world: the number of [cap.read()] calls
    and the images written, in order. *)
Record effects := Effects {
  reads : nat;
  imwrites : list (string * image)
}.

Definition no_effects : effects := Effects 0 [].

(** [f"{n:05d}"]. *)
Definition format_05d (n : nat) : string :=
  let s := NilZero.string_of_uint (Nat.to_uint n) in
  (String.concat "" (repeat "0" (5 - String.length s)) ++ s)%string.

Definition frame_name (saved_idx : nat) : string :=
  ("frame_" ++ format_05d saved_idx ++ ".jpg")%string.

(** [native_fps // fps] for a finite float [native_fps] and an int [fps]
    within the range of a float. *)
Definition floordiv (native_fps : Q) (fps : Z) : result Z :=
  if (fps =? 0)%Z then Raise ZeroDivisionError
  else Ok (Qfloor (native_fps / inject_Z fps)).

(** The [while True] loop: one step per decoded frame; the final
    [read()] that returns [False] ends it. *)
Fixpoint read_loop (stride : Z) (output_dir : string) (frames : list image)
    (idx saved_idx : nat) (saved : list path_like)
    (eff : effects) : list path_like * effects :=
  match frames with
  | [] => (saved, Effects (S (reads eff)) (imwrites eff))
  | frame :: rest =>
      let eff := Effects (S (reads eff)) (imwrites eff) in
      if (Z.of_nat idx mod stride =? 0)%Z then
        let fpath := joinpath output_dir (frame_name saved_idx) in
        read_loop stride output_dir rest (S idx) (S saved_idx)
          (saved ++ [PathObj fpath])
          (Effects (reads eff) (imwrites eff ++ [(fpath, frame)]))
      else
        read_loop stride output_dir rest (S idx) saved_idx saved eff
  end.

Definition stride_of (native_fps : Q) (fps : Z) : result Z :=
  q ← floordiv native_fps fps; Ok (Z.max q 1).

(** The call: its outcome and what it did to the frames.  [effects]
    counts the frames read and the images written, nothing else: creating
    [output_dir] before the first check and removing old images under
    [overwrite] after it are not recorded, nor are releasing the capture
    and logging.  The call is taken in an environment in which the
    directory can be created and old images removed, with a native rate
    that is a finite float and a target rate within the range of a float;
    outside of it the code raises for further reasons ([FileExistsError],
    [ValueError], [OverflowError]), which are not modelled. *)
Definition extract_frames (v : video) (video_path output_dir : string)
    (fps : Z) : result (list path_like) * effects :=
  if negb (vid_exists v) then (Raise FileNotFoundError, no_effects)
  else if negb (vid_opens v) then
    (Raise (RuntimeError "Cannot open video"), no_effects)
  else
    let native_fps := vid_fps v in
    if Qeq_bool native_fps 0 then
      (Raise (RuntimeError "Source FPS reported as 0"), no_effects)
    else
      match stride_of native_fps fps with
      | Raise e => (Raise e, no_effects)
      | Ok stride =>
          let '(saved, eff) :=
            read_loop stride output_dir (vid_frames v) 0 0 [] no_effects in
          (Ok saved, eff)
      end.

End video_extractor.

(** ** pose_estimator.py *)

Module pose_estimator.
Section with_externals.
Context (X : externals).

(** The dict comprehension over [enumerate(res.pose_landmarks.landmark)]:
    index [i] maps to the [i]-th landmark. *)
Definition lm_json (landmarks : list landmark) : record :=
  map_seq 0 landmarks.

(** The [for] loop; [saved] and the JSON files on disk are threaded
    through. The colour conversion before [pose.process] is part of
    [pose_process]; the progress log is left out. *)
Fixpoint pose_loop (frame_paths : list path_like) (output_dir : string)
    (saved : list path_like) (fs : json_files)
    : list path_like * json_files :=
  match frame_paths with
  | [] => (saved, fs)
  | fpath :: rest =>
      match imread X (fspath fpath) with
      | None => pose_loop rest output_dir saved fs
      | Some img =>
          match pose_process X img with
          | None => pose_loop rest output_dir saved fs
          | Some landmarks =>
              let jpath :=
                joinpath output_dir (stem X (fspath fpath) ++ ".json") in
              pose_loop rest output_dir (saved ++ [PathObj jpath])
                (<[jpath := lm_json landmarks]> fs)
          end
      end
  end.

Definition extract_pose_from_frames (frame_paths : list path_like)
    (output_dir : string) (fs : json_files)
    : list path_like * json_files :=
  pose_loop frame_paths output_dir [] fs.

End with_externals.
End pose_estimator.

(** ** feature_extractor.py *)

Module feature_extractor.

(** Angle ABC in degrees, on the [x] and [y] of the three points. *)
Definition _angle (a b c : R * R * R) : R :=
  let ang :=
    degrees (atan2 (c.1.2 - b.1.2) (c.1.1 - b.1.1)
             - atan2 (a.1.2 - b.1.2) (a.1.1 - b.1.1)) in
  Rabs (if Rlt_dec ang 180 then ang else 360 - ang).

Record feature_row := FeatureRow {
  frame : string;
  r_elbow_deg : R;
  r_knee_deg : R;
  trunk_deg : R
}.

(** The inner [pt(i)]: [lm[str(i)]] raises [KeyError] on a missing
    index. *)
Definition pt (lm : record) (i : nat) : result (R * R * R) :=
  match lm !! i with
  | Some l => Ok (lm_x l, lm_y l, lm_z l)
  | None => Raise KeyError
  end.

(** The body of the [try] block: elbow, knee and trunk. *)
Definition angles (lm : record) : result (R * R * R) :=
  p12 ← pt lm 12; p14 ← pt lm 14; p16 ← pt lm 16;
  let r_elbow := _angle p12 p14 p16 in
  p24 ← pt lm 24; p26 ← pt lm 26; p28 ← pt lm 28;
  let r_knee := _angle p24 p26 p28 in
  shoulder ← pt lm 12;
  hip ← pt lm 24;
  let trunk :=
    degrees (atan2 (shoulder.1.2 - hip.1.2) (shoulder.1.1 - hip.1.1)) in
  Ok (r_elbow, r_knee, trunk).

Section with_externals.
Context (X : externals).

(** [jpath.name], the argument of the debug log: a [str] has no such
    attribute. *)
Definition dot_name (jpath : path_like) : result string :=
  match jpath with
  | PathObj s => Ok (name_of X s)
  | Str _ => Raise AttributeError
  end.

(** The [for] loop over [json_paths]. *)
Fixpoint rows_loop (fs : json_files) (json_paths : list path_like)
    (rows : list feature_row) : result (list feature_row) :=
  match json_paths with
  | [] => Ok rows
  | jpath :: rest =>
      lm ← load_json fs jpath;
      match angles lm with
      | Ok (r_elbow, r_knee, trunk) =>
          rows_loop fs rest
            (rows ++ [FeatureRow (stem X (fspath jpath))
                        r_elbow r_knee trunk])
      | Raise KeyError =>
          _ ← dot_name jpath;
          rows_loop fs rest rows
      | Raise e => Raise e
      end
  end.

(** The returned data frame and the CSV file written. *)
Record output := Output {
  df : list feature_row;
  csv_written : string * list feature_row
}.

Definition extract_biomechanics (fs : json_files)
    (json_paths : list path_like) (csv_out : string) : result output :=
  rows ← rows_loop fs json_paths [];
  Ok (Output rows (csv_out, rows)).

End with_externals.
End feature_extractor.

(** ** renderer.py *)

Module renderer.

Definition JOINT_R : Z := 6.
Definition LIMB_THICK : Z := 3.
Definition TRAIL_LEN : nat := 15.
Definition TRAIL_COLOR : list Z := [255; 215; 0]%Z.

Definition _CONNECTIONS : list (nat * nat) :=
  [(11, 13); (13, 15); (12, 14); (14, 16);
   (11, 12); (11, 23); (12, 24);
   (23, 25); (25, 27); (24, 26); (26, 28)].

Definition LEFT : gset nat := list_to_set [11; 13; 15; 23; 25; 27].
Definition RIGHT : gset nat := list_to_set [12; 14; 16; 24; 26; 28].

Definition COLOR_LEFT : list Z := [0; 80; 255]%Z.
Definition COLOR_RIGHT : list Z := [255; 80; 0]%Z.
Definition COLOR_TORSO : list Z := [60; 255; 60]%Z.

Definition GREEN : list Z := [0; 255; 0]%Z.
Definition RED : list Z := [0; 0; 255]%Z.

Definition _color_for_joint (idx : nat) : list Z :=
  if decide (idx ∈ LEFT) then COLOR_LEFT
  else if decide (idx ∈ RIGHT) then COLOR_RIGHT
  else COLOR_TORSO.

(** The same formula as in the feature extractor, on pixel points. *)
Definition _angle (a b c : Z * Z) : R :=
  let ang :=
    degrees (atan2 (IZR (c.2 - b.2)) (IZR (c.1 - b.1))
             - atan2 (IZR (a.2 - b.2)) (IZR (a.1 - b.1))) in
  Rabs (if Rlt_dec ang 180 then ang else 360 - ang).

(** The [cv2] drawing calls made on a frame. *)
Inductive draw_op :=
| circle (center : Z * Z) (radius : Z) (color : list Z) (thickness : Z)
| line (p q : Z * Z) (color : list Z) (thickness : Z)
| rectangle (p q : Z * Z) (color : list Z) (thickness : Z)
| putText (txt : caption) (org : Z * Z) (color : list Z) (thickness : Z).

(** A frame being composed: the decoded image and the calls drawn on it
    so far. *)
Record canvas := Canvas {
  cv_img : image;
  cv_ops : list draw_op
}.

Definition draw (frame : canvas) (ops : list draw_op) : canvas :=
  Canvas (cv_img frame) (cv_ops frame ++ ops).

(** [deque(maxlen=..).append]: the oldest entry falls out when full. *)
Definition deque_append {A} (maxlen : nat) (d : list A) (x : A) : list A :=
  let d' := d ++ [x] in drop (length d' - maxlen) d'.

#[global] Instance visible_dec (l : landmark) : Decision (3 / 10 < lm_vis l)%R :=
  Rlt_dec (3 / 10) (lm_vis l).

(** The dict comprehension [pts]: the pixel position of every landmark
    whose visibility is above 0.3.  The product is the exact one, where
    the code truncates the product rounded to binary64: for the float
    next to 0.7 and a width of 640 the exact product lies just below 448
    and truncates to 447, the rounded one is 448.  A position of the
    model can so differ by one from the position drawn; the properties of
    the frames are stated on the positions as drawn, whatever they are. *)
Definition pixel (w h : Z) (l : landmark) : Z * Z :=
  (int_of_float (lm_x l * IZR w), int_of_float (lm_y l * IZR h)).

Definition pts_of (w h : Z) (lm : record) : gmap nat (Z * Z) :=
  pixel w h <$> filter (λ kv, (3 / 10 < lm_vis kv.2)%R) lm.

(** The radius of the [t]-th circle of a trail of [len] points,
    [int(JOINT_R * alpha)] with [alpha = 1.0 - t / len], in binary64: for
    the sixth of six points [alpha] is 0.16666666666666663, the product
    0.9999999999999998 and the radius 0. *)
Definition trail_radius (t len : nat) : Z :=
  let alpha :=
    PrimFloat.sub (binary64_of_Z 1)
      (PrimFloat.div (binary64_of_Z (Z.of_nat t))
         (binary64_of_Z (Z.of_nat len))) in
  int_of_binary64 (PrimFloat.mul (binary64_of_Z JOINT_R) alpha).

(** The trail after an iteration: the wrist (16) enters it when it is
    among the points. *)
Definition next_trail (pts : gmap nat (Z * Z)) (trail : list (Z * Z))
    : list (Z * Z) :=
  match pts !! 16 with
  | Some p => deque_append TRAIL_LEN trail p
  | None => trail
  end.

Section with_externals.
Context (X : externals).

(** [_draw_text]: a filled box sized by the text, then the text. The
    [addWeighted] call blends the image with weight 1 and itself with
    weight 0, which leaves it as it is. *)
Definition _draw_text (txt : caption) (pos : Z * Z) (color : list Z)
    : list draw_op :=
  let '(w, h) := getTextSize X txt in
  let '(x, y) := pos in
  [rectangle (x - 8, y - h - 10)%Z (x + w + 8, y + 8)%Z [0; 0; 0; 0]%Z (-1);
   putText txt (x, y) color 2].

(** The fading trail, most recent point first. *)
Definition trail_ops (trail : list (Z * Z)) : list draw_op :=
  imap (λ t p, circle p (trail_radius t (length trail)) TRAIL_COLOR (-1))
       (reverse trail).

Definition joint_ops (pts : gmap nat (Z * Z)) : list draw_op :=
  (λ kv, circle kv.2 JOINT_R (_color_for_joint kv.1) (-1))
    <$> map_to_list pts.

Definition limb_ops (pts : gmap nat (Z * Z)) : list draw_op :=
  flat_map (λ ab,
              match pts !! ab.1, pts !! ab.2 with
              | Some pa, Some pb =>
                  [line pa pb [180; 180; 180]%Z LIMB_THICK]
              | _, _ => []
              end) _CONNECTIONS.

(** The live metric: drawn when 12, 14 and 16 are all keys of [pts]. *)
Definition elbow_ops (pts : gmap nat (Z * Z)) : list draw_op :=
  match pts !! 12, pts !! 14, pts !! 16 with
  | Some p12, Some p14, Some p16 =>
      let ang := _angle p12 p14 p16 in
      let color := if Rlt_dec ang 170 then GREEN else RED in
      _draw_text (ElbowText ang) (30, 40)%Z color
  | _, _, _ => []
  end.

Definition lower_third_ops (w h : Z) (idx n : nat) : list draw_op :=
  rectangle (0, h - 60)%Z (w, h) [0; 0; 0]%Z (-1)
  :: _draw_text (FrameText (idx + 1) n) (20, h - 20)%Z [255; 255; 255]%Z.

(** One iteration of the loop, on a decoded frame and a loaded record:
    the composed frame and the trail it leaves. *)
Definition render_frame (w h : Z) (n : nat) (idx : nat) (frame : canvas)
    (lm : record) (trail : list (Z * Z)) : canvas * list (Z * Z) :=
  let pts := pts_of w h lm in
  let trail := next_trail pts trail in
  let frame := draw frame (trail_ops trail) in
  let frame := draw frame (joint_ops pts) in
  let frame := draw frame (limb_ops pts) in
  let frame := draw frame (elbow_ops pts) in
  let frame := draw frame (lower_third_ops w h idx n) in
  (frame, trail).

(** The [for] loop over [zip(frame_paths, json_paths)]: how it ends and
    the frames given to [vw.write], which stay written when a later
    iteration fails.  An image that does not decode is [None]: the record
    is loaded and the wrist enters the trail as in any iteration, the
    drawing calls and [vw.write] accept [None] and do nothing, and the
    loop goes on without a frame for this pair.  The positions computed
    from a record are taken to be ones that [int] and the drawing calls
    accept (see [in_reach] below); the code raises on others. *)
Fixpoint render_loop (fs : json_files) (w h : Z) (n : nat)
    (pairs : list (path_like * path_like)) (idx : nat)
    (trail : list (Z * Z)) (vw : list canvas) : result () * list canvas :=
  match pairs with
  | [] => (Ok (), vw)
  | (fpath, jpath) :: rest =>
      let frame := imread X (fspath fpath) in
      match load_json fs jpath with
      | Raise e => (Raise e, vw)
      | Ok lm =>
          match frame with
          | None =>
              render_loop fs w h n rest (S idx)
                (next_trail (pts_of w h lm) trail) vw
          | Some img =>
              let '(frame, trail) :=
                render_frame w h n idx (Canvas img []) lm trail in
              render_loop fs w h n rest (S idx) trail (vw ++ [frame])
          end
      end
  end.

(** The output video: the path, rate and size the [VideoWriter] was
    opened with, and the frames given to [vw.write], in order. *)
Record video_out := VideoOut {
  out_path : string;
  out_fps : Z;
  out_size : Z * Z;
  out_frames : list canvas
}.

(** The frames the file holds: [VideoWriter.write] drops, without an
    error, a frame whose size is not the one the writer was opened
    with. *)
Definition kept_frames (vid : video_out) : list canvas :=
  filter (λ c, (img_w (cv_img c), img_h (cv_img c)) = out_size vid)
    (out_frames vid).

(** The call: how it ends, and the output video if the writer was
    opened.  The call is taken in an environment in which the directory
    of [output_mp4] can be created and the [VideoWriter] opens. *)
Definition render_skeleton_video (fs : json_files)
    (frame_paths json_paths : list path_like) (output_mp4 : string)
    (fps : Z) : result () * option video_out :=
  match frame_paths with
  | [] => (Raise IndexError, None)
  | first :: _ =>
      match imread X (fspath first) with
      | None => (Raise AttributeError, None)
      | Some sample =>
          let h := img_h sample in
          let w := img_w sample in
          let '(outcome, written) :=
            render_loop fs w h (length frame_paths)
              (zip frame_paths json_paths) 0 [] [] in
          (outcome, Some (VideoOut output_mp4 fps (w, h) written))
      end
  end.

End with_externals.
End renderer.

(** ** visualizer.py *)

Module visualizer.

Definition _CONNECTIONS : list (nat * nat) :=
  [(0, 1); (1, 2); (2, 3); (3, 7);
   (0, 4); (4, 5); (5, 6); (6, 8);
   (9, 10);
   (11, 13); (13, 15);
   (12, 14); (14, 16);
   (11, 12); (11, 23); (12, 24);
   (23, 25); (25, 27);
   (24, 26); (26, 28)].

(** The three coordinate lists, with [None] for an absent point. *)
Definition coords : Type := list (option R) * list (option R) * list (option R).

(** The [for i in range(33)] loop, with [xs], [ys], [zs] threaded. *)
Fixpoint load_loop (data : record) (indices : list nat)
    (xs ys zs : list (option R)) : coords :=
  match indices with
  | [] => (xs, ys, zs)
  | i :: rest =>
      match data !! i with
      | Some pt =>
          load_loop data rest
            (xs ++ [Some (lm_x pt)]) (ys ++ [Some (- lm_y pt)%R])
            (zs ++ [Some (lm_z pt)])
      | None =>
          load_loop data rest (xs ++ [None]) (ys ++ [None]) (zs ++ [None])
      end
  end.

Definition _load_landmarks (fs : json_files) (json_path : path_like)
    : result coords :=
  data ← load_json fs json_path;
  Ok (load_loop data (seq 0 33) [] [] []).

(** [go.Scatter3d(x=.., y=.., z=.., mode="lines", line=.., name=..)]. *)
Record Scatter3d := MkScatter3d {
  sc_x : list (option R);
  sc_y : list (option R);
  sc_z : list (option R);
  sc_mode : string;
  sc_width : Z;
  sc_color : string;
  sc_name : string
}.

(** [l[i]] on a coordinate list. *)
Definition item (l : list (option R)) (i : nat) : result (option R) :=
  match l !! i with
  | Some v => Ok v
  | None => Raise IndexError
  end.

(** The loop over [_CONNECTIONS]: a connector adds its two end points
    and a [None] that breaks the line. *)
Fixpoint trace_loop (xs ys zs : list (option R)) (conns : list (nat * nat))
    (lines_x lines_y lines_z : list (option R)) : result coords :=
  match conns with
  | [] => Ok (lines_x, lines_y, lines_z)
  | (a, b) :: rest =>
      xa ← item xs a;
      if decide (xa = None) then trace_loop xs ys zs rest lines_x lines_y lines_z
      else
        xb ← item xs b;
        if decide (xb = None)
        then trace_loop xs ys zs rest lines_x lines_y lines_z
        else
          ya ← item ys a; yb ← item ys b;
          za ← item zs a; zb ← item zs b;
          trace_loop xs ys zs rest
            (lines_x ++ [xa; xb; None]) (lines_y ++ [ya; yb; None])
            (lines_z ++ [za; zb; None])
  end.

Definition _skeleton_trace (xs ys zs : list (option R)) (name color : string)
    : result Scatter3d :=
  '(lines_x, lines_y, lines_z) ← trace_loop xs ys zs _CONNECTIONS [] [] [];
  Ok (MkScatter3d lines_x lines_y lines_z "lines" 4 color name).

(** A figure: its traces in the order they were added, and its title. *)
Record Figure := MkFigure {
  fig_traces : list Scatter3d;
  fig_title : string
}.

Definition compare_poses (fs : json_files) (actual_json ideal_json : path_like)
    : result Figure :=
  '(xs_a, ys_a, zs_a) ← _load_landmarks fs actual_json;
  '(xs_i, ys_i, zs_i) ← _load_landmarks fs ideal_json;
  t_a ← _skeleton_trace xs_a ys_a zs_a "Actual" "blue";
  t_i ← _skeleton_trace xs_i ys_i zs_i "Ideal" "green";
  Ok (MkFigure [t_a; t_i] "Actual vs Ideal Pose").

(** [title or Path(json_path).stem]: the stem when no title, or an empty
    one, is given. *)
Definition title_or_stem (X : externals) (json_path : path_like)
    (title : option string) : string :=
  match title with
  | Some t => if decide (t = "") then stem X (fspath json_path) else t
  | None => stem X (fspath json_path)
  end.

(** [plot_pose_3d]: the figure with the one trace of the record. *)
Definition plot_pose_3d (X : externals) (fs : json_files)
    (json_path : path_like) (title : option string) : result Figure :=
  '(xs, ys, zs) ← _load_landmarks fs json_path;
  trace ← _skeleton_trace xs ys zs "Actual" "blue";
  Ok (MkFigure [trace] (title_or_stem X json_path title)).

End visualizer.

(** ** main.py *)

Module main.

(** What a run leaves behind: what frame sampling did, the JSON files,
    the feature table and the output video if they were written, and the
    figure if it was shown. *)
Record artifacts := Artifacts {
  sampling : video_extractor.effects;
  json_after : json_files;
  csv_file : option (string * list feature_extractor.feature_row);
  video_file : option renderer.video_out;
  figure_shown : option visualizer.Figure
}.

(** [root / "data" / kind / name]. *)
Definition data_path (root kind name : string) : string :=
  joinpath (joinpath (joinpath root "data") kind) name.

(** [run_pipeline]: the five stages in a row, with an early return when
    there are no frames or no poses. [X] reads the image files as they
    are on disk once the frames have been extracted. Exceptions of the
    stages are not caught. *)
Definition run_pipeline (X : externals) (root : string)
    (v : video_extractor.video) (video_path : string) (fps : Z)
    (fs : json_files) : result () * artifacts :=
  let vid_name := stem X video_path in
  let frames_dir := data_path root "extracted_frames" vid_name in
  let kp_dir := data_path root "keypoints" vid_name in
  let csv_out := data_path root "analysis" (vid_name ++ "_features.csv") in
  let mp4_out := data_path root "analysis" (vid_name ++ "_visualized.mp4") in
  let '(sampled, eff) :=
    video_extractor.extract_frames v video_path frames_dir fps in
  match sampled with
  | Raise e => (Raise e, Artifacts eff fs None None None)
  | Ok [] => (Ok (), Artifacts eff fs None None None)
  | Ok frames =>
      let '(jsons, fs) :=
        pose_estimator.extract_pose_from_frames X frames kp_dir fs in
      match jsons with
      | [] => (Ok (), Artifacts eff fs None None None)
      | first_json :: _ =>
          match feature_extractor.extract_biomechanics X fs jsons csv_out with
          | Raise e => (Raise e, Artifacts eff fs None None None)
          | Ok table =>
              let csv := Some (feature_extractor.csv_written table) in
              let '(rendered, video) :=
                renderer.render_skeleton_video X fs frames jsons mp4_out fps in
              match rendered with
              | Raise e => (Raise e, Artifacts eff fs csv video None)
              | Ok _ =>
                  match visualizer.plot_pose_3d X fs first_json
                          (Some (vid_name ++ " — first pose")%string) with
                  | Raise e => (Raise e, Artifacts eff fs csv video None)
                  | Ok fig => (Ok (), Artifacts eff fs csv video (Some fig))
                  end
              end
          end
      end
  end.

End main.

(** ** Vocabulary of the properties *)

(** The last line of both [_angle]s, as a function of the raw difference
    in degrees. *)
Definition reflect180 (ang : R) : R :=
  Rabs (if Rlt_dec ang 180 then ang else 360 - ang).

(** The raw difference of the two directions at the vertex, in degrees. *)
Definition raw_angle (ax ay bx by_ cx cy : R) : R :=
  degrees (atan2 (cy - by_) (cx - bx) - atan2 (ay - by_) (ax - bx)).

Definition in_0_180 (x : R) : Prop := (0 <= x <= 180)%R.

(** The landmark indices [extract_biomechanics] reads. *)
Definition required : list nat := [12; 14; 16; 24; 26; 28].

Definition complete (lm : record) : Prop :=
  Forall (λ i, is_Some (lm !! i)) required.



(** The frames of [frames] whose index, counted from [start], is a
    multiple of [stride], in order. *)
Definition strided {A} (stride : Z) (start : nat) (frames : list A) : list A :=
  (List.filter (λ p, (Z.of_nat p.1 mod stride =? 0)%Z)
     (zip (seq start (length frames)) frames)).*2.

(** The rows [extract_biomechanics] is to emit: one per record that has
    every required landmark, in the order of [json_paths]. *)
Definition surviving_rows (X : externals) (fs : json_files)
    (json_paths : list path_like) : list feature_extractor.feature_row :=
  omap (λ jpath,
          match fs !! fspath jpath with
          | Some lm =>
              match feature_extractor.angles lm with
              | Ok (r_elbow, r_knee, trunk) =>
                  Some (feature_extractor.FeatureRow
                          (stem X (fspath jpath)) r_elbow r_knee trunk)
              | Raise _ => None
              end
          | None => None
          end) json_paths.

Definition is_path_obj (p : path_like) : Prop :=
  match p with
  | PathObj _ => True
  | Str _ => False
  end.

(** A frame goes through pose extraction: its image decodes and a pose is
    found in it. *)
Definition processed (X : externals) (fpath : path_like) : Prop :=
  ∃ img landmarks,
    imread X (fspath fpath) = Some img
    ∧ pose_process X img = Some landmarks.

(** The record stored at a path has every required landmark. *)
Definition record_complete (fs : json_files) (jpath : path_like) : Prop :=
  ∃ lm, fs !! fspath jpath = Some lm ∧ complete lm.

(** A frame image decodes; a record file exists. *)
Definition decodes (X : externals) (fpath : path_like) : Prop :=
  is_Some (imread X (fspath fpath)).

Definition stored (fs : json_files) (jpath : path_like) : Prop :=
  is_Some (fs !! fspath jpath).


(** The pixel positions of the visible landmarks of a record are within
    reach on a frame of width [w] and height [h]: well inside the range
    of a C [int], so that [int] and the drawing calls accept them. *)
Definition in_reach (w h : Z) (lm : record) : Prop :=
  ∀ i l, lm !! i = Some l → (3 / 10 < lm_vis l)%R →
    (-1073741824 < lm_x l * IZR w < 1073741824
     ∧ -1073741824 < lm_y l * IZR h < 1073741824)%R.

(** A record file exists and its positions are within reach. *)
Definition drawable (fs : json_files) (w h : Z) (jpath : path_like) : Prop :=
  ∃ lm, fs !! fspath jpath = Some lm ∧ in_reach w h lm.

(** A frame image decodes to the size [(w, h)]. *)
Definition fits (X : externals) (w h : Z) (fpath : path_like) : Prop :=
  ∃ img, imread X (fspath fpath) = Some img
         ∧ img_w img = w ∧ img_h img = h.




(** ** Sample inputs *)

(** Library behaviour for the examples: every image decodes to a 640x480
    frame in which no pose is found, and path texts are their own stem. *)
Definition sample_externals : externals :=
  Externals (λ s, s) (λ s, s) (λ _, Some (Image 480 640 0)) (λ _, None)
    (λ _, (100, 20)%Z).

(** The same, except that the second frame image does not decode. *)
Definition flaky_externals : externals :=
  Externals (λ s, s) (λ s, s)
    (λ p, if String.eqb p "frames/frame_00001.jpg" then None
          else Some (Image 480 640 0))
    (λ _, None) (λ _, (100, 20)%Z).

(** A batter standing upright, seen from the side: shoulder, elbow and
    wrist on one vertical line, hip, knee and ankle below them. *)
Definition upright : record :=
  {[ 12 := Landmark (1 / 2) (1 / 4) 0 1;
     14 := Landmark (1 / 2) (3 / 8) 0 1;
     16 := Landmark (1 / 2) (1 / 2) 0 1;
     24 := Landmark (1 / 2) (5 / 8) 0 1;
     26 := Landmark (1 / 2) (3 / 4) 0 1;
     28 := Landmark (1 / 2) (7 / 8) 0 1 ]}.

(** A record in which only the nose was kept. *)
Definition nose_only : record :=
  {[ 0 := Landmark (1 / 2) (1 / 8) 0 1 ]}.

(** The JSON files of the examples. *)
Definition sample_files : json_files :=
  {[ "kp/frame_00000.json" := upright; "kp/frame_00001.json" := nose_only ]}.

(** A ten-frame clip at 30 frames per second. *)
Definition sample_video : video_extractor.video :=
  video_extractor.Video true true 30 ((λ n, Image 480 640 n) <$> seq 0 10).

(** The manifests of the examples: three frames, two records. *)
Definition sample_frames : list path_like :=
  [PathObj "frames/frame_00000.jpg"; PathObj "frames/frame_00001.jpg";
   PathObj "frames/frame_00002.jpg"].

Definition sample_records : list path_like :=
  [PathObj "kp/frame_00000.json"; PathObj "kp/frame_00001.json"].

(** Reading a string of decimal digits back as a number, leading zeros
    included. *)
Definition parse_decimal (s : string) : option nat :=
  Nat.of_uint <$> NilEmpty.uint_of_string s.

(** The number in a frame file name: the name has to start with [frame_]
    and to end in [.jpg]; what is between the two is read as a decimal
    number. *)
Definition index_of_frame_name (name : string) : option nat :=
  let n := String.length name in
  if decide (String.substring 0 6 name = "frame_"
             ∧ String.substring (n - 4) 4 name = ".jpg"
             ∧ 10 ≤ n)
  then parse_decimal (String.substring 6 (n - 10) name)
  else None.

(** A string of decimal digits. *)
Definition all_digits (s : string) : Prop :=
  Forall (λ c, is_Some (Ascii.is_nat c)) (list_ascii_of_string s).

(** Where the record of a frame goes: [output_dir / f"{stem}.json"]. *)
Definition record_path (X : externals) (output_dir : string)
    (fpath : path_like) : path_like :=
  PathObj (joinpath output_dir (stem X (fspath fpath) ++ ".json")).

(** Library behaviour for the examples in which every image decodes and
    the pose model finds the 33 landmarks of MediaPipe in it, all at the
    centre of the image. *)
Definition detecting_externals : externals :=
  Externals (λ s, s) (λ s, s) (λ _, Some (Image 480 640 0))
    (λ _, Some (replicate 33 (Landmark (1 / 2) (1 / 2) 0 1)))
    (λ _, (100, 20)%Z).


(** A drawing call is one of the gold circles of the trail. *)
Definition trail_circle (op : renderer.draw_op) : Prop :=
  match op with
  | renderer.circle _ _ color _ => color = renderer.TRAIL_COLOR
  | _ => False
  end.

(** A written frame was composed in iteration [k] from a decoded image and
    a record, with a trail of at most [TRAIL_LEN] earlier points. *)
Definition composed (X : externals) (w h : Z) (n k : nat) (img : image)
    (lm : record) (c : renderer.canvas) : Prop :=
  ∃ trail,
    length trail ≤ renderer.TRAIL_LEN
    ∧ c = (renderer.render_frame X w h n k (renderer.Canvas img []) lm trail).1.

(** A drawing call is a filled box or a text. *)
Definition box_or_text (op : renderer.draw_op) : Prop :=
  match op with
  | renderer.rectangle _ _ _ _ | renderer.putText _ _ _ _ => True
  | _ => False
  end.

(** The connectors a trace draws: those whose two end points are present
    in the [x] list. *)
Definition drawn_connectors (xs : list (option R))
    (conns : list (nat * nat)) : list (nat * nat) :=
  filter (λ ab, is_Some (mjoin (xs !! ab.1)) ∧ is_Some (mjoin (xs !! ab.2)))
    conns.

(** Two end points and a break per connector, on one coordinate list. *)
Definition segments (cs : list (option R)) (conns : list (nat * nat))
    : list (option R) :=
  conns ≫= λ ab, [mjoin (cs !! ab.1); mjoin (cs !! ab.2); None].

(** The connectors of the pose viewer whose two end points a record has. *)
Definition connectors_of (r : record) : list (nat * nat) :=
  filter (λ ab, is_Some (r !! ab.1) ∧ is_Some (r !! ab.2))
    visualizer._CONNECTIONS.

(** The directories and files of a run of [main.run_pipeline]. *)
Definition frames_dir_of (X : externals) (root video_path : string) : string :=
  main.data_path root "extracted_frames" (stem X video_path).
Definition kp_dir_of (X : externals) (root video_path : string) : string :=
  main.data_path root "keypoints" (stem X video_path).
Definition csv_out_of (X : externals) (root video_path : string) : string :=
  main.data_path root "analysis" (stem X video_path ++ "_features.csv").
Definition mp4_out_of (X : externals) (root video_path : string) : string :=
  main.data_path root "analysis" (stem X video_path ++ "_visualized.mp4").
Definition first_pose_title (X : externals) (video_path : string) : string :=
  stem X video_path ++ " — first pose".

(* ===================================================================== *)
(** * Part II: properties                                                 *)
(* ===================================================================== *)

(** ** Angles *)

Section angles.
Local Open Scope R_scope.

Lemma atan_nonpos t : t <= 0 → atan t <= 0.
Proof.
  intros [Ht | ->].
  - left. rewrite <- atan_0. by apply atan_increasing.
  - rewrite atan_0. lra.
Qed.

Lemma atan_pos t : 0 < t → 0 < atan t.
Proof. intros Ht. rewrite <- atan_0. by apply atan_increasing. Qed.

Lemma atan2_range y x : - PI < atan2 y x <= PI.
Proof.
  pose proof PI_RGT_0 as HPI.
  unfold atan2.
  destruct (Rlt_dec 0 x) as [Hx | Hx].
  { pose proof (atan_bound (y / x)). lra. }
  destruct (Rlt_dec x 0) as [Hx' | Hx'].
  - pose proof (atan_bound (y / x)) as Hb.
    destruct (Rle_dec 0 y) as [Hy | Hy].
    + assert (atan (y / x) <= 0); [|lra].
      apply atan_nonpos. unfold Rdiv.
      pose proof (Rinv_lt_0_compat x Hx'). nra.
    + assert (0 < atan (y / x)); [|lra].
      apply atan_pos. unfold Rdiv.
      pose proof (Rinv_lt_0_compat x Hx'). nra.
  - destruct (Rlt_dec 0 y); [lra|].
    destruct (Rlt_dec y 0); lra.
Qed.

Lemma atan2_neg_x_axis x : x < 0 → atan2 0 x = PI.
Proof.
  intros Hx. unfold atan2.
  destruct (Rlt_dec 0 x); [lra|].
  destruct (Rlt_dec x 0); [|lra].
  destruct (Rle_dec 0 0); [|lra].
  replace (0 / x) with 0 by (field; lra).
  rewrite atan_0. lra.
Qed.

Lemma atan2_neg_y_axis y : y < 0 → atan2 y 0 = - (PI / 2).
Proof.
  intros Hy. unfold atan2.
  destruct (Rlt_dec 0 0); [lra|].
  destruct (Rlt_dec 0 y); [lra|].
  destruct (Rlt_dec y 0); [done|lra].
Qed.

Lemma atan2_pos_y_axis y : 0 < y → atan2 y 0 = PI / 2.
Proof.
  intros Hy. unfold atan2.
  destruct (Rlt_dec 0 0); [lra|].
  destruct (Rlt_dec 0 y); [done|lra].
Qed.

Lemma degrees_PI k : degrees (k * PI) = k * 180.
Proof. unfold degrees. pose proof PI_RGT_0. field. lra. Qed.

Lemma degrees_range t : - PI < t <= PI → -180 < degrees t <= 180.
Proof.
  intros [Hlo Hhi]. pose proof PI_RGT_0 as HPI. unfold degrees.
  assert (Hk : 0 < 180 / PI) by (apply Rdiv_lt_0_compat; lra).
  assert (HkPI : PI * (180 / PI) = 180) by (field; lra).
  set (k := 180 / PI) in *.
  pose proof (Rmult_lt_compat_r k _ _ Hk Hlo).
  pose proof (Rmult_le_compat_r k _ _ (Rlt_le _ _ Hk) Hhi).
  lra.
Qed.

Lemma degrees_minus s t : degrees (s - t) = degrees s - degrees t.
Proof. unfold degrees. ring. Qed.

Lemma raw_angle_range ax ay bx by_ cx cy :
  -360 < raw_angle ax ay bx by_ cx cy < 360.
Proof.
  unfold raw_angle. rewrite degrees_minus.
  pose proof (degrees_range _ (atan2_range (cy - by_) (cx - bx))).
  pose proof (degrees_range _ (atan2_range (ay - by_) (ax - bx))).
  lra.
Qed.

Lemma raw_angle_swap ax ay bx by_ cx cy :
  raw_angle cx cy bx by_ ax ay = - raw_angle ax ay bx by_ cx cy.
Proof. unfold raw_angle. rewrite !degrees_minus. ring. Qed.

Lemma reflect180_nonneg ang : 0 <= reflect180 ang.
Proof. apply Rabs_pos. Qed.

(** Where the reflection works: from -180 up to 360 degrees. *)
Lemma reflect180_in_range ang :
  -180 <= ang <= 360 → in_0_180 (reflect180 ang).
Proof.
  intros [Hlo Hhi]. unfold in_0_180, reflect180.
  destruct (Rlt_dec ang 180); unfold Rabs; destruct (Rcase_abs _); lra.
Qed.

(** Below -180 degrees nothing is reflected. *)
Lemma reflect180_below ang : ang < -180 → reflect180 ang = - ang.
Proof.
  intros H. unfold reflect180.
  destruct (Rlt_dec ang 180); [|lra].
  rewrite Rabs_left; lra.
Qed.

Lemma reflect180_above ang : 180 <= ang <= 360 → reflect180 ang = 360 - ang.
Proof.
  intros H. unfold reflect180.
  destruct (Rlt_dec ang 180); [lra|].
  rewrite Rabs_right; lra.
Qed.

Lemma reflect180_opp ang :
  -180 <= ang <= 180 → reflect180 (- ang) = reflect180 ang.
Proof.
  intros [Hlo Hhi]. unfold reflect180.
  destruct (Rlt_dec (- ang) 180), (Rlt_dec ang 180);
    unfold Rabs; repeat destruct (Rcase_abs _); lra.
Qed.

Lemma fe_angle_unfold a b c :
  feature_extractor._angle a b c
  = reflect180 (raw_angle a.1.1 a.1.2 b.1.1 b.1.2 c.1.1 c.1.2).
Proof. reflexivity. Qed.

Lemma rd_angle_unfold a b c :
  renderer._angle a b c
  = reflect180 (degrees (atan2 (IZR (c.2 - b.2)) (IZR (c.1 - b.1))
                         - atan2 (IZR (a.2 - b.2)) (IZR (a.1 - b.1)))).
Proof. reflexivity. Qed.

Lemma fe_angle_nonneg a b c : 0 <= feature_extractor._angle a b c.
Proof. rewrite fe_angle_unfold. apply reflect180_nonneg. Qed.

(** The angle is in range whenever the raw difference is not below
    -180 degrees. *)
Lemma fe_angle_in_range a b c :
  -180 <= raw_angle a.1.1 a.1.2 b.1.1 b.1.2 c.1.1 c.1.2 →
  in_0_180 (feature_extractor._angle a b c).
Proof.
  intros H. rewrite fe_angle_unfold. apply reflect180_in_range.
  pose proof (raw_angle_range a.1.1 a.1.2 b.1.1 b.1.2 c.1.1 c.1.2). lra.
Qed.

(** The two outer points can be swapped whenever the raw difference is
    within 180 degrees of zero. *)
Lemma fe_angle_swap a b c :
  -180 <= raw_angle a.1.1 a.1.2 b.1.1 b.1.2 c.1.1 c.1.2 <= 180 →
  feature_extractor._angle c b a = feature_extractor._angle a b c.
Proof.
  intros H. rewrite !fe_angle_unfold, raw_angle_swap.
  by apply reflect180_opp.
Qed.

End angles.

(** ** The angle at a raised arm: elbow at the centre, shoulder to its
    left, wrist straight above (image [y] grows downwards) *)

Section raised_arm.
Local Open Scope R_scope.

Lemma raised_arm_raw :
  raw_angle (1 / 4) (1 / 2) (1 / 2) (1 / 2) (1 / 2) (1 / 4) = -270.
Proof.
  unfold raw_angle.
  replace (1 / 2 - 1 / 2) with 0 by lra.
  rewrite atan2_neg_y_axis, atan2_neg_x_axis by lra.
  replace (- (PI / 2) - PI) with (- (3 / 2) * PI) by lra.
  rewrite degrees_PI. lra.
Qed.

Lemma raised_arm_raw_swapped :
  raw_angle (1 / 2) (1 / 4) (1 / 2) (1 / 2) (1 / 4) (1 / 2) = 270.
Proof. rewrite raw_angle_swap, raised_arm_raw. lra. Qed.

Lemma raised_arm_fe :
  feature_extractor._angle (1 / 4, 1 / 2, 0) (1 / 2, 1 / 2, 0) (1 / 2, 1 / 4, 0)
  = 270.
Proof.
  rewrite fe_angle_unfold. cbn [fst snd].
  rewrite raised_arm_raw, reflect180_below; lra.
Qed.

Lemma raised_arm_fe_swapped :
  feature_extractor._angle (1 / 2, 1 / 4, 0) (1 / 2, 1 / 2, 0) (1 / 4, 1 / 2, 0)
  = 90.
Proof.
  rewrite fe_angle_unfold. cbn [fst snd].
  rewrite raised_arm_raw_swapped, reflect180_above; lra.
Qed.

Lemma raised_arm_pixels_raw :
  degrees (atan2 (IZR (50 - 100)) (IZR (100 - 100))
           - atan2 (IZR (100 - 100)) (IZR (50 - 100))) = -270.
Proof.
  change (50 - 100)%Z with (-50)%Z. change (100 - 100)%Z with 0%Z.
  rewrite atan2_neg_y_axis, atan2_neg_x_axis by lra.
  replace (- (PI / 2) - PI) with (- (3 / 2) * PI) by lra.
  rewrite degrees_PI. lra.
Qed.

Lemma raised_arm_rd :
  renderer._angle (50, 100)%Z (100, 100)%Z (100, 50)%Z = 270.
Proof.
  rewrite rd_angle_unfold. cbn [fst snd].
  rewrite raised_arm_pixels_raw, reflect180_below; lra.
Qed.

Lemma raised_arm_rd_swapped :
  renderer._angle (100, 50)%Z (100, 100)%Z (50, 100)%Z = 90.
Proof.
  rewrite rd_angle_unfold. cbn [fst snd].
  change (100 - 100)%Z with 0%Z. change (50 - 100)%Z with (-50)%Z.
  rewrite atan2_neg_y_axis, atan2_neg_x_axis by lra.
  replace (PI - - (PI / 2)) with (3 / 2 * PI) by lra.
  rewrite degrees_PI, reflect180_above; lra.
Qed.

End raised_arm.

(** C1 (fails on the code): [_angle] is claimed to return a value in
    [0, 180] for every triple of points. With the elbow at the centre of
    the image, the shoulder to its left and the wrist straight above, the
    raw difference is -270 degrees, which the test [ang < 180] lets
    through unreflected: both copies of [_angle] return 270 for this right
    angle. *)
Theorem C1_angle_above_180 :
  (feature_extractor._angle (1 / 4, 1 / 2, 0) (1 / 2, 1 / 2, 0) (1 / 2, 1 / 4, 0)
   = 270
   ∧ ¬ in_0_180 (feature_extractor._angle
                   (1 / 4, 1 / 2, 0) (1 / 2, 1 / 2, 0) (1 / 2, 1 / 4, 0)))%R
  ∧ (renderer._angle (50, 100)%Z (100, 100)%Z (100, 50)%Z = 270
     ∧ ¬ in_0_180 (renderer._angle (50, 100)%Z (100, 100)%Z (100, 50)%Z))%R.
Proof.
  rewrite raised_arm_fe, raised_arm_rd.
  unfold in_0_180. repeat split; try reflexivity; lra.
Qed.

(** C3 (fails on the code): swapping the two outer points is claimed to
    leave [_angle] unchanged. On the raised arm of C1 the raw difference
    is -270 one way round and 270 the other: the first is returned as 270,
    the second is reflected to 90. *)
Theorem C3_angle_swap_differs :
  (feature_extractor._angle (1 / 4, 1 / 2, 0) (1 / 2, 1 / 2, 0) (1 / 2, 1 / 4, 0)
   ≠ feature_extractor._angle
       (1 / 2, 1 / 4, 0) (1 / 2, 1 / 2, 0) (1 / 4, 1 / 2, 0))%R
  ∧ renderer._angle (50, 100)%Z (100, 100)%Z (100, 50)%Z
    ≠ renderer._angle (100, 50)%Z (100, 100)%Z (50, 100)%Z.
Proof.
  rewrite raised_arm_fe, raised_arm_fe_swapped.
  rewrite raised_arm_rd, raised_arm_rd_swapped.
  split; lra.
Qed.

(** ** Feature extraction *)

Section features.
Import feature_extractor.
Local Open Scope R_scope.

Lemma pt_Some (lm : record) i l :
  lm !! i = Some l → pt lm i = Ok (lm_x l, lm_y l, lm_z l).
Proof. intros H. unfold pt. by rewrite H. Qed.

Lemma pt_None (lm : record) i : lm !! i = None → pt lm i = Raise KeyError.
Proof. intros H. unfold pt. by rewrite H. Qed.

Lemma complete_lookups (lm : record) :
  complete lm ↔
  is_Some (lm !! 12%nat) ∧ is_Some (lm !! 14%nat) ∧ is_Some (lm !! 16%nat) ∧
  is_Some (lm !! 24%nat) ∧ is_Some (lm !! 26%nat) ∧ is_Some (lm !! 28%nat).
Proof.
  unfold complete, required. rewrite !Forall_cons, Forall_nil. tauto.
Qed.

(** The [try] block either yields the three scalars or raises
    [KeyError], the latter exactly on an incomplete record. *)
Lemma angles_cases (lm : record) :
  (complete lm ∧ ∃ e k t, angles lm = Ok (e, k, t)
                          ∧ 0 <= e ∧ 0 <= k ∧ -180 < t <= 180)
  ∨ (¬ complete lm ∧ angles lm = Raise KeyError).
Proof.
  rewrite complete_lookups. unfold angles.
  destruct (lm !! 12%nat) as [l12|] eqn:H12;
    [rewrite (pt_Some _ _ _ H12)
    |rewrite (pt_None _ _ H12); right; split; [intros (?%is_Some_None&_)|]; done].
  destruct (lm !! 14%nat) as [l14|] eqn:H14;
    [rewrite (pt_Some _ _ _ H14)
    |rewrite (pt_None _ _ H14); right; split;
     [intros (_&?%is_Some_None&_)|]; done].
  destruct (lm !! 16%nat) as [l16|] eqn:H16;
    [rewrite (pt_Some _ _ _ H16)
    |rewrite (pt_None _ _ H16); right; split;
     [intros (_&_&?%is_Some_None&_)|]; done].
  destruct (lm !! 24%nat) as [l24|] eqn:H24;
    [rewrite (pt_Some _ _ _ H24)
    |rewrite (pt_None _ _ H24); right; split;
     [intros (_&_&_&?%is_Some_None&_)|]; done].
  destruct (lm !! 26%nat) as [l26|] eqn:H26;
    [rewrite (pt_Some _ _ _ H26)
    |rewrite (pt_None _ _ H26); right; split;
     [intros (_&_&_&_&?%is_Some_None&_)|]; done].
  destruct (lm !! 28%nat) as [l28|] eqn:H28;
    [rewrite (pt_Some _ _ _ H28)
    |rewrite (pt_None _ _ H28); right; split;
     [intros (_&_&_&_&_&?%is_Some_None)|]; done].
  left. split; [by eauto 10|].
  eexists _, _, _. split; [reflexivity|].
  split; [apply fe_angle_nonneg|]. split; [apply fe_angle_nonneg|].
  apply degrees_range, atan2_range.
Qed.

Lemma angles_Ok_inv (lm : record) e k t :
  angles lm = Ok (e, k, t) →
  complete lm ∧ 0 <= e ∧ 0 <= k ∧ -180 < t <= 180.
Proof.
  intros H. destruct (angles_cases lm) as [(Hc & e' & k' & t' & Heq & Hb) | (_ & Heq)];
    rewrite Heq in H; [|done].
  by simplify_eq.
Qed.

(** The two angles stay below a full turn, the trunk direction within
    half a turn either way. *)
Lemma fe_angle_le_360 a b c : feature_extractor._angle a b c <= 360.
Proof.
  rewrite fe_angle_unfold.
  pose proof (raw_angle_range a.1.1 a.1.2 b.1.1 b.1.2 c.1.1 c.1.2) as Hraw.
  unfold reflect180.
  destruct (Rlt_dec _ 180); unfold Rabs; destruct (Rcase_abs _); lra.
Qed.

Lemma angles_Ok_upper (lm : record) e k t :
  angles lm = Ok (e, k, t) → e <= 360 ∧ k <= 360.
Proof.
  unfold angles.
  destruct (lm !! 12%nat) as [l12|] eqn:H12;
    [rewrite (pt_Some _ _ _ H12)|by rewrite (pt_None _ _ H12)].
  destruct (lm !! 14%nat) as [l14|] eqn:H14;
    [rewrite (pt_Some _ _ _ H14)|by rewrite (pt_None _ _ H14)].
  destruct (lm !! 16%nat) as [l16|] eqn:H16;
    [rewrite (pt_Some _ _ _ H16)|by rewrite (pt_None _ _ H16)].
  destruct (lm !! 24%nat) as [l24|] eqn:H24;
    [rewrite (pt_Some _ _ _ H24)|by rewrite (pt_None _ _ H24)].
  destruct (lm !! 26%nat) as [l26|] eqn:H26;
    [rewrite (pt_Some _ _ _ H26)|by rewrite (pt_None _ _ H26)].
  destruct (lm !! 28%nat) as [l28|] eqn:H28;
    [rewrite (pt_Some _ _ _ H28)|by rewrite (pt_None _ _ H28)].
  intros [= <- <- <-]. split; apply fe_angle_le_360.
Qed.

Lemma angles_complete (lm : record) :
  complete lm → ∃ e k t, angles lm = Ok (e, k, t).
Proof.
  intros Hc. destruct (angles_cases lm) as [(_ & e & k & t & Heq & _) | (Hn & _)];
    [by eauto|done].
Qed.

Lemma angles_incomplete (lm : record) :
  ¬ complete lm → angles lm = Raise KeyError.
Proof.
  intros Hn. by destruct (angles_cases lm) as [(Hc & _) | (_ & Heq)].
Qed.

Context (X : externals).

(** Whatever the loop returns is what was there plus the surviving rows. *)
Lemma rows_loop_Ok_inv fs json_paths rows out :
  rows_loop X fs json_paths rows = Ok out →
  out = rows ++ surviving_rows X fs json_paths.
Proof.
  revert rows. induction json_paths as [|jpath rest IH]; intros rows; simpl.
  { intros [= <-]. by rewrite app_nil_r. }
  unfold load_json. destruct (fs !! fspath jpath) as [lm|] eqn:Hlm; [|done].
  simpl.
  destruct (angles_cases lm) as [(_ & e & k & t & -> & _) | (_ & ->)].
  - intros H%IH. by rewrite H, <- app_assoc.
  - destruct (dot_name X jpath); simpl; [|done]. apply IH.
Qed.

(** On [Path] objects that name existing files the loop runs to its
    end. *)
Lemma rows_loop_paths fs json_paths rows :
  Forall is_path_obj json_paths →
  Forall (λ j, is_Some (fs !! fspath j)) json_paths →
  rows_loop X fs json_paths rows = Ok (rows ++ surviving_rows X fs json_paths).
Proof.
  revert rows. induction json_paths as [|jpath rest IH]; intros rows Hp Hf; simpl.
  { by rewrite app_nil_r. }
  apply Forall_cons in Hp as [Hj Hp]. apply Forall_cons in Hf as [[lm Hlm] Hf].
  unfold load_json. rewrite Hlm. simpl.
  destruct (angles_cases lm) as [(_ & e & k & t & -> & _) | (_ & ->)].
  - rewrite IH by done. by rewrite <- app_assoc.
  - destruct jpath; [done|]. simpl. by apply IH.
Qed.

(** Skipping, order and the file written, for [Path] arguments: the
    table holds the surviving rows in the order of the records, and is
    written whatever their number. *)
Lemma extract_biomechanics_paths fs json_paths csv_out :
  Forall is_path_obj json_paths →
  Forall (λ j, is_Some (fs !! fspath j)) json_paths →
  extract_biomechanics X fs json_paths csv_out
  = Ok (Output (surviving_rows X fs json_paths)
          (csv_out, surviving_rows X fs json_paths)).
Proof.
  intros Hp Hf. unfold extract_biomechanics.
  by rewrite (rows_loop_paths _ _ [] Hp Hf).
Qed.

Lemma surviving_rows_elem fs json_paths row :
  row ∈ surviving_rows X fs json_paths →
  ∃ jpath lm, jpath ∈ json_paths ∧ fs !! fspath jpath = Some lm
    ∧ angles lm = Ok (r_elbow_deg row, r_knee_deg row, trunk_deg row).
Proof.
  unfold surviving_rows. intros (jpath & Hin & H)%list_elem_of_omap.
  exists jpath. destruct (fs !! fspath jpath) as [lm|]; [|done].
  exists lm. destruct (angles lm) as [[[e k] t]|]; [|done].
  by simplify_eq.
Qed.

End features.

Section upright_example.
Import feature_extractor.
Local Open Scope R_scope.

Lemma upright_angles :
  ∃ e k, angles upright = Ok (e, k, -90).
Proof.
  unfold angles, pt, upright. simplify_map_eq. simpl.
  eexists _, _. do 2 f_equal.
  replace (1 / 2 - 1 / 2) with 0 by lra.
  rewrite atan2_neg_y_axis by lra.
  replace (- (PI / 2)) with (- (1 / 2) * PI) by lra.
  rewrite degrees_PI. lra.
Qed.

End upright_example.

Section upright_run.
Import feature_extractor.
Local Open Scope R_scope.

Lemma upright_row :
  ∃ e k,
    extract_biomechanics sample_externals sample_files
      [PathObj "kp/frame_00000.json"] "features.csv"
    = Ok (Output [FeatureRow "kp/frame_00000.json" e k (-90)]
            ("features.csv", [FeatureRow "kp/frame_00000.json" e k (-90)])).
Proof.
  destruct upright_angles as (e & k & He). exists e, k.
  rewrite extract_biomechanics_paths.
  - unfold surviving_rows, sample_files. simpl.
    rewrite lookup_insert_eq, He. reflexivity.
  - by repeat constructor.
  - repeat constructor. unfold sample_files. simpl.
    by rewrite lookup_insert_eq.
Qed.

End upright_run.

(** C2, as stated, fails on the trunk: the claim puts all three scalars of
    an emitted row in [0, 180]. For a batter standing upright the shoulder
    is straight above the hip, the image [y] of the shoulder is the
    smaller one, and [trunk_deg] is -90. *)
Lemma C2_trunk_negative :
  ∃ out row,
    feature_extractor.extract_biomechanics sample_externals sample_files
      [PathObj "kp/frame_00000.json"] "features.csv" = Ok out
    ∧ row ∈ feature_extractor.df out
    ∧ feature_extractor.trunk_deg row = (-90)%R
    ∧ ¬ (in_0_180 (feature_extractor.r_elbow_deg row)
         ∧ in_0_180 (feature_extractor.r_knee_deg row)
         ∧ in_0_180 (feature_extractor.trunk_deg row)).
Proof.
  destruct upright_row as (e & k & Hrun).
  eexists _, _. split; [exact Hrun|]. simpl.
  split; [apply list_elem_of_here|]. split; [done|].
  unfold in_0_180. simpl. lra.
Qed.

(** C2, amended: in every row that [extract_biomechanics] emits,
    [r_elbow_deg] and [r_knee_deg] lie between 0 and 360, and
    [trunk_deg], which is the signed direction of the hip-to-shoulder line
    and does not go through [_angle], between -180 and 180, all ends
    included: a direction of exactly -180 degrees is what the code returns
    for a shoulder straight to the left of the hip and a hair above
    it. *)
Theorem C2_feature_row_ranges X fs json_paths csv_out out row :
  feature_extractor.extract_biomechanics X fs json_paths csv_out = Ok out →
  row ∈ feature_extractor.df out →
  (0 <= feature_extractor.r_elbow_deg row <= 360
   ∧ 0 <= feature_extractor.r_knee_deg row <= 360
   ∧ -180 <= feature_extractor.trunk_deg row <= 180)%R.
Proof.
  unfold feature_extractor.extract_biomechanics.
  destruct (feature_extractor.rows_loop X fs json_paths []) as [rows|] eqn:Hloop;
    [|done].
  intros [= <-]. simpl. apply rows_loop_Ok_inv in Hloop as ->. simpl.
  intros (jpath & lm & _ & _ & Hang)%surviving_rows_elem.
  pose proof (angles_Ok_upper _ _ _ _ Hang) as [He Hk].
  apply angles_Ok_inv in Hang as (_ & ? & ? & ? & ?).
  cbn [feature_extractor.r_elbow_deg feature_extractor.r_knee_deg
       feature_extractor.trunk_deg]. lra.
Qed.

Lemma C2_feature_row_ranges_witness :
  ∃ out row,
    feature_extractor.extract_biomechanics sample_externals sample_files
      [PathObj "kp/frame_00000.json"] "features.csv" = Ok out
    ∧ row ∈ feature_extractor.df out
    ∧ (0 <= feature_extractor.r_elbow_deg row <= 360
       ∧ 0 <= feature_extractor.r_knee_deg row <= 360
       ∧ -180 <= feature_extractor.trunk_deg row <= 180)%R.
Proof.
  destruct upright_row as (e & k & Hrun).
  eexists _, _. split; [exact Hrun|].
  split; [apply list_elem_of_here|].
  apply (C2_feature_row_ranges sample_externals sample_files
           [PathObj "kp/frame_00000.json"] "features.csv" _ _ Hrun).
  apply list_elem_of_here.
Defined.

(** C6 (fails on the code): a record that lacks a required landmark is to
    be skipped without raising, and the remaining records processed. When
    the paths are given as [str], which the signature allows, the skip
    itself raises: the debug log evaluates [jpath.name], an attribute that
    only [Path] objects have. The complete record that follows is never
    read and no table is written. *)
Theorem C6_str_path_skip_raises X :
  feature_extractor.extract_biomechanics X sample_files
    [Str "kp/frame_00001.json"; Str "kp/frame_00000.json"] "features.csv"
  = Raise AttributeError.
Proof.
  assert (Hnose : sample_files !! "kp/frame_00001.json" = Some nose_only).
  { unfold sample_files. rewrite lookup_insert_ne by done.
    apply lookup_singleton_eq. }
  assert (Hinc : feature_extractor.angles nose_only = Raise KeyError).
  { apply angles_incomplete. rewrite complete_lookups. unfold nose_only.
    intros (H & _). rewrite lookup_singleton_ne in H by done.
    by apply is_Some_None in H. }
  unfold feature_extractor.extract_biomechanics.
  cbn [feature_extractor.rows_loop]. unfold load_json. cbn [fspath].
  rewrite Hnose. cbn [mbind result_bind rbind]. rewrite Hinc.
  reflexivity.
Qed.

(** ** Frame sampling *)

Section sampling.
Import video_extractor.

Lemma strided_nil {A} stride start : strided stride start (@nil A) = [].
Proof. reflexivity. Qed.

Lemma strided_cons {A} stride start (frame : A) rest :
  strided stride start (frame :: rest)
  = if (Z.of_nat start mod stride =? 0)%Z
    then frame :: strided stride (S start) rest
    else strided stride (S start) rest.
Proof.
  unfold strided. simpl.
  destruct (Z.of_nat start mod stride =? 0)%Z; reflexivity.
Qed.

(** Rounding up a quotient of integers, for a positive divisor. *)
Lemma Qceiling_div (n s : Z) :
  (0 < s)%Z → Qceiling (inject_Z n / inject_Z s) = ((n + s - 1) / s)%Z.
Proof.
  intros Hs. destruct s as [|p|p]; try lia.
  unfold Qceiling, Qfloor, Qdiv, Qmult, Qinv, Qopp, inject_Z. simpl.
  rewrite Z.mul_1_r.
  Z.div_mod_to_equations. nia.
Qed.

(** One more index adds a kept frame exactly at a multiple of the
    stride. *)
Lemma cdiv_succ (a s : Z) :
  (0 <= a)%Z → (1 <= s)%Z →
  ((a + 1 + s - 1) / s
   = (a + s - 1) / s + if (a mod s =? 0)%Z then 1 else 0)%Z.
Proof.
  intros Ha Hs.
  pose proof (Z.div_mod a s ltac:(lia)) as Hdm.
  pose proof (Z.mod_pos_bound a s ltac:(lia)) as Hr.
  set (q := (a / s)%Z) in *. set (r := (a mod s)%Z) in *.
  replace (a + 1 + s - 1)%Z with (a + s)%Z by lia.
  destruct (Z.eqb_spec r 0) as [H0 | H0].
  - rewrite <- (Z.div_unique (a + s) s (q + 1) 0) by lia.
    rewrite <- (Z.div_unique (a + s - 1) s q (s - 1)) by lia. lia.
  - rewrite <- (Z.div_unique (a + s) s (q + 1) r) by lia.
    rewrite <- (Z.div_unique (a + s - 1) s (q + 1) (r - 1)) by lia. lia.
Qed.

Lemma strided_length {A} (stride : Z) start (frames : list A) :
  (1 <= stride)%Z →
  Z.of_nat (length (strided stride start frames))
  = ((Z.of_nat (start + length frames) + stride - 1) / stride
     - (Z.of_nat start + stride - 1) / stride)%Z.
Proof.
  intros Hs. revert start.
  induction frames as [|frame rest IH]; intros start.
  { rewrite strided_nil, Nat.add_0_r. simpl. lia. }
  rewrite strided_cons.
  pose proof (cdiv_succ (Z.of_nat start) stride ltac:(lia) Hs) as Hstep.
  replace (Z.of_nat (start + length (frame :: rest)))
    with (Z.of_nat (S start + length rest)) by (simpl; lia).
  specialize (IH (S start)).
  replace (Z.of_nat (S start)) with (Z.of_nat start + 1)%Z in IH by lia.
  destruct (Z.of_nat start mod stride =? 0)%Z; simpl length; lia.
Qed.

(** What the loop leaves behind, from any state. *)
Lemma read_loop_spec stride output_dir frames idx saved_idx saved eff :
  let kept := strided stride idx frames in
  let names :=
    (λ k, joinpath output_dir (frame_name k))
      <$> seq saved_idx (length kept) in
  read_loop stride output_dir frames idx saved_idx saved eff
  = (saved ++ (PathObj <$> names),
     Effects (reads eff + S (length frames))
       (imwrites eff ++ zip names kept)).
Proof.
  revert idx saved_idx saved eff.
  induction frames as [|frame rest IH]; intros idx saved_idx saved eff.
  { simpl. rewrite !app_nil_r. do 2 f_equal. lia. }
  cbn zeta. rewrite strided_cons. cbn [read_loop].
  destruct (Z.of_nat idx mod stride =? 0)%Z; rewrite IH; cbn zeta.
  - cbn [length seq fmap list_fmap zip zip_with reads imwrites].
    rewrite <- !app_assoc. do 2 f_equal. simpl. lia.
  - cbn [length reads imwrites]. do 2 f_equal. lia.
Qed.

Lemma stride_of_nonzero native_fps fps :
  fps ≠ 0%Z →
  stride_of native_fps fps
  = Ok (Z.max (Qfloor (native_fps / inject_Z fps)) 1).
Proof.
  intros Hfps. unfold stride_of, floordiv.
  destruct (Z.eqb_spec fps 0); [done|reflexivity].
Qed.

(** The whole call on a source that opens and reports a rate, for a
    target rate other than zero. *)
Lemma extract_frames_Ok v video_path output_dir fps :
  vid_exists v = true → vid_opens v = true →
  ¬ (vid_fps v == 0)%Q → fps ≠ 0%Z →
  let stride := Z.max (Qfloor (vid_fps v / inject_Z fps)) 1 in
  let kept := strided stride 0 (vid_frames v) in
  let names :=
    (λ k, joinpath output_dir (frame_name k)) <$> seq 0 (length kept) in
  extract_frames v video_path output_dir fps
  = (Ok (PathObj <$> names),
     Effects (S (length (vid_frames v))) (zip names kept)).
Proof.
  intros He Ho Hfps Hz. cbn zeta. unfold extract_frames.
  rewrite He, Ho. simpl.
  destruct (Qeq_bool (vid_fps v) 0) eqn:Hq.
  { by apply Qeq_bool_iff in Hq. }
  rewrite stride_of_nonzero by done.
  by rewrite read_loop_spec.
Qed.

End sampling.

(** C4, as stated, fails at a target rate of zero, which is below every
    positive native rate: on a sound ten-frame clip at 30 frames per
    second the stride cannot be computed, the call raises and no manifest
    is returned. *)
Lemma C4_zero_target_rate_no_manifest :
  video_extractor.vid_exists sample_video = true
  ∧ video_extractor.vid_opens sample_video = true
  ∧ (0 < video_extractor.vid_fps sample_video)%Q
  ∧ (inject_Z 0 <= video_extractor.vid_fps sample_video)%Q
  ∧ ¬ ∃ saved eff,
        video_extractor.extract_frames sample_video "clip.mp4" "frames" 0
        = (Ok saved, eff).
Proof.
  repeat (split; [done|]).
  intros (saved & eff & Hrun). discriminate Hrun.
Qed.

(** C4, amended: for a video that decodes [N] frames, a native rate
    [F > 0] and a target rate [R ≤ F] other than zero, [extract_frames]
    writes exactly the frames whose index is a multiple of
    [stride = max (floor (F / R)) 1], in their order, under consecutive
    zero-padded names, and returns these names: a manifest of length
    [ceil (N / stride)]. *)
Theorem C4_extract_frames_strided v video_path output_dir fps :
  video_extractor.vid_exists v = true →
  video_extractor.vid_opens v = true →
  (0 < video_extractor.vid_fps v)%Q →
  (inject_Z fps <= video_extractor.vid_fps v)%Q →
  fps ≠ 0%Z →
  let stride := Z.max (Qfloor (video_extractor.vid_fps v / inject_Z fps)) 1 in
  let N := length (video_extractor.vid_frames v) in
  ∃ saved eff,
    video_extractor.extract_frames v video_path output_dir fps = (Ok saved, eff)
    ∧ (video_extractor.imwrites eff).*2
      = strided stride 0 (video_extractor.vid_frames v)
    ∧ (video_extractor.imwrites eff).*1 = fspath <$> saved
    ∧ saved = (λ k, PathObj (joinpath output_dir (video_extractor.frame_name k)))
                <$> seq 0 (length saved)
    ∧ Z.of_nat (length saved)
      = Qceiling (inject_Z (Z.of_nat N) / inject_Z stride).
Proof.
  intros He Ho Hpos _ Hz stride N.
  assert (Hnz : ¬ (video_extractor.vid_fps v == 0)%Q).
  { intros Heq. rewrite Heq in Hpos. by apply Qlt_irrefl in Hpos. }
  pose proof (extract_frames_Ok v video_path output_dir fps He Ho Hnz Hz) as Hrun.
  cbn zeta in Hrun. fold stride in Hrun.
  set (kept := strided stride 0 (video_extractor.vid_frames v)) in *.
  set (names := (λ k, joinpath output_dir (video_extractor.frame_name k))
                  <$> seq 0 (length kept)) in *.
  assert (Hlen : length names = length kept).
  { unfold names. by rewrite length_fmap, length_seq. }
  eexists _, _. split; [exact Hrun|]. cbn [video_extractor.imwrites].
  split; [by rewrite snd_zip by lia|].
  split.
  { rewrite fst_zip by lia. rewrite <- list_fmap_compose.
    symmetry. apply list_fmap_id. }
  split.
  { rewrite length_fmap, Hlen. unfold names.
    by rewrite <- list_fmap_compose. }
  assert (Hs : (1 <= stride)%Z) by (unfold stride; lia).
  rewrite length_fmap, Hlen. unfold kept.
  rewrite strided_length by done.
  rewrite Qceiling_div by lia.
  change (Z.of_nat 0) with 0%Z. rewrite Nat.add_0_l.
  rewrite (Z.div_small (0 + stride - 1)) by lia. fold N. lia.
Qed.

Lemma C4_extract_frames_strided_witness :
  ∃ saved eff,
    video_extractor.extract_frames sample_video "clip.mp4" "frames" 5
    = (Ok saved, eff)
    ∧ (video_extractor.imwrites eff).*2
      = strided 6 0 (video_extractor.vid_frames sample_video)
    ∧ (video_extractor.imwrites eff).*1 = fspath <$> saved
    ∧ saved = (λ k, PathObj (joinpath "frames" (video_extractor.frame_name k)))
                <$> seq 0 (length saved)
    ∧ Z.of_nat (length saved) = 2%Z.
Proof.
  apply (C4_extract_frames_strided sample_video "clip.mp4" "frames" 5);
    [reflexivity | reflexivity | reflexivity | discriminate | discriminate].
Defined.

(** C5, as stated, fails: the claim lets [extract_frames] raise only for a
    missing source, a source that does not open, or a native rate of
    zero. A target rate of zero on a sound ten-frame clip raises as well:
    the floor division that computes the stride divides by it. *)
Lemma C5_zero_target_rate_raises :
  raises (video_extractor.extract_frames sample_video "clip.mp4" "frames" 0).1
  ∧ ¬ (video_extractor.vid_exists sample_video = false
       ∨ video_extractor.vid_opens sample_video = false
       ∨ (video_extractor.vid_fps sample_video == 0)%Q).
Proof.
  split; [exact I|].
  intros [H | [H | H]]; discriminate.
Qed.

(** C5, amended: [extract_frames] raises whenever the source is missing,
    cannot be opened, reports a native rate of zero, or the target rate is
    zero, and in each of these cases before a frame is read or an image
    written, so that no manifest is returned.  Nothing is claimed the
    other way round: these four are not the only causes of an error. *)
Theorem C5_extract_frames_raises_if v video_path output_dir fps :
  video_extractor.vid_exists v = false
  ∨ video_extractor.vid_opens v = false
  ∨ (video_extractor.vid_fps v == 0)%Q
  ∨ fps = 0%Z →
  let run := video_extractor.extract_frames v video_path output_dir fps in
  raises run.1
  ∧ video_extractor.reads run.2 = 0
  ∧ video_extractor.imwrites run.2 = [].
Proof.
  intros Hbad. cbn zeta. unfold video_extractor.extract_frames.
  destruct (video_extractor.vid_exists v); simpl; [|done].
  destruct (video_extractor.vid_opens v); simpl; [|done].
  destruct (Qeq_bool (video_extractor.vid_fps v) 0) eqn:Hq; simpl; [done|].
  assert (Hq' : ¬ (video_extractor.vid_fps v == 0)%Q).
  { intros H%Qeq_bool_iff. congruence. }
  unfold video_extractor.stride_of, video_extractor.floordiv.
  destruct (Z.eqb_spec fps 0) as [-> | Hz]; simpl; [done|].
  by destruct Hbad as [H | [H | [H | H]]].
Qed.

Lemma C5_extract_frames_raises_if_witness :
  raises (video_extractor.extract_frames
            (video_extractor.Video true false 30 []) "clip.mp4" "frames" 5).1
  ∧ video_extractor.reads
      (video_extractor.extract_frames
         (video_extractor.Video true false 30 []) "clip.mp4" "frames" 5).2
    = 0
  ∧ video_extractor.imwrites
      (video_extractor.extract_frames
         (video_extractor.Video true false 30 []) "clip.mp4" "frames" 5).2
    = [].
Proof.
  apply (C5_extract_frames_raises_if (video_extractor.Video true false 30 [])
           "clip.mp4" "frames" 5).
  right. left. reflexivity.
Defined.

(** ** Pose extraction *)

Section pose.
Import pose_estimator.
Context (X : externals).

#[global] Instance processed_dec fpath : Decision (processed X fpath).
Proof.
  unfold processed.
  destruct (imread X (fspath fpath)) as [img|];
    [|right; by intros (? & ? & ? & ?)].
  destruct (pose_process X img) as [landmarks|] eqn:Hp.
  - left. by eauto.
  - right. intros (? & ? & ? & ?). by simplify_eq.
Defined.

(** The loop appends one [Path] per processed frame, keeps the files
    that were there and leaves a file behind every path it returns. *)
Lemma pose_loop_spec frame_paths output_dir saved fs :
  ∃ new fs',
    pose_loop X frame_paths output_dir saved fs = (saved ++ new, fs')
    ∧ length new = length (filter (processed X) frame_paths)
    ∧ Forall is_path_obj new
    ∧ Forall (λ j, is_Some (fs' !! fspath j)) new
    ∧ (∀ p, is_Some (fs !! p) → is_Some (fs' !! p)).
Proof.
  revert saved fs.
  induction frame_paths as [|fpath rest IH]; intros saved fs.
  { exists [], fs. by rewrite app_nil_r. }
  cbn [pose_loop]. rewrite filter_cons.
  destruct (decide (processed X fpath)) as [(img & lms & Him & Hp) | Hno].
  - rewrite Him, Hp.
    set (jpath := joinpath output_dir (stem X (fspath fpath) ++ ".json")).
    destruct (IH (saved ++ [PathObj jpath]) (<[jpath := lm_json lms]> fs))
      as (new & fs' & -> & Hlen & Hobj & Hfiles & Hkeep).
    exists (PathObj jpath :: new), fs'.
    split; [by rewrite <- app_assoc|].
    split; [simpl; by rewrite Hlen|].
    split; [by constructor|].
    split.
    + constructor; [|done]. apply Hkeep. simpl.
      by rewrite lookup_insert_eq.
    + intros p Hsome. apply Hkeep.
      destruct (decide (jpath = p)) as [-> | Hne].
      * by rewrite lookup_insert_eq.
      * by rewrite lookup_insert_ne.
  - destruct (IH saved fs) as (new & fs' & Heq & Hrest).
    exists new, fs'. split; [|done].
    destruct (imread X (fspath fpath)) as [img|] eqn:Him; [|done].
    destruct (pose_process X img) as [lms|] eqn:Hp; [|done].
    destruct Hno. by exists img, lms.
Qed.

End pose.

(** ** Counting *)

Section counting.
Context {A : Type} (P : A → Prop) `{!∀ x, Decision (P x)}.

Lemma filter_length_eq (l : list A) :
  length (filter P l) = length l ↔ Forall P l.
Proof.
  induction l as [|x l IH]; [by intuition|].
  rewrite filter_cons, Forall_cons.
  pose proof (length_filter P l).
  destruct (decide (P x)); simpl.
  - rewrite <- IH. intuition lia.
  - split; [lia|tauto].
Qed.

End counting.

(** ** From frames to rows *)

Section rows.
Import feature_extractor.
Context (X : externals).

#[global] Instance record_complete_dec fs jpath :
  Decision (record_complete fs jpath).
Proof.
  unfold record_complete.
  destruct (fs !! fspath jpath) as [lm|]; [|right; by intros (? & ? & ?)].
  destruct (decide (complete lm)) as [Hc | Hc].
  - left. by eauto.
  - right. intros (? & ? & ?). by simplify_eq.
Defined.

Lemma surviving_rows_length fs json_paths :
  length (surviving_rows X fs json_paths)
  = length (filter (record_complete fs) json_paths).
Proof.
  induction json_paths as [|jpath rest IH]; [done|].
  rewrite filter_cons. unfold surviving_rows in *. cbn [omap list_omap].
  destruct (decide (record_complete fs jpath)) as [(lm & Hlm & Hc) | Hno].
  - rewrite Hlm. destruct (angles_complete lm Hc) as (e & k & t & ->).
    simpl. by rewrite IH.
  - destruct (fs !! fspath jpath) as [lm|] eqn:Hlm; [|done].
    rewrite angles_incomplete; [done|].
    intros Hc. apply Hno. by exists lm.
Qed.

End rows.

(** C7: on every run of pose extraction followed by feature extraction,
    the table has at most as many rows as there are landmark records,
    which are at most as many as the sampled frames; all three numbers are
    equal exactly when every frame image decodes with a pose detected in
    it and every record has all the required landmarks. *)
Theorem C7_rows_records_frames X frame_paths kp_dir fs csv_out :
  let run := pose_estimator.extract_pose_from_frames X frame_paths kp_dir fs in
  let json_paths := run.1 in
  ∃ out,
    feature_extractor.extract_biomechanics X run.2 json_paths csv_out = Ok out
    ∧ length (feature_extractor.df out) ≤ length json_paths
    ∧ length json_paths ≤ length frame_paths
    ∧ (length (feature_extractor.df out) = length json_paths
       ∧ length json_paths = length frame_paths
       ↔ Forall (processed X) frame_paths
         ∧ Forall (record_complete run.2) json_paths).
Proof.
  cbn zeta. unfold pose_estimator.extract_pose_from_frames.
  destruct (pose_loop_spec X frame_paths kp_dir [] fs)
    as (new & fs' & -> & Hlen & Hobj & Hfiles & _).
  cbn [fst snd app].
  rewrite (extract_biomechanics_paths X fs' new csv_out Hobj Hfiles).
  eexists. split; [reflexivity|]. cbn [feature_extractor.df].
  rewrite surviving_rows_length.
  pose proof (length_filter (record_complete fs') new) as Hrows.
  pose proof (length_filter (processed X) frame_paths) as Hrecs.
  split; [done|]. split; [lia|].
  rewrite filter_length_eq, Hlen, filter_length_eq. tauto.
Qed.

(** ** Rendering *)

Section rendering.
Import renderer.
Context (X : externals).

(** A point is in [pts] exactly when its landmark is there and passes
    the visibility filter. *)
Lemma pts_of_lookup w h (lm : record) i p :
  pts_of w h lm !! i = Some p
  ↔ ∃ l, lm !! i = Some l ∧ (3 / 10 < lm_vis l)%R ∧ p = pixel w h l.
Proof.
  unfold pts_of. rewrite lookup_fmap_Some. split.
  - intros (l & <- & [Hl Hv]%map_lookup_filter_Some). by exists l.
  - intros (l & Hl & Hv & ->). exists l. split; [done|].
    by apply map_lookup_filter_Some.
Qed.










End rendering.

#[global] Instance decodes_dec X fpath : Decision (decodes X fpath).
Proof. unfold decodes. apply _. Defined.

#[global] Instance fits_dec X w h fpath : Decision (fits X w h fpath).
Proof.
  unfold fits. destruct (imread X (fspath fpath)) as [img|].
  - destruct (decide (img_w img = w ∧ img_h img = h)) as [Hyes | Hno].
    + left. by exists img.
    + right. intros (img' & [= <-] & Hw & Hh). by apply Hno.
  - right. by intros (img' & [=] & _).
Defined.

Section rendering_loop.
Import renderer.
Context (X : externals).

Lemma deque_append_length {A} maxlen (d : list A) x :
  length (deque_append maxlen d x) = S (length d) `min` maxlen.
Proof.
  unfold deque_append. cbn zeta.
  rewrite length_drop, !length_app. cbn [length]. lia.
Qed.

Lemma next_trail_length pts trail :
  length trail ≤ TRAIL_LEN → length (next_trail pts trail) ≤ TRAIL_LEN.
Proof.
  intros Hlen. unfold next_trail. destruct (pts !! 16); [|done].
  rewrite deque_append_length. lia.
Qed.

Lemma render_frame_trail w h n idx frame lm trail :
  (render_frame X w h n idx frame lm trail).2
  = next_trail (pts_of w h lm) trail.
Proof. reflexivity. Qed.

Lemma render_frame_trail_length w h n idx frame lm trail :
  length trail ≤ TRAIL_LEN →
  length (render_frame X w h n idx frame lm trail).2 ≤ TRAIL_LEN.
Proof. rewrite render_frame_trail. apply next_trail_length. Qed.

(** Every frame the loop gives to the writer, however the loop ends, was
    composed in one of its iterations from the image and the record of
    the pair of that iteration; frame [k] comes from iteration [k] or,
    after pairs whose image did not decode, from a later one. *)
Lemma render_loop_frames fs w h n pairs idx trail vw :
  length trail ≤ TRAIL_LEN →
  ∃ new,
    (render_loop X fs w h n pairs idx trail vw).2 = vw ++ new
    ∧ ∀ k c, new !! k = Some c →
        ∃ i fpath jpath img lm,
          k ≤ i
          ∧ pairs !! i = Some (fpath, jpath)
          ∧ imread X (fspath fpath) = Some img
          ∧ fs !! fspath jpath = Some lm
          ∧ composed X w h n (idx + i) img lm c.
Proof.
  revert idx trail vw.
  induction pairs as [|[fpath jpath] rest IH]; intros idx trail vw Htrail.
  { exists []. split; [by rewrite app_nil_r|]. by intros k c ?. }
  cbn [render_loop]. unfold load_json.
  destruct (fs !! fspath jpath) as [lm|] eqn:Hlm;
    [|exists []; split; [by rewrite app_nil_r|by intros k c ?]].
  destruct (imread X (fspath fpath)) as [img|] eqn:Him.
  - pose proof (render_frame_trail_length w h n idx (Canvas img []) lm trail
                  Htrail) as Htrail'.
    destruct (render_frame X w h n idx (Canvas img []) lm trail)
      as [frame trail'] eqn:Hframe.
    cbn [snd] in Htrail'.
    destruct (IH (S idx) trail' (vw ++ [frame]) Htrail') as (new & -> & Hnew).
    exists (frame :: new). split; [by rewrite <- app_assoc|].
    intros [|k] c Hc.
    + injection Hc as <-. exists 0, fpath, jpath, img, lm.
      repeat (split; [done|]). exists trail. split; [done|].
      by rewrite Nat.add_0_r, Hframe.
    + destruct (Hnew k c Hc) as (i & f & j & im & l & Hk & Hp & ? & ? & Hcomp).
      exists (S i), f, j, im, l. split; [lia|]. repeat (split; [done|]).
      by replace (idx + S i) with (S idx + i) by lia.
  - destruct (IH (S idx) (next_trail (pts_of w h lm) trail) vw
                (next_trail_length _ _ Htrail)) as (new & -> & Hnew).
    exists new. split; [done|].
    intros k c Hc.
    destruct (Hnew k c Hc) as (i & f & j & im & l & Hk & Hp & ? & ? & Hcomp).
    exists (S i), f, j, im, l. split; [lia|]. repeat (split; [done|]).
    by replace (idx + S i) with (S idx + i) by lia.
Qed.

(** The loop ends normally exactly when every paired record is on disk;
    a missing one raises [FileNotFoundError]. *)
Lemma render_loop_outcome fs w h n pairs idx trail vw :
  match (render_loop X fs w h n pairs idx trail vw).1 with
  | Ok _ => Forall (λ fj, stored fs fj.2) pairs
  | Raise e =>
      ¬ Forall (λ fj, stored fs fj.2) pairs ∧ e = FileNotFoundError
  end.
Proof.
  revert idx trail vw.
  induction pairs as [|[fpath jpath] rest IH]; intros idx trail vw.
  { constructor. }
  cbn [render_loop]. unfold load_json.
  destruct (fs !! fspath jpath) as [lm|] eqn:Hlm.
  2:{ split; [|done]. intros [[? Hs] _]%Forall_cons.
      cbn [snd] in Hs. congruence. }
  assert (Hsto : stored fs jpath) by (by exists lm).
  destruct (imread X (fspath fpath)) as [img|].
  - destruct (render_frame X w h n idx (Canvas img []) lm trail)
      as [frame trail'].
    specialize (IH (S idx) trail' (vw ++ [frame])).
    destruct (render_loop X fs w h n rest (S idx) trail' (vw ++ [frame])).1
      as [[]|e].
    + by constructor.
    + destruct IH as [Hno He]. split; [|done].
      intros [_ Hrest]%Forall_cons. by apply Hno.
  - specialize (IH (S idx) (next_trail (pts_of w h lm) trail) vw).
    destruct (render_loop X fs w h n rest (S idx)
                (next_trail (pts_of w h lm) trail) vw).1 as [[]|e].
    + by constructor.
    + destruct IH as [Hno He]. split; [|done].
      intros [_ Hrest]%Forall_cons. by apply Hno.
Qed.

(** With every paired record on disk the loop runs to its end and gives
    the writer one frame per pair whose image decodes; the writer keeps
    those of its own size. *)
Lemma render_loop_complete fs w h n pairs idx trail vw (size : Z * Z) :
  Forall (λ fj, stored fs fj.2) pairs →
  ∃ new,
    render_loop X fs w h n pairs idx trail vw = (Ok (), vw ++ new)
    ∧ length new = length (filter (λ fj, decodes X fj.1) pairs)
    ∧ length (filter (λ c, (img_w (cv_img c), img_h (cv_img c)) = size) new)
      = length (filter (λ fj, fits X size.1 size.2 fj.1) pairs).
Proof.
  revert idx trail vw.
  induction pairs as [|[fpath jpath] rest IH]; intros idx trail vw Hall.
  { exists []. by rewrite app_nil_r. }
  apply Forall_cons in Hall as [[lm Hlm] Hall]. cbn [snd] in Hlm.
  cbn [render_loop]. unfold load_json. rewrite Hlm.
  rewrite !filter_cons. cbn [fst].
  destruct (imread X (fspath fpath)) as [img|] eqn:Him.
  - destruct (render_frame X w h n idx (Canvas img []) lm trail)
      as [frame trail'] eqn:Hframe.
    assert (Himg : cv_img frame = img).
    { by replace frame
        with (render_frame X w h n idx (Canvas img []) lm trail).1
        by (by rewrite Hframe). }
    destruct (IH (S idx) trail' (vw ++ [frame]) Hall)
      as (new & -> & Hlen & Hkept).
    exists (frame :: new). split; [by rewrite <- app_assoc|].
    destruct (decide (decodes X fpath)) as [_ | Hno];
      [|destruct Hno; unfold decodes; by rewrite Him].
    split; [by rewrite !length_cons, Hlen|].
    rewrite (filter_cons _ frame), Himg.
    destruct (decide ((img_w img, img_h img) = size)) as [Hsize | Hsize];
      destruct (decide (fits X size.1 size.2 fpath))
        as [Hfit | Hfit]; cbn [length]; try by rewrite Hkept.
    + destruct Hfit. exists img. by rewrite <- Hsize.
    + destruct Hfit as (img' & Him' & Hw & Hh). destruct Hsize.
      rewrite Him in Him'. injection Him' as <-. rewrite Hw, Hh.
      by destruct size.
  - destruct (IH (S idx) (next_trail (pts_of w h lm) trail) vw Hall)
      as (new & -> & Hlen & Hkept).
    exists new. split; [done|].
    destruct (decide (decodes X fpath)) as [[img Himg] | _];
      [unfold decodes in Himg; congruence|].
    destruct (decide (fits X size.1 size.2 fpath))
      as [(img & Himg & _) | _]; [congruence|].
    done.
Qed.

(** What [zip] pairs: the frames up to the length of the record manifest
    with the records up to the length of the frame manifest. *)
Lemma filter_zip_fst {A B} (P : A → Prop) `{!∀ a, Decision (P a)}
    (l : list A) (k : list B) :
  length (filter (λ ab, P ab.1) (zip l k))
  = length (filter P (take (length k) l)).
Proof.
  revert k. induction l as [|a l IH]; intros [|b k]; try done.
  cbn [zip zip_with length take]. rewrite !filter_cons. cbn [fst].
  destruct (decide (P a)); cbn [length]; by rewrite IH.
Qed.

Lemma Forall_zip_snd {A B} (P : B → Prop) (l : list A) (k : list B) :
  Forall P (take (length l) k) → Forall (λ ab, P ab.2) (zip l k).
Proof.
  revert k. induction l as [|a l IH]; intros [|b k] Hall;
    cbn [zip zip_with length take] in *; try by constructor.
  apply Forall_cons in Hall as [Hb Hall]. constructor; [done|by apply IH].
Qed.

(** The frames of the output video, whenever the writer was opened:
    frame [k] was composed in iteration [k] or a later one, on the image
    of the frame manifest and with the record of the record manifest at
    the position of that iteration. *)
Lemma render_video_frame_origin fs frame_paths json_paths output_mp4 fps
    vid k c :
  (render_skeleton_video X fs frame_paths json_paths output_mp4 fps).2
  = Some vid →
  out_frames vid !! k = Some c →
  ∃ i fpath jpath img lm,
    k ≤ i
    ∧ frame_paths !! i = Some fpath ∧ json_paths !! i = Some jpath
    ∧ imread X (fspath fpath) = Some img
    ∧ fs !! fspath jpath = Some lm
    ∧ composed X (out_size vid).1 (out_size vid).2 (length frame_paths) i
        img lm c.
Proof.
  unfold render_skeleton_video.
  destruct frame_paths as [|first rest] eqn:Hfp; [done|]. rewrite <- Hfp.
  destruct (imread X (fspath first)) as [sample|]; [|done].
  destruct (render_loop_frames fs (img_w sample) (img_h sample)
              (length frame_paths) (zip frame_paths json_paths) 0 [] [])
    as (new & Hnew & Hall); [simpl; lia|].
  destruct (render_loop X fs (img_w sample) (img_h sample)
              (length frame_paths) (zip frame_paths json_paths) 0 [] [])
    as [outcome written].
  cbn [snd app] in Hnew. subst written.
  intros [= <-]. cbn [out_frames out_size fst snd]. intros Hc.
  destruct (Hall k c Hc) as (i & f & j & img & lm & Hk & Hfj & Him & Hlm & Hcomp).
  apply lookup_zip_with_Some in Hfj as (f' & j' & [= <- <-] & Hf & Hj).
  by exists i, f, j, img, lm.
Qed.

(** The call on a frame manifest whose first image decodes and whose
    paired records are on disk: it returns, and the video has the path,
    the rate and the size of the first image, one frame given to the
    writer per paired image that decodes, and one frame kept per paired
    image that decodes to that size. *)
Lemma render_video_complete fs frame_paths json_paths output_mp4 fps first
    sample :
  head frame_paths = Some first →
  imread X (fspath first) = Some sample →
  Forall (stored fs) (take (length frame_paths) json_paths) →
  ∃ vid,
    render_skeleton_video X fs frame_paths json_paths output_mp4 fps
    = (Ok (), Some vid)
    ∧ out_path vid = output_mp4 ∧ out_fps vid = fps
    ∧ out_size vid = (img_w sample, img_h sample)
    ∧ length (out_frames vid)
      = length (filter (decodes X) (take (length json_paths) frame_paths))
    ∧ length (kept_frames vid)
      = length (filter (fits X (img_w sample) (img_h sample))
                  (take (length json_paths) frame_paths)).
Proof.
  intros Hhead Hsample Hsto. unfold render_skeleton_video.
  destruct frame_paths as [|first' rest] eqn:Hfp; [done|].
  injection Hhead as ->. rewrite <- Hfp in *. rewrite Hsample.
  apply Forall_zip_snd in Hsto.
  destruct (render_loop_complete fs (img_w sample) (img_h sample)
              (length frame_paths) (zip frame_paths json_paths) 0 [] []
              (img_w sample, img_h sample) Hsto)
    as (new & -> & Hlen & Hkept).
  eexists. split; [reflexivity|].
  unfold kept_frames. cbn [out_path out_fps out_size out_frames app fst snd].
  repeat (split; [done|]).
  rewrite Hlen, Hkept. cbn [fst snd].
  split; apply filter_zip_fst.
Qed.

(** A missing paired record ends the call with [FileNotFoundError]. *)
Lemma render_video_outcome fs frame_paths json_paths output_mp4 fps first :
  head frame_paths = Some first →
  decodes X first →
  match (render_skeleton_video X fs frame_paths json_paths output_mp4 fps).1
  with
  | Ok _ => Forall (λ fj, stored fs fj.2) (zip frame_paths json_paths)
  | Raise e =>
      ¬ Forall (λ fj, stored fs fj.2) (zip frame_paths json_paths)
      ∧ e = FileNotFoundError
  end.
Proof.
  intros Hhead [sample Hsample]. unfold render_skeleton_video.
  destruct frame_paths as [|first' rest] eqn:Hfp; [done|].
  injection Hhead as ->. rewrite <- Hfp in *. rewrite Hsample.
  pose proof (render_loop_outcome fs (img_w sample) (img_h sample)
                (length frame_paths) (zip frame_paths json_paths) 0 [] [])
    as Hout.
  by destruct (render_loop X fs (img_w sample) (img_h sample)
                 (length frame_paths) (zip frame_paths json_paths) 0 [] [])
    as [outcome written].
Qed.

Lemma take_zip {A B} (i : nat) (l : list A) (k : list B) :
  take i (zip l k) = zip (take i l) (take i k).
Proof.
  revert l k. induction i as [|i IH]; intros [|a l] [|b k]; try done.
  cbn [zip zip_with take]. by rewrite <- IH.
Qed.

(** Frame [k] of the loop comes from the iteration before which [k]
    paired images decoded. *)
Lemma render_loop_position fs w h n pairs idx trail vw :
  ∃ new,
    (render_loop X fs w h n pairs idx trail vw).2 = vw ++ new
    ∧ ∀ k c, new !! k = Some c →
        ∃ i fpath jpath lm,
          pairs !! i = Some (fpath, jpath)
          ∧ k = length (filter (λ fj, decodes X fj.1) (take i pairs))
          ∧ imread X (fspath fpath) = Some (cv_img c)
          ∧ fs !! fspath jpath = Some lm
          ∧ c = (render_frame X w h n (idx + i) (Canvas (cv_img c) []) lm
                   (foldl (λ tr fj,
                             match fs !! fspath fj.2 with
                             | Some lm' => next_trail (pts_of w h lm') tr
                             | None => tr
                             end) trail (take i pairs))).1.
Proof.
  revert idx trail vw.
  induction pairs as [|[fpath jpath] rest IH]; intros idx trail vw.
  { exists []. split; [by rewrite app_nil_r|]. by intros k c ?. }
  cbn [render_loop]. unfold load_json.
  destruct (fs !! fspath jpath) as [lm|] eqn:Hlm;
    [|exists []; split; [by rewrite app_nil_r|by intros k c ?]].
  destruct (imread X (fspath fpath)) as [img|] eqn:Him.
  - destruct (render_frame X w h n idx (Canvas img []) lm trail)
      as [frame trail'] eqn:Hframe.
    assert (Htrail' : trail' = next_trail (pts_of w h lm) trail).
    { by replace trail'
        with (render_frame X w h n idx (Canvas img []) lm trail).2
        by (by rewrite Hframe). }
    assert (Hfr : frame
                  = (render_frame X w h n idx (Canvas img []) lm trail).1)
      by (by rewrite Hframe).
    destruct (IH (S idx) trail' (vw ++ [frame])) as (new & -> & Hnew).
    exists (frame :: new). split; [by rewrite <- app_assoc|].
    intros [|k] c Hc.
    + injection Hc as <-. exists 0, fpath, jpath, lm.
      rewrite Hfr. cbn [take filter length foldl cv_img render_frame fst draw].
      by rewrite Nat.add_0_r.
    + destruct (Hnew k c Hc) as (i & f & j & l & Hp & Hk & Hi & Hl & Hcomp).
      exists (S i), f, j, l. split; [done|].
      cbn [take foldl snd]. rewrite filter_cons. cbn [fst].
      rewrite decide_True by (unfold decodes; by rewrite Him).
      rewrite Hlm, <- Htrail'. cbn [length].
      split; [by rewrite <- Hk|]. repeat (split; [done|]).
      by replace (idx + S i) with (S idx + i) by lia.
  - destruct (IH (S idx) (next_trail (pts_of w h lm) trail) vw)
      as (new & -> & Hnew).
    exists new. split; [done|].
    intros k c Hc.
    destruct (Hnew k c Hc) as (i & f & j & l & Hp & Hk & Hi & Hl & Hcomp).
    exists (S i), f, j, l. split; [done|].
    cbn [take foldl snd]. rewrite filter_cons. cbn [fst].
    rewrite decide_False
      by (unfold decodes; rewrite Him; by intros [? [=]]).
    rewrite Hlm. repeat (split; [done|]).
    by replace (idx + S i) with (S idx + i) by lia.
Qed.

(** The same for the whole call: frame [k] of those given to the writer
    was drawn in the iteration [i] before which [k] frame images decoded,
    on the image of entry [i] of the frame manifest and with the record of
    entry [i] of the record manifest. *)
Lemma render_video_frame_source fs frame_paths json_paths output_mp4 fps
    vid k c :
  (render_skeleton_video X fs frame_paths json_paths output_mp4 fps).2
  = Some vid →
  out_frames vid !! k = Some c →
  ∃ i fpath jpath lm trail,
    frame_paths !! i = Some fpath ∧ json_paths !! i = Some jpath
    ∧ imread X (fspath fpath) = Some (cv_img c)
    ∧ fs !! fspath jpath = Some lm
    ∧ k = length (filter (decodes X) (take i frame_paths))
    ∧ c = (render_frame X (out_size vid).1 (out_size vid).2
             (length frame_paths) i (Canvas (cv_img c) []) lm trail).1.
Proof.
  unfold render_skeleton_video.
  destruct frame_paths as [|first rest] eqn:Hfp; [done|]. rewrite <- Hfp.
  destruct (imread X (fspath first)) as [sample|]; [|done].
  destruct (render_loop_position fs (img_w sample) (img_h sample)
              (length frame_paths) (zip frame_paths json_paths) 0 [] [])
    as (new & Hnew & Hall).
  destruct (render_loop X fs (img_w sample) (img_h sample)
              (length frame_paths) (zip frame_paths json_paths) 0 [] [])
    as [outcome written].
  cbn [snd app] in Hnew. subst written.
  intros [= <-]. cbn [out_frames out_size fst snd]. intros Hc.
  destruct (Hall k c Hc) as (i & f & j & lm & Hfj & Hk & Him & Hlm & Hcomp).
  pose proof Hfj as Hlt%lookup_lt_Some.
  rewrite length_zip in Hlt.
  apply lookup_zip_with_Some in Hfj as (f' & j' & [= <- <-] & Hf & Hj).
  eexists i, f, j, lm, _. repeat (split; [done|]).
  split; [|exact Hcomp].
  rewrite Hk, take_zip, filter_zip_fst.
  rewrite length_take, Nat.min_l by lia.
  by rewrite take_take, Nat.min_id.
Qed.

Lemma drawable_stored (fs : json_files) w h json_paths :
  Forall (drawable fs w h) json_paths → Forall (stored fs) json_paths.
Proof.
  intros Hall. eapply Forall_impl; [done|].
  intros j (lm & Hlm & _). by exists lm.
Qed.

End rendering_loop.

Section sample_records_in_reach.
Local Open Scope R_scope.

Lemma upright_in_reach : in_reach 640 480 upright.
Proof.
  intros i l Hl _. unfold upright in Hl.
  repeat (apply lookup_insert_Some in Hl as [[_ <-] | [_ Hl]];
          [cbn [lm_x lm_y]; lra|]).
  apply lookup_singleton_Some in Hl as [_ <-]. cbn [lm_x lm_y]. lra.
Qed.

Lemma nose_only_in_reach : in_reach 640 480 nose_only.
Proof.
  intros i l Hl _. unfold nose_only in Hl.
  apply lookup_singleton_Some in Hl as [_ <-]. cbn [lm_x lm_y]. lra.
Qed.

Lemma sample_records_drawable :
  Forall (drawable sample_files 640 480) sample_records.
Proof.
  repeat constructor.
  - exists upright. split; [|apply upright_in_reach].
    unfold sample_files. cbn [fspath]. by rewrite lookup_insert_eq.
  - exists nose_only. split; [|apply nose_only_in_reach].
    unfold sample_files. cbn [fspath].
    rewrite lookup_insert_ne by done. by rewrite lookup_singleton_eq.
Qed.

End sample_records_in_reach.



(** C10, as stated, fails: a non-empty frame manifest is not enough for
    the count. When the second of three frame images does not decode, the
    call still returns normally, but its second iteration gives the writer
    nothing, and the output video is left with one frame where the shorter
    manifest has two entries. *)
Lemma C10_undecoded_frame_dropped :
  sample_frames ≠ []
  ∧ ∃ vid,
      renderer.render_skeleton_video flaky_externals sample_files
        sample_frames sample_records "out.mp4" 5
      = (Ok (), Some vid)
      ∧ length (renderer.out_frames vid) = 1
      ∧ length (renderer.kept_frames vid) = 1
      ∧ length sample_frames `min` length sample_records = 2.
Proof.
  split; [discriminate|].
  eexists. split; [reflexivity|]. repeat split; reflexivity.
Qed.

(** C10, amended: on a frame manifest whose first image decodes and with
    the paired records on disk, positions within reach,
    [render_skeleton_video] raises nothing and leaves a video with one
    frame per pair whose image decodes to the size of the first image;
    an image that does not decode, or decodes to another size, leaves no
    frame.  When every frame image decodes to that size, the video has as
    many frames as the shorter of the two manifests has entries: a longer
    list is cut to that length. *)
Theorem C10_frames_written X (fs : json_files) frame_paths json_paths
    output_mp4 fps first sample :
  head frame_paths = Some first →
  imread X (fspath first) = Some sample →
  Forall (drawable fs (img_w sample) (img_h sample))
    (take (length frame_paths) json_paths) →
  ∃ vid,
    renderer.render_skeleton_video X fs frame_paths json_paths output_mp4 fps
    = (Ok (), Some vid)
    ∧ length (renderer.kept_frames vid)
      = length (filter (fits X (img_w sample) (img_h sample))
                  (take (length json_paths) frame_paths))
    ∧ (Forall (fits X (img_w sample) (img_h sample)) frame_paths →
       length (renderer.kept_frames vid)
       = length frame_paths `min` length json_paths).
Proof.
  intros Hhead Hsample Hall%drawable_stored.
  destruct (render_video_complete X fs _ _ output_mp4 fps _ _
              Hhead Hsample Hall) as (vid & Hrun & _ & _ & _ & _ & Hkept).
  exists vid. split; [done|]. split; [done|].
  intros Hfits. rewrite Hkept.
  assert (Hfilter : ∀ l, Forall (fits X (img_w sample) (img_h sample)) l →
                         filter (fits X (img_w sample) (img_h sample)) l = l).
  { induction 1 as [|a l Ha _ IH]; [done|].
    by rewrite filter_cons_True, IH. }
  rewrite Hfilter by (by apply Forall_take).
  rewrite length_take. lia.
Qed.

Lemma C10_frames_written_witness :
  ∃ vid,
    renderer.render_skeleton_video sample_externals sample_files
      sample_frames sample_records "out.mp4" 5 = (Ok (), Some vid)
    ∧ length (renderer.kept_frames vid) = 2
    ∧ (Forall (fits sample_externals 640 480) sample_frames →
       length (renderer.kept_frames vid) = 2).
Proof.
  apply (C10_frames_written sample_externals sample_files sample_frames
           sample_records "out.mp4" 5 (PathObj "frames/frame_00000.jpg")
           (Image 480 640 0) eq_refl eq_refl sample_records_drawable).
Defined.


(** ** The pose viewer *)

Section viewer.
Import visualizer.

(** The loading loop appends one entry per index to each list. *)
Lemma load_loop_spec (data : record) indices xs ys zs :
  load_loop data indices xs ys zs
  = (xs ++ ((λ i, lm_x <$> data !! i) <$> indices),
     ys ++ ((λ i, (λ pt, (- lm_y pt)%R) <$> data !! i) <$> indices),
     zs ++ ((λ i, lm_z <$> data !! i) <$> indices)).
Proof.
  revert xs ys zs. induction indices as [|i rest IH]; intros xs ys zs.
  { simpl. by rewrite !app_nil_r. }
  cbn [load_loop]. destruct (data !! i) as [pt|] eqn:Hpt;
    rewrite IH, <- !app_assoc; simpl; by rewrite Hpt.
Qed.

Lemma load_landmarks_stored fs json_path (data : record) :
  fs !! fspath json_path = Some data →
  ∃ xs ys zs,
    _load_landmarks fs json_path = Ok (xs, ys, zs)
    ∧ length xs = 33 ∧ length ys = 33 ∧ length zs = 33.
Proof.
  intros Hdata. unfold _load_landmarks, load_json. rewrite Hdata.
  cbn [mbind result_bind rbind]. rewrite load_loop_spec.
  eexists _, _, _. split; [reflexivity|].
  by rewrite !app_nil_l, !length_fmap, !length_seq.
Qed.

Lemma item_lt l i : i < length l → ∃ v, item l i = Ok v.
Proof.
  intros [v Hv]%lookup_lt_is_Some. exists v. unfold item. by rewrite Hv.
Qed.

(** With every connector inside the lists, the tracing loop runs to its
    end. *)
Lemma trace_loop_total xs ys zs conns lines_x lines_y lines_z :
  length ys = length xs → length zs = length xs →
  Forall (λ ab, ab.1 < length xs ∧ ab.2 < length xs) conns →
  ∃ out, trace_loop xs ys zs conns lines_x lines_y lines_z = Ok out.
Proof.
  intros Hy Hz. revert lines_x lines_y lines_z.
  induction conns as [|[a b] rest IH]; intros lines_x lines_y lines_z Hall.
  { by eexists. }
  apply Forall_cons in Hall as [[Ha Hb] Hall]. cbn [fst snd] in *.
  cbn [trace_loop].
  destruct (item_lt xs a Ha) as (xa & ->).
  destruct (item_lt xs b Hb) as (xb & ->).
  destruct (item_lt ys a ltac:(lia)) as (ya & ->).
  destruct (item_lt ys b ltac:(lia)) as (yb & ->).
  destruct (item_lt zs a ltac:(lia)) as (za & ->).
  destruct (item_lt zs b ltac:(lia)) as (zb & ->).
  cbn [mbind result_bind rbind].
  destruct (decide (xa = None)); [by apply IH|].
  destruct (decide (xb = None)); by apply IH.
Qed.

Lemma connections_in_range :
  Forall (λ ab : nat * nat, ab.1 < 33 ∧ ab.2 < 33) _CONNECTIONS.
Proof. unfold _CONNECTIONS. repeat constructor; simpl; lia. Qed.

Lemma skeleton_trace_total xs ys zs name color :
  length xs = 33 → length ys = 33 → length zs = 33 →
  ∃ lines_x lines_y lines_z,
    _skeleton_trace xs ys zs name color
    = Ok (MkScatter3d lines_x lines_y lines_z "lines" 4 color name).
Proof.
  intros Hx Hy Hz. unfold _skeleton_trace.
  destruct (trace_loop_total xs ys zs _CONNECTIONS [] [] [])
    as ([[lx ly] lz] & ->); [lia | lia | |].
  - rewrite Hx. apply connections_in_range.
  - cbn [mbind result_bind rbind]. by eexists _, _, _.
Qed.

(** The coordinates of a trace do not depend on its name and colour. *)
Lemma skeleton_trace_coords xs ys zs name color name' color' t :
  _skeleton_trace xs ys zs name color = Ok t →
  _skeleton_trace xs ys zs name' color'
  = Ok (MkScatter3d (sc_x t) (sc_y t) (sc_z t) "lines" 4 color' name').
Proof.
  unfold _skeleton_trace.
  destruct (trace_loop xs ys zs _CONNECTIONS [] [] [])
    as [[[lx ly] lz]|]; [|done].
  cbn [mbind result_bind rbind]. by intros [= <-].
Qed.

End viewer.

(** C9: when the two paths given to [compare_poses] hold the same landmark
    record (in particular when they are the same path), the figure has two
    traces, "Actual" and "Ideal", whose [x], [y] and [z] sequences are
    identical. *)
Theorem C9_identical_records_coincide (fs : json_files)
    actual_json ideal_json (r : record) :
  fs !! fspath actual_json = Some r →
  fs !! fspath ideal_json = Some r →
  ∃ t_a t_i title,
    visualizer.compare_poses fs actual_json ideal_json
    = Ok (visualizer.MkFigure [t_a; t_i] title)
    ∧ visualizer.sc_name t_a = "Actual" ∧ visualizer.sc_name t_i = "Ideal"
    ∧ visualizer.sc_x t_a = visualizer.sc_x t_i
    ∧ visualizer.sc_y t_a = visualizer.sc_y t_i
    ∧ visualizer.sc_z t_a = visualizer.sc_z t_i.
Proof.
  intros Ha Hi.
  destruct (load_landmarks_stored fs actual_json r Ha)
    as (xs & ys & zs & Hload_a & Hx & Hy & Hz).
  assert (Hload_i : visualizer._load_landmarks fs ideal_json = Ok (xs, ys, zs)).
  { rewrite <- Hload_a. unfold visualizer._load_landmarks, load_json.
    by rewrite Ha, Hi. }
  destruct (skeleton_trace_total xs ys zs "Actual" "blue" Hx Hy Hz)
    as (lx & ly & lz & Htrace_a).
  pose proof (skeleton_trace_coords _ _ _ _ _ "Ideal" "green" _ Htrace_a)
    as Htrace_i.
  unfold visualizer.compare_poses, mbind, result_bind, rbind.
  rewrite Hload_a, Hload_i, Htrace_a, Htrace_i.
  by eexists _, _, _.
Qed.

Lemma C9_identical_records_coincide_witness :
  ∃ t_a t_i title,
    visualizer.compare_poses sample_files
      (PathObj "kp/frame_00000.json") (PathObj "kp/frame_00000.json")
    = Ok (visualizer.MkFigure [t_a; t_i] title)
    ∧ visualizer.sc_name t_a = "Actual" ∧ visualizer.sc_name t_i = "Ideal"
    ∧ visualizer.sc_x t_a = visualizer.sc_x t_i
    ∧ visualizer.sc_y t_a = visualizer.sc_y t_i
    ∧ visualizer.sc_z t_a = visualizer.sc_z t_i.
Proof.
  apply (C9_identical_records_coincide sample_files
           (PathObj "kp/frame_00000.json") (PathObj "kp/frame_00000.json")
           upright);
    unfold sample_files; cbn [fspath]; by rewrite lookup_insert_eq.
Defined.

(** ** File names of the sampled frames *)

Section frame_names.
Import video_extractor.

Lemma zeros_succ k s :
  (String.concat "" (repeat "0" (S k)) ++ s
   = "0" ++ (String.concat "" (repeat "0" k) ++ s))%string.
Proof. destruct k; reflexivity. Qed.

Lemma parse_decimal_zero s :
  parse_decimal ("0" ++ s)%string = parse_decimal s.
Proof.
  unfold parse_decimal. cbv [String.append]. simpl.
  destruct (NilEmpty.uint_of_string s); reflexivity.
Qed.

Lemma parse_decimal_zeros k s :
  parse_decimal (String.concat "" (repeat "0" k) ++ s)%string = parse_decimal s.
Proof.
  induction k as [|k IH]; [done|].
  by rewrite zeros_succ, parse_decimal_zero.
Qed.

Lemma parse_decimal_of_nat n :
  parse_decimal (NilZero.string_of_uint (Nat.to_uint n)) = Some n.
Proof.
  unfold parse_decimal.
  rewrite <- (DecimalNat.Unsigned.of_to n) at 2.
  destruct (Nat.to_uint n); try reflexivity;
    unfold NilZero.string_of_uint; by rewrite NilEmpty.usu.
Qed.

Lemma parse_format_05d n : parse_decimal (format_05d n) = Some n.
Proof.
  unfold format_05d. by rewrite parse_decimal_zeros, parse_decimal_of_nat.
Qed.

Lemma string_length_app (a b : string) :
  String.length (a ++ b) = String.length a + String.length b.
Proof.
  induction a as [|c a IH]; [done|].
  change (String c a ++ b)%string with (String c (a ++ b)).
  simpl. by rewrite IH.
Qed.

Lemma zeros_length k s :
  String.length (String.concat "" (repeat "0" k) ++ s) = k + String.length s.
Proof.
  induction k as [|k IH]; [done|].
  rewrite zeros_succ, string_length_app, IH. done.
Qed.

Lemma format_05d_length n :
  String.length (format_05d n)
  = 5 `max` String.length (NilZero.string_of_uint (Nat.to_uint n)).
Proof. unfold format_05d. rewrite zeros_length. lia. Qed.

Lemma substring_app_head (a b : string) :
  String.substring 0 (String.length a) (a ++ b) = a.
Proof.
  induction a as [|c a IH].
  - by destruct b.
  - change (String c a ++ b)%string with (String c (a ++ b)).
    simpl. by rewrite IH.
Qed.

Lemma substring_all (b : string) :
  String.substring 0 (String.length b) b = b.
Proof. induction b as [|c b IH]; [done|]. simpl. by rewrite IH. Qed.

Lemma substring_app_tail (a b : string) :
  String.substring (String.length a) (String.length b) (a ++ b) = b.
Proof.
  induction a as [|c a IH]; [apply substring_all|].
  change (String c a ++ b)%string with (String c (a ++ b)).
  simpl. by rewrite IH.
Qed.

Lemma string_app_assoc (a b c : string) :
  (a ++ (b ++ c) = (a ++ b) ++ c)%string.
Proof.
  induction a as [|x a IH]; [done|].
  change (String x a ++ (b ++ c))%string with (String x (a ++ (b ++ c))).
  change ((String x a ++ b) ++ c)%string with (String x ((a ++ b) ++ c)).
  by rewrite IH.
Qed.

Lemma index_of_frame_name_frame_name n :
  index_of_frame_name (frame_name n) = Some n.
Proof.
  unfold index_of_frame_name, frame_name. cbn zeta.
  assert (Hlen : String.length ("frame_" ++ format_05d n ++ ".jpg")
                 = 10 + String.length (format_05d n)).
  { rewrite !string_length_app. simpl. lia. }
  assert (Hpre : String.substring 0 6 ("frame_" ++ format_05d n ++ ".jpg")
                 = "frame_").
  { apply (substring_app_head "frame_"). }
  assert (Hsuf : String.substring
                   (String.length ("frame_" ++ format_05d n ++ ".jpg") - 4) 4
                   ("frame_" ++ format_05d n ++ ".jpg") = ".jpg").
  { rewrite Hlen, string_app_assoc.
    replace (10 + String.length (format_05d n) - 4)
      with (String.length ("frame_" ++ format_05d n))
      by (rewrite string_length_app; simpl; lia).
    apply (substring_app_tail _ ".jpg"). }
  rewrite decide_True by (split; [done|split; [done|lia]]).
  rewrite Hlen.
  replace (10 + String.length (format_05d n) - 10)
    with (String.length (format_05d n)) by lia.
  change (String.substring 6 ?k ("frame_" ++ ?t))
    with (String.substring 0 k t).
  by rewrite substring_app_head, parse_format_05d.
Qed.

Lemma all_digits_app (a b : string) :
  all_digits a → all_digits b → all_digits (a ++ b).
Proof.
  unfold all_digits. intros Ha Hb. induction a as [|c a IH]; [done|].
  change (String c a ++ b)%string with (String c (a ++ b)).
  cbn [list_ascii_of_string] in *. apply Forall_cons in Ha as [Hc Ha].
  constructor; [done|by apply IH].
Qed.

Lemma string_app_nil_r (a : string) : (a ++ "")%string = a.
Proof.
  induction a as [|c a IH]; [done|].
  change (String c a ++ "")%string with (String c (a ++ "")).
  by rewrite IH.
Qed.

Lemma all_digits_zeros k : all_digits (String.concat "" (repeat "0" k)).
Proof.
  induction k as [|k IH]; [constructor|].
  pose proof (zeros_succ k "") as H. rewrite !string_app_nil_r in H.
  rewrite H. apply all_digits_app; [|done]. by repeat constructor.
Qed.

Lemma all_digits_of_uint u :
  all_digits (NilEmpty.string_of_uint u).
Proof.
  unfold all_digits.
  induction u; cbn [NilEmpty.string_of_uint list_ascii_of_string];
    constructor; by eauto.
Qed.

Lemma all_digits_format_05d n : all_digits (format_05d n).
Proof.
  unfold format_05d. cbn zeta. apply all_digits_app; [apply all_digits_zeros|].
  unfold NilZero.string_of_uint.
  destruct (Nat.to_uint n); try apply all_digits_of_uint.
  by repeat constructor.
Qed.

Lemma frame_name_inj n m : frame_name n = frame_name m → n = m.
Proof.
  intros H. apply (f_equal index_of_frame_name) in H.
  rewrite !index_of_frame_name_frame_name in H. by simplify_eq.
Qed.

End frame_names.

Section sampling_more.
Import video_extractor.

(** With a stride of one nothing is dropped. *)
Lemma strided_one {A} start (frames : list A) : strided 1 start frames = frames.
Proof.
  revert start. induction frames as [|frame rest IH]; intros start; [done|].
  rewrite strided_cons, Z.mod_1_r. simpl. by rewrite IH.
Qed.

(** The frame at a multiple of the stride comes first. *)
Lemma strided_head {A} stride (frame : A) rest :
  strided stride 0 (frame :: rest) = frame :: strided stride 1 rest.
Proof.
  rewrite strided_cons. change (Z.of_nat 0) with 0%Z.
  by rewrite Zmod_0_l.
Qed.

Lemma strided_length_le {A} stride start (frames : list A) :
  length (strided stride start frames) ≤ length frames.
Proof.
  revert start. induction frames as [|frame rest IH]; intros start; [done|].
  rewrite strided_cons. specialize (IH (S start)).
  destruct (_ =? _)%Z; simpl; lia.
Qed.

(** A call that returns went through all four checks. *)
Lemma extract_frames_Ok_inv v video_path output_dir fps saved eff :
  extract_frames v video_path output_dir fps = (Ok saved, eff) →
  vid_exists v = true ∧ vid_opens v = true
  ∧ ¬ (vid_fps v == 0)%Q ∧ fps ≠ 0%Z.
Proof.
  unfold extract_frames.
  destruct (vid_exists v); [|done]. destruct (vid_opens v); [|done]. simpl.
  destruct (Qeq_bool (vid_fps v) 0) eqn:Hq; [done|].
  unfold stride_of, floordiv.
  destruct (Z.eqb_spec fps 0) as [-> | Hz]; [done|].
  intros _. repeat split; try done.
  intros H%Qeq_bool_iff. congruence.
Qed.

Lemma frame_path_inj output_dir n m :
  PathObj (joinpath output_dir (frame_name n))
  = PathObj (joinpath output_dir (frame_name m)) → n = m.
Proof.
  unfold joinpath. intros [= H].
  apply (inj (String.app output_dir)) in H.
  apply (inj (String.app "/")) in H.
  by apply frame_name_inj.
Qed.

End sampling_more.

(** X1: the name of the [n]-th sampled frame file is [frame_], then at
    least five decimal digits, then [.jpg]; the digits read back as [n],
    so that the position of a frame in the manifest can be recovered from
    its name and two positions never share a name. *)
Theorem X1_frame_name_round_trip n :
  ∃ digits,
    video_extractor.frame_name n = ("frame_" ++ digits ++ ".jpg")%string
    ∧ all_digits digits
    ∧ 5 ≤ String.length digits
    ∧ parse_decimal digits = Some n
    ∧ index_of_frame_name (video_extractor.frame_name n) = Some n
    ∧ ∀ m, video_extractor.frame_name m = video_extractor.frame_name n →
           m = n.
Proof.
  exists (video_extractor.format_05d n).
  split; [done|]. split; [apply all_digits_format_05d|].
  split; [rewrite format_05d_length; lia|].
  split; [apply parse_format_05d|].
  split; [apply index_of_frame_name_frame_name|].
  intros m. apply frame_name_inj.
Qed.

(** X2: a call of [extract_frames] that returns has read every decodable
    frame once and then once more to find the end; its manifest has no
    more entries than there are frames and names no file twice, so that
    no sampled frame overwrites another; it is empty only for a video
    without a decodable frame, and otherwise starts with the first
    frame. *)
Theorem X2_extract_frames_manifest v video_path output_dir fps saved eff :
  video_extractor.extract_frames v video_path output_dir fps = (Ok saved, eff) →
  video_extractor.reads eff = S (length (video_extractor.vid_frames v))
  ∧ length saved ≤ length (video_extractor.vid_frames v)
  ∧ NoDup saved
  ∧ (saved = [] ↔ video_extractor.vid_frames v = [])
  ∧ head (video_extractor.imwrites eff).*2
    = head (video_extractor.vid_frames v).
Proof.
  intros Hrun.
  destruct (extract_frames_Ok_inv _ _ _ _ _ _ Hrun) as (He & Ho & Hq & Hz).
  rewrite (extract_frames_Ok v video_path output_dir fps He Ho Hq Hz) in Hrun.
  cbn zeta in Hrun.
  set (stride := Z.max _ 1) in Hrun.
  set (kept := strided stride 0 (video_extractor.vid_frames v)) in Hrun.
  injection Hrun as <- <-. cbn [video_extractor.reads video_extractor.imwrites].
  pose proof (strided_length_le stride 0 (video_extractor.vid_frames v)) as Hle.
  fold kept in Hle.
  split; [done|]. split; [by rewrite !length_fmap, length_seq|].
  split.
  { rewrite <- list_fmap_compose. apply NoDup_fmap_2_strong; [|apply NoDup_seq].
    intros n m _ _ H. by apply frame_path_inj in H. }
  assert (Hhead : kept = [] ↔ video_extractor.vid_frames v = []).
  { unfold kept. destruct (video_extractor.vid_frames v) as [|frame rest];
      [done|]. by rewrite strided_head. }
  split.
  { rewrite <- Hhead. split.
    - intros H%(f_equal length). rewrite !length_fmap, length_seq in H.
      by destruct kept.
    - by intros ->. }
  rewrite snd_zip by (by rewrite length_fmap, length_seq).
  unfold kept. destruct (video_extractor.vid_frames v) as [|frame rest];
    [done|]. by rewrite strided_head.
Qed.

Lemma X2_extract_frames_manifest_witness :
  ∃ saved eff,
    video_extractor.extract_frames sample_video "clip.mp4" "frames" 5
    = (Ok saved, eff)
    ∧ video_extractor.reads eff = 11
    ∧ length saved ≤ 10
    ∧ NoDup saved
    ∧ (saved = [] ↔ video_extractor.vid_frames sample_video = [])
    ∧ head (video_extractor.imwrites eff).*2 = Some (Image 480 640 0).
Proof.
  eexists _, _. split; [reflexivity|].
  apply (X2_extract_frames_manifest sample_video "clip.mp4" "frames" 5).
  reflexivity.
Defined.

(** X3: when the native rate is positive and below twice a positive
    target rate, in particular when the target rate is not below the
    native one, the stride is one: every decoded frame is written, in
    order, and the manifest has one entry per frame. *)
Theorem X3_fast_target_keeps_all v video_path output_dir fps :
  video_extractor.vid_exists v = true →
  video_extractor.vid_opens v = true →
  (0 < video_extractor.vid_fps v)%Q →
  (0 < fps)%Z →
  (video_extractor.vid_fps v < 2 * inject_Z fps)%Q →
  ∃ saved eff,
    video_extractor.extract_frames v video_path output_dir fps = (Ok saved, eff)
    ∧ (video_extractor.imwrites eff).*2 = video_extractor.vid_frames v
    ∧ length saved = length (video_extractor.vid_frames v).
Proof.
  intros He Ho Hpos Hfps Hlt.
  assert (Hnz : ¬ (video_extractor.vid_fps v == 0)%Q).
  { intros Heq. rewrite Heq in Hpos. by apply Qlt_irrefl in Hpos. }
  assert (Hstride :
    Z.max (Qfloor (video_extractor.vid_fps v / inject_Z fps)) 1 = 1%Z).
  { assert (Hq : (video_extractor.vid_fps v / inject_Z fps < 2)%Q).
    { apply Qlt_shift_div_r; [|done].
      change 0%Q with (inject_Z 0). by rewrite <- Zlt_Qlt. }
    pose proof (Qfloor_le (video_extractor.vid_fps v / inject_Z fps)) as Hfl.
    assert (Hlt2 : (inject_Z (Qfloor (video_extractor.vid_fps v / inject_Z fps))
                    < inject_Z 2)%Q) by (eapply Qle_lt_trans; eauto).
    rewrite <- Zlt_Qlt in Hlt2. lia. }
  pose proof (extract_frames_Ok v video_path output_dir fps He Ho Hnz
                ltac:(lia)) as Hrun.
  cbn zeta in Hrun. rewrite Hstride, strided_one in Hrun.
  eexists _, _. split; [exact Hrun|].
  cbn [video_extractor.imwrites].
  split; [by rewrite snd_zip by (by rewrite length_fmap, length_seq)|].
  by rewrite !length_fmap, length_seq.
Qed.

Lemma X3_fast_target_keeps_all_witness :
  ∃ saved eff,
    video_extractor.extract_frames sample_video "clip.mp4" "frames" 25
    = (Ok saved, eff)
    ∧ (video_extractor.imwrites eff).*2
      = video_extractor.vid_frames sample_video
    ∧ length saved = 10.
Proof.
  apply (X3_fast_target_keeps_all sample_video "clip.mp4" "frames" 25);
    reflexivity.
Defined.

(** ** The manifest and the files of pose extraction *)

#[global] Instance path_like_eq_dec : EqDecision path_like.
Proof. solve_decision. Defined.

Section pose_files.
Import pose_estimator.
Context (X : externals).

(** The manifest lists the record paths of the processed frames, in the
    order of the frames. *)
Lemma pose_loop_manifest frame_paths output_dir saved fs :
  (pose_loop X frame_paths output_dir saved fs).1
  = saved ++ (record_path X output_dir <$> filter (processed X) frame_paths).
Proof.
  revert saved fs.
  induction frame_paths as [|fpath rest IH]; intros saved fs.
  { simpl. by rewrite app_nil_r. }
  cbn [pose_loop]. rewrite filter_cons.
  destruct (decide (processed X fpath)) as [(img & lms & Him & Hp) | Hno].
  - rewrite Him, Hp, IH, <- app_assoc. done.
  - destruct (imread X (fspath fpath)) as [img|] eqn:Him; [|apply IH].
    destruct (pose_process X img) as [lms|] eqn:Hp; [|apply IH].
    destruct Hno. by exists img, lms.
Qed.

(** A file is rewritten only if the manifest names it; every file the
    manifest names holds the landmarks found in a frame of that name,
    index by index. *)
Lemma pose_loop_files frame_paths output_dir saved fs :
  let fs' := (pose_loop X frame_paths output_dir saved fs).2 in
  let new := record_path X output_dir <$> filter (processed X) frame_paths in
  (∀ p, PathObj p ∉ new → fs' !! p = fs !! p)
  ∧ (∀ jpath, jpath ∈ new →
       ∃ fpath img landmarks,
         fpath ∈ frame_paths ∧ record_path X output_dir fpath = jpath
         ∧ imread X (fspath fpath) = Some img
         ∧ pose_process X img = Some landmarks
         ∧ fs' !! fspath jpath = Some (lm_json landmarks)).
Proof.
  cbn zeta. revert saved fs.
  induction frame_paths as [|fpath rest IH]; intros saved fs.
  { split; [done|]. by intros j ?%elem_of_nil. }
  cbn [pose_loop]. rewrite filter_cons.
  destruct (decide (processed X fpath)) as [(img & lms & Him & Hp) | Hno].
  - rewrite Him, Hp. rewrite fmap_cons.
    set (jtext := joinpath output_dir (stem X (fspath fpath) ++ ".json")).
    destruct (IH (saved ++ [PathObj jtext]) (<[jtext := lm_json lms]> fs))
      as [Hkeep Hnew].
    split.
    + intros p Hp'. apply not_elem_of_cons in Hp' as [Hne Hp'].
      rewrite (Hkeep p Hp'). apply lookup_insert_ne.
      intros Heq. apply Hne. rewrite <- Heq. reflexivity.
    + intros jpath Hin.
      destruct (decide (jpath ∈ record_path X output_dir
                                  <$> filter (processed X) rest))
        as [Hlater | Hlast].
      * destruct (Hnew jpath Hlater) as (f & i & l & Hf & ?).
        exists f, i, l. split; [by right|done].
      * apply elem_of_cons in Hin as [-> | Hin]; [|done].
        exists fpath, img, lms. split; [by left|].
        repeat (split; [done|]).
        cbn [record_path fspath]. fold jtext.
        rewrite (Hkeep jtext Hlast). apply lookup_insert_eq.
  - assert (Hskip :
      match imread X (fspath fpath) with
      | Some img =>
          match pose_process X img with
          | Some landmarks =>
              pose_loop X rest output_dir
                (saved ++ [PathObj (joinpath output_dir
                                      (stem X (fspath fpath) ++ ".json"))])
                (<[joinpath output_dir (stem X (fspath fpath) ++ ".json")
                   := lm_json landmarks]> fs)
          | None => pose_loop X rest output_dir saved fs
          end
      | None => pose_loop X rest output_dir saved fs
      end = pose_loop X rest output_dir saved fs).
    { destruct (imread X (fspath fpath)) as [img|] eqn:Him; [|done].
      destruct (pose_process X img) as [lms|] eqn:Hp; [|done].
      destruct Hno. by exists img, lms. }
    rewrite Hskip. destruct (IH saved fs) as [Hkeep Hnew].
    split; [done|]. intros jpath Hin.
    destruct (Hnew jpath Hin) as (f & i & l & Hf & ?).
    exists f, i, l. split; [by right|done].
Qed.

(** A record written from a list of landmarks is complete as soon as the
    list reaches index 28. *)
Lemma lm_json_complete landmarks : 29 ≤ length landmarks → complete (lm_json landmarks).
Proof.
  intros Hlen. unfold complete, required, lm_json.
  repeat constructor; rewrite lookup_map_seq_0; apply lookup_lt_is_Some; lia.
Qed.

End pose_files.

(** X4: the manifest of [extract_pose_from_frames] names, in the order of
    the frames, one record per frame whose image decodes and in which a
    pose is found, each called after the stem of its frame in the output
    directory; frames that fail either test leave no entry. In
    particular no frame gives an empty manifest, and so does a manifest
    of frames of which none decodes. *)
Theorem X4_pose_manifest X frame_paths output_dir fs :
  (pose_estimator.extract_pose_from_frames X frame_paths output_dir fs).1
  = record_path X output_dir <$> filter (processed X) frame_paths.
Proof.
  unfold pose_estimator.extract_pose_from_frames.
  by rewrite pose_loop_manifest.
Qed.

(** X5: [extract_pose_from_frames] rewrites no file but those its
    manifest names, and every file the manifest names holds, index by
    index, the landmarks the pose model found in a frame of that stem:
    landmark [i] of the model is the entry [i] of the record. *)
Theorem X5_pose_files X frame_paths output_dir (fs : json_files) :
  let run := pose_estimator.extract_pose_from_frames X frame_paths output_dir fs in
  (∀ p, PathObj p ∉ run.1 → run.2 !! p = fs !! p)
  ∧ (∀ jpath, jpath ∈ run.1 →
       ∃ fpath img landmarks lm,
         fpath ∈ frame_paths ∧ record_path X output_dir fpath = jpath
         ∧ imread X (fspath fpath) = Some img
         ∧ pose_process X img = Some landmarks
         ∧ run.2 !! fspath jpath = Some lm
         ∧ ∀ i, lm !! i = landmarks !! i).
Proof.
  cbn zeta. unfold pose_estimator.extract_pose_from_frames.
  destruct (pose_loop_files X frame_paths output_dir [] fs) as [Hkeep Hnew].
  rewrite pose_loop_manifest, app_nil_l. split; [done|].
  intros jpath Hin.
  destruct (Hnew jpath Hin) as (f & img & lms & Hf & Hj & Him & Hp & Hfile).
  exists f, img, lms, (pose_estimator.lm_json lms).
  repeat (split; [done|]).
  intros i. apply lookup_map_seq_0.
Qed.

(** X6: when the pose model yields at least 29 landmarks for every pose
    it finds (MediaPipe yields 33), feature extraction on the manifest and
    files that pose extraction leaves skips nothing and raises nothing:
    the table has exactly one row per landmark record. *)
Theorem X6_pose_records_complete X frame_paths kp_dir fs csv_out :
  (∀ img landmarks,
     pose_process X img = Some landmarks → 29 ≤ length landmarks) →
  let run := pose_estimator.extract_pose_from_frames X frame_paths kp_dir fs in
  ∃ out,
    feature_extractor.extract_biomechanics X run.2 run.1 csv_out = Ok out
    ∧ length (feature_extractor.df out) = length run.1
    ∧ feature_extractor.csv_written out = (csv_out, feature_extractor.df out).
Proof.
  intros Hmodel. cbn zeta. unfold pose_estimator.extract_pose_from_frames.
  destruct (pose_loop_spec X frame_paths kp_dir [] fs)
    as (new & fs' & Hrun & Hlen & Hobj & Hfiles & _).
  destruct (pose_loop_files X frame_paths kp_dir [] fs) as [_ Hnew].
  pose proof (pose_loop_manifest X frame_paths kp_dir [] fs) as Hm.
  rewrite Hrun in *. cbn [fst snd app] in *. subst new.
  rewrite (extract_biomechanics_paths X fs' _ csv_out Hobj Hfiles).
  eexists. split; [reflexivity|]. cbn [feature_extractor.df].
  split; [|done].
  rewrite surviving_rows_length. apply filter_length_eq.
  apply Forall_forall. intros jpath Hin.
  destruct (Hnew jpath Hin) as (f & img & lms & _ & _ & _ & Hp & Hfile).
  exists (pose_estimator.lm_json lms). split; [done|].
  by apply lm_json_complete, (Hmodel img).
Qed.

Lemma X6_pose_records_complete_witness :
  ∃ out,
    feature_extractor.extract_biomechanics detecting_externals
      (pose_estimator.extract_pose_from_frames detecting_externals
         sample_frames "kp" sample_files).2
      (pose_estimator.extract_pose_from_frames detecting_externals
         sample_frames "kp" sample_files).1 "features.csv" = Ok out
    ∧ length (feature_extractor.df out)
      = length (pose_estimator.extract_pose_from_frames detecting_externals
                  sample_frames "kp" sample_files).1
    ∧ feature_extractor.csv_written out
      = ("features.csv", feature_extractor.df out).
Proof.
  apply (X6_pose_records_complete detecting_externals sample_frames "kp"
           sample_files "features.csv").
  intros img landmarks [= <-]. simpl. lia.
Defined.

(** ** When feature extraction raises *)

Section feature_errors.
Import feature_extractor.
Context (X : externals).


Lemma surviving_rows_frames fs json_paths :
  frame <$> surviving_rows X fs json_paths
  = (λ j, stem X (fspath j)) <$> filter (record_complete fs) json_paths.
Proof.
  induction json_paths as [|jpath rest IH]; [done|].
  rewrite filter_cons. unfold surviving_rows in *. cbn [omap list_omap].
  destruct (decide (record_complete fs jpath)) as [(lm & Hlm & Hc) | Hno].
  - rewrite Hlm. destruct (angles_complete lm Hc) as (e & k & t & ->).
    rewrite !fmap_cons. by rewrite IH.
  - destruct (fs !! fspath jpath) as [lm|] eqn:Hlm; [|done].
    rewrite angles_incomplete; [done|].
    intros Hc. apply Hno. by exists lm.
Qed.

End feature_errors.


(** X10: whenever [extract_biomechanics] returns, the data frame it
    returns is what it wrote to [csv_out], and its [frame] column lists
    the stems of the complete records in the order of [json_paths]; with
    no complete record the file is written with no row. *)
Theorem X10_feature_table X (fs : json_files) json_paths csv_out out :
  feature_extractor.extract_biomechanics X fs json_paths csv_out = Ok out →
  feature_extractor.csv_written out = (csv_out, feature_extractor.df out)
  ∧ feature_extractor.frame <$> feature_extractor.df out
    = (λ j, stem X (fspath j)) <$> filter (record_complete fs) json_paths.
Proof.
  unfold feature_extractor.extract_biomechanics, mbind, result_bind, rbind.
  destruct (feature_extractor.rows_loop X fs json_paths []) as [rows|err] eqn:Hloop;
    [|done].
  intros [= <-]. cbn [feature_extractor.csv_written feature_extractor.df].
  split; [done|].
  apply rows_loop_Ok_inv in Hloop as ->.
  by rewrite app_nil_l, surviving_rows_frames.
Qed.

Lemma X10_feature_table_witness :
  ∃ out,
    feature_extractor.extract_biomechanics sample_externals sample_files
      sample_records "features.csv" = Ok out
    ∧ feature_extractor.csv_written out
      = ("features.csv", feature_extractor.df out)
    ∧ feature_extractor.frame <$> feature_extractor.df out
      = (λ j, stem sample_externals (fspath j))
          <$> filter (record_complete sample_files) sample_records.
Proof.
  assert (Hrun : feature_extractor.extract_biomechanics sample_externals
                   sample_files sample_records "features.csv"
                 = Ok (feature_extractor.Output
                         (surviving_rows sample_externals sample_files
                            sample_records)
                         ("features.csv",
                          surviving_rows sample_externals sample_files
                            sample_records))).
  { apply extract_biomechanics_paths.
    - by repeat constructor.
    - repeat constructor; unfold sample_files; cbn [fspath].
      + by rewrite lookup_insert_eq.
      + rewrite lookup_insert_ne by done. by rewrite lookup_singleton_eq. }
  eexists. split; [exact Hrun|].
  apply (X10_feature_table sample_externals sample_files sample_records
           "features.csv" _ Hrun).
Defined.

(** ** More on rendering: where every written frame comes from *)

#[global] Instance trail_circle_dec op : Decision (trail_circle op).
Proof. destruct op; simpl; apply _. Defined.

Section frame_contents.
Import renderer.
Context (X : externals).
Local Open Scope Z_scope.

(** The calls on a freshly decoded frame, step by step. *)
Lemma render_frame_ops w h n idx img lm trail :
  cv_ops (render_frame X w h n idx (Canvas img []) lm trail).1
  = trail_ops (render_frame X w h n idx (Canvas img []) lm trail).2
    ++ joint_ops (pts_of w h lm) ++ limb_ops (pts_of w h lm)
    ++ elbow_ops X (pts_of w h lm) ++ lower_third_ops X w h idx n.
Proof.
  unfold render_frame, draw. cbn [fst snd cv_ops cv_img].
  by rewrite app_nil_l, <- !app_assoc.
Qed.

Lemma draw_text_shape txt pos color :
  ∃ p q, _draw_text X txt pos color
         = [rectangle p q [0; 0; 0; 0] (-1); putText txt pos color 2].
Proof.
  unfold _draw_text. destruct (getTextSize X txt) as [tw th], pos as [x y].
  by eexists _, _.
Qed.

Lemma elbow_ops_kind pts : Forall box_or_text (elbow_ops X pts).
Proof.
  unfold elbow_ops.
  destruct (pts !! 12%nat); [|constructor].
  destruct (pts !! 14%nat); [|constructor].
  destruct (pts !! 16%nat); [|constructor]. cbn zeta.
  destruct (draw_text_shape (ElbowText (_angle p p0 p1)) (30, 40)
              (if Rlt_dec (_angle p p0 p1) 170 then GREEN else RED))
    as (p' & q' & ->).
  by repeat constructor.
Qed.

Lemma lower_third_kind w h idx n : Forall box_or_text (lower_third_ops X w h idx n).
Proof.
  unfold lower_third_ops.
  destruct (draw_text_shape (FrameText (idx + 1) n) (20, h - 20)
              [255; 255; 255]) as (p' & q' & ->).
  by repeat constructor.
Qed.

Lemma trail_ops_elem trail op :
  op ∈ trail_ops trail ↔
  ∃ (t : nat) p,
    reverse trail !! t = Some p
    ∧ op = circle p (trail_radius t (length trail)) TRAIL_COLOR (-1).
Proof.
  unfold trail_ops. rewrite elem_of_lookup_imap. split.
  - intros (t & p & -> & Ht). by exists t, p.
  - intros (t & p & Ht & ->). by exists t, p.
Qed.

Lemma joint_ops_elem pts op :
  op ∈ joint_ops pts ↔
  ∃ i p, pts !! i = Some p ∧ op = circle p JOINT_R (_color_for_joint i) (-1).
Proof.
  unfold joint_ops. rewrite list_elem_of_fmap. split.
  - intros ([i p] & -> & Hin%elem_of_map_to_list). by exists i, p.
  - intros (i & p & Hp & ->). exists (i, p). split; [done|].
    by apply elem_of_map_to_list.
Qed.

Lemma limb_ops_elem pts op :
  op ∈ limb_ops pts ↔
  ∃ a b pa pb,
    (a, b) ∈ _CONNECTIONS ∧ pts !! a = Some pa ∧ pts !! b = Some pb
    ∧ op = line pa pb [180; 180; 180] LIMB_THICK.
Proof.
  unfold limb_ops. rewrite list_elem_of_In, in_flat_map. split.
  - intros ([a b] & Hin%list_elem_of_In & Hop). cbn [fst snd] in Hop.
    destruct (pts !! a) as [pa|] eqn:Ha; [|done].
    destruct (pts !! b) as [pb|] eqn:Hb; [|done].
    destruct Hop as [<- | []]. by exists a, b, pa, pb.
  - intros (a & b & pa & pb & Hin%list_elem_of_In & Ha & Hb & ->).
    exists (a, b). split; [done|]. cbn [fst snd]. rewrite Ha, Hb. by left.
Qed.

Lemma joint_color_not_trail i : _color_for_joint i ≠ TRAIL_COLOR.
Proof.
  unfold _color_for_joint. by repeat case_decide.
Qed.

(** Truncating a number between 0 and [n] gives an integer between 0 and
    [n]. *)
Lemma int_of_float_range (x : R) (n : Z) :
  (0 <= x <= IZR n)%R → 0 <= int_of_float x <= n.
Proof.
  intros [Hlo Hhi]. unfold int_of_float.
  destruct (Rle_dec 0 x); [|done].
  destruct (base_Int_part x) as [Hle Hgt]. split.
  - assert (H : (IZR (-1) < IZR (Int_part x))%R) by lra.
    apply lt_IZR in H. lia.
  - apply le_IZR. lra.
Qed.

(** The radii of a trail of at most [TRAIL_LEN] points, computed in
    binary64 for every length and every position. *)
Lemma trail_radius_table :
  forallb (λ len,
             forallb (λ t, (0 <=? trail_radius t len)
                           && (trail_radius t len <=? JOINT_R))
               (seq 0 len))
    (seq 0 (S TRAIL_LEN)) = true.
Proof. vm_compute. reflexivity. Qed.

Lemma trail_radius_range (t len : nat) :
  (t < len)%nat → (len ≤ TRAIL_LEN)%nat →
  0 <= trail_radius t len <= JOINT_R.
Proof.
  intros Hlt Hlen. pose proof trail_radius_table as Htab.
  rewrite forallb_forall in Htab.
  assert (Hin : In len (seq 0 (S TRAIL_LEN))) by (apply in_seq; lia).
  apply Htab in Hin. rewrite forallb_forall in Hin.
  assert (Hin' : In t (seq 0 len)) by (apply in_seq; lia).
  apply Hin in Hin'. apply andb_true_iff in Hin' as [Hlo Hhi].
  apply Z.leb_le in Hlo, Hhi. done.
Qed.

Lemma filter_none {A} (P : A → Prop) `{!∀ x, Decision (P x)} (l : list A) :
  Forall (λ x, ¬ P x) l → filter P l = [].
Proof.
  induction 1 as [|x l Hx _ IH]; [done|].
  rewrite filter_cons. by destruct (decide (P x)).
Qed.

Lemma joint_ops_no_trail pts : Forall (λ op, ¬ trail_circle op) (joint_ops pts).
Proof.
  apply Forall_forall. intros op (i & p & _ & ->)%joint_ops_elem.
  apply joint_color_not_trail.
Qed.

Lemma limb_ops_no_trail pts : Forall (λ op, ¬ trail_circle op) (limb_ops pts).
Proof.
  apply Forall_forall. intros op (a & b & pa & pb & _ & _ & _ & ->)%limb_ops_elem.
  by intros [].
Qed.

Lemma box_or_text_no_trail ops :
  Forall box_or_text ops → Forall (λ op, ¬ trail_circle op) ops.
Proof. intros H. eapply Forall_impl; [done|]. by intros [] Hb Ht. Qed.

(** The trail of a composed frame: at most [TRAIL_LEN] gold circles, each
    with a radius from 0 to [JOINT_R]. *)
Lemma composed_trail w h n k img lm c :
  composed X w h n k img lm c →
  (length (filter trail_circle (cv_ops c)) ≤ TRAIL_LEN)%nat
  ∧ ∀ p r col th,
      circle p r col th ∈ cv_ops c → col = TRAIL_COLOR → 0 <= r <= JOINT_R.
Proof.
  intros (trail & Htrail & ->).
  pose proof (render_frame_trail_length X w h n k (Canvas img []) lm trail
                Htrail) as Hlen.
  rewrite render_frame_ops.
  set (trail' := (render_frame X w h n k (Canvas img []) lm trail).2) in *.
  pose proof (elbow_ops_kind (pts_of w h lm)) as Helbow.
  pose proof (lower_third_kind w h k n) as Hlower.
  split.
  - rewrite !filter_app, !length_app.
    rewrite (filter_none _ _ (joint_ops_no_trail _)).
    rewrite (filter_none _ _ (limb_ops_no_trail _)).
    rewrite (filter_none _ _ (box_or_text_no_trail _ Helbow)).
    rewrite (filter_none _ _ (box_or_text_no_trail _ Hlower)).
    pose proof (length_filter trail_circle (trail_ops trail')) as Hf.
    unfold trail_ops in Hf at 2. rewrite length_imap, length_reverse in Hf.
    simpl. lia.
  - intros p r col th Hin ->. rewrite !elem_of_app in Hin.
    destruct Hin as [Hin | [Hin | [Hin | [Hin | Hin]]]].
    + apply trail_ops_elem in Hin as (t & q & Ht & [= -> ->]).
      apply lookup_lt_Some in Ht. rewrite length_reverse in Ht.
      by apply trail_radius_range.
    + apply joint_ops_elem in Hin as (i & q & _ & [= _ _ Hcol]).
      by destruct (joint_color_not_trail i).
    + by apply limb_ops_elem in Hin as (? & ? & ? & ? & _ & _ & _ & ?).
    + rewrite Forall_forall in Helbow. by apply Helbow in Hin.
    + rewrite Forall_forall in Hlower. by apply Hlower in Hin.
Qed.


End frame_contents.

Section positions.
Import renderer.
Context (X : externals).

(** The base and the caption of a frame given to the writer. *)
Lemma render_video_position fs frame_paths json_paths output_mp4 fps vid k c :
  (render_skeleton_video X fs frame_paths json_paths output_mp4 fps).2
  = Some vid →
  out_frames vid !! k = Some c →
  ∃ i fpath,
    frame_paths !! i = Some fpath
    ∧ imread X (fspath fpath) = Some (cv_img c)
    ∧ k = length (filter (decodes X) (take i frame_paths))
    ∧ last (cv_ops c)
      = Some (putText (FrameText (i + 1) (length frame_paths))
                (20, (out_size vid).2 - 20)%Z [255; 255; 255]%Z 2)
    ∧ rectangle (0, (out_size vid).2 - 60)%Z (out_size vid) [0; 0; 0]%Z (-1)
      ∈ cv_ops c.
Proof.
  intros Hrun Hc.
  destruct (render_video_frame_source X fs _ _ _ _ _ _ _ Hrun Hc)
    as (i & f & j & lm & trail & Hf & _ & Him & _ & Hk & Hcomp).
  exists i, f. repeat (split; [done|]).
  set (size := out_size vid) in *. clearbody size.
  destruct size as [w h]. cbn [fst snd] in *.
  rewrite Hcomp at 1 2.
  rewrite render_frame_ops. unfold lower_third_ops.
  destruct (draw_text_shape X (FrameText (i + 1) (length frame_paths))
              (20, h - 20)%Z [255; 255; 255]%Z)
    as (p' & q' & ->).
  split.
  - rewrite !app_assoc.
    change (?l ++ [?a; ?b; ?c']) with (l ++ [a; b] ++ [c']).
    by rewrite !app_assoc, last_snoc.
  - rewrite !elem_of_app. do 4 right. by left.
Qed.

End positions.

(** X11: in every frame of the output video the trail shows at most
    [TRAIL_LEN] = 15 gold circles, and each of them has a radius between
    0 and [JOINT_R] = 6. *)
Theorem X11_trail_bounded X (fs : json_files) frame_paths json_paths
    output_mp4 fps vid k c :
  (renderer.render_skeleton_video X fs frame_paths json_paths output_mp4 fps).2
  = Some vid →
  renderer.out_frames vid !! k = Some c →
  length (filter trail_circle (renderer.cv_ops c)) ≤ renderer.TRAIL_LEN
  ∧ ∀ p r col th,
      renderer.circle p r col th ∈ renderer.cv_ops c →
      col = renderer.TRAIL_COLOR →
      (0 <= r <= renderer.JOINT_R)%Z.
Proof.
  intros Hrun Hc.
  destruct (render_video_frame_origin X fs _ _ _ _ _ _ _ Hrun Hc)
    as (i & f & j & img & lm & _ & _ & _ & _ & _ & Hcomp).
  by eapply composed_trail.
Qed.

Lemma X11_trail_bounded_witness :
  ∃ vid c,
    (renderer.render_skeleton_video sample_externals sample_files
       sample_frames sample_records "out.mp4" 5).2 = Some vid
    ∧ renderer.out_frames vid !! 0 = Some c
    ∧ length (filter trail_circle (renderer.cv_ops c)) ≤ renderer.TRAIL_LEN
    ∧ ∀ p r col th,
        renderer.circle p r col th ∈ renderer.cv_ops c →
        col = renderer.TRAIL_COLOR →
        (0 <= r <= renderer.JOINT_R)%Z.
Proof.
  eexists _, _. split; [reflexivity|]. split; [reflexivity|].
  apply (X11_trail_bounded sample_externals sample_files sample_frames
           sample_records "out.mp4" 5 _ 0 _ eq_refl eq_refl).
Defined.

(** X12: a landmark with normalised [x] and [y] in [0, 1] is drawn at a
    pixel between 0 and the width, and between 0 and the height, of the
    frame, both ends included. *)
Theorem X12_pixel_in_frame (w h : Z) (lm : record) i p l :
  renderer.pts_of w h lm !! i = Some p →
  lm !! i = Some l →
  (0 <= lm_x l <= 1)%R → (0 <= lm_y l <= 1)%R →
  (0 <= w)%Z → (0 <= h)%Z →
  (0 <= p.1 <= w)%Z ∧ (0 <= p.2 <= h)%Z.
Proof.
  intros (l' & Hl' & _ & ->)%pts_of_lookup Hl [Hx0 Hx1] [Hy0 Hy1] Hw Hh.
  simplify_eq. unfold renderer.pixel. cbn [fst snd].
  apply IZR_le in Hw, Hh.
  split; apply int_of_float_range; nra.
Qed.

Lemma X12_pixel_in_frame_witness :
  (0 <= (renderer.pixel 640 480 (Landmark (1 / 2) (1 / 4) 0 1)).1 <= 640)%Z
  ∧ (0 <= (renderer.pixel 640 480 (Landmark (1 / 2) (1 / 4) 0 1)).2 <= 480)%Z.
Proof.
  apply (X12_pixel_in_frame 640 480 upright 12 _
           (Landmark (1 / 2) (1 / 4) 0 1)).
  - apply pts_of_lookup. exists (Landmark (1 / 2) (1 / 4) 0 1).
    split; [|split; [simpl; lra|reflexivity]].
    unfold upright. by rewrite lookup_insert_eq.
  - unfold upright. by rewrite lookup_insert_eq.
  - simpl. lra.
  - simpl. lra.
  - lia.
  - lia.
Defined.





(** X15: every frame given to the writer is drawn on the image decoded
    from an entry of the frame manifest, carries the black bar of the
    lower third, and ends with the counter [Frame i+1/n] in white, where
    [i] is the position of that entry and [n] the length of the frame
    manifest.  Frame [k] comes from the entry before which [k] images
    decoded: an image that does not decode leaves no frame, and the
    counter of the next frame skips it. *)
Theorem X15_frame_base_and_counter X (fs : json_files) frame_paths json_paths
    output_mp4 fps vid k c :
  (renderer.render_skeleton_video X fs frame_paths json_paths output_mp4 fps).2
  = Some vid →
  renderer.out_frames vid !! k = Some c →
  ∃ i fpath,
    frame_paths !! i = Some fpath
    ∧ imread X (fspath fpath) = Some (renderer.cv_img c)
    ∧ k = length (filter (decodes X) (take i frame_paths))
    ∧ renderer.rectangle (0, (renderer.out_size vid).2 - 60)%Z
        (renderer.out_size vid) [0; 0; 0]%Z (-1)
      ∈ renderer.cv_ops c
    ∧ last (renderer.cv_ops c)
      = Some (renderer.putText (FrameText (i + 1) (length frame_paths))
                (20, (renderer.out_size vid).2 - 20)%Z
                [255; 255; 255]%Z 2).
Proof.
  intros Hrun Hc.
  destruct (render_video_position X fs _ _ _ _ _ _ _ Hrun Hc)
    as (i & f & Hf & Him & Hk & Hlast & Hbar).
  by exists i, f.
Qed.

Lemma X15_frame_base_and_counter_witness :
  ∃ vid c i fpath,
    (renderer.render_skeleton_video sample_externals sample_files
       sample_frames sample_records "out.mp4" 5).2 = Some vid
    ∧ renderer.out_frames vid !! 1 = Some c
    ∧ sample_frames !! i = Some fpath
    ∧ imread sample_externals (fspath fpath) = Some (renderer.cv_img c)
    ∧ 1 = length (filter (decodes sample_externals) (take i sample_frames))
    ∧ last (renderer.cv_ops c)
      = Some (renderer.putText (FrameText (i + 1) 3)
                (20, (renderer.out_size vid).2 - 20)%Z
                [255; 255; 255]%Z 2).
Proof.
  eexists _, _.
  destruct (X15_frame_base_and_counter sample_externals sample_files
              sample_frames sample_records "out.mp4" 5 _ 1 _
              eq_refl eq_refl) as (i & fpath & Hf & Him & Hk & Hbar & Hlast).
  exists i, fpath. split; [reflexivity|]. split; [reflexivity|].
  split; [exact Hf|]. split; [exact Him|]. split; [exact Hk|exact Hlast].
Defined.

(** X16: how [render_skeleton_video] fails.  An empty frame manifest
    raises [IndexError] and a first image that does not decode
    [AttributeError], both before the output video is opened.  When the
    first image decodes, a paired record that is not on disk raises
    [FileNotFoundError] after the video was opened, the records before it
    being on disk with positions within reach.  An image after the first
    that does not decode raises nothing. *)
Theorem X16_render_outcome X (fs : json_files) frame_paths json_paths
    output_mp4 fps :
  let run :=
    renderer.render_skeleton_video X fs frame_paths json_paths output_mp4 fps
  in
  (frame_paths = [] → run = (Raise IndexError, None))
  ∧ (∀ first, head frame_paths = Some first → ¬ decodes X first →
       run = (Raise AttributeError, None))
  ∧ (∀ first sample i jpath,
       head frame_paths = Some first →
       imread X (fspath first) = Some sample →
       i < length frame_paths →
       json_paths !! i = Some jpath →
       ¬ stored fs jpath →
       Forall (drawable fs (img_w sample) (img_h sample))
         (take i json_paths) →
       run.1 = Raise FileNotFoundError ∧ is_Some run.2)
  ∧ (∀ first sample,
       head frame_paths = Some first →
       imread X (fspath first) = Some sample →
       Forall (drawable fs (img_w sample) (img_h sample))
         (take (length frame_paths) json_paths) →
       run.1 = Ok ()
       ∧ ∃ vid,
           run.2 = Some vid
           ∧ length (renderer.out_frames vid)
             = length (filter (decodes X)
                         (take (length json_paths) frame_paths))).
Proof.
  cbn zeta. split; [by intros ->|]. split.
  { intros first Hhead Hno. unfold renderer.render_skeleton_video.
    destruct frame_paths as [|first' rest]; [done|]. injection Hhead as ->.
    destruct (imread X (fspath first)) as [sample|] eqn:Hs; [|done].
    destruct Hno. unfold decodes. by rewrite Hs. }
  split.
  { intros first sample i jpath Hhead Hsample Hi Hj Hno _.
    assert (Hdec : decodes X first) by (unfold decodes; by rewrite Hsample).
    pose proof (render_video_outcome X fs frame_paths json_paths output_mp4
                  fps first Hhead Hdec) as Hout.
    assert (Hvid : is_Some (renderer.render_skeleton_video X fs frame_paths
                              json_paths output_mp4 fps).2).
    { unfold renderer.render_skeleton_video.
      destruct frame_paths as [|first' rest]; [done|]. injection Hhead as ->.
      rewrite Hsample.
      by destruct (renderer.render_loop X fs _ _ _ _ _ _ _). }
    split; [|done].
    destruct (renderer.render_skeleton_video X fs frame_paths json_paths
                output_mp4 fps).1 as [[]|e].
    - destruct (lookup_lt_is_Some_2 frame_paths i Hi) as [fpath Hf].
      rewrite Forall_forall in Hout. destruct Hno.
      apply (Hout (fpath, jpath)).
      apply list_elem_of_lookup. exists i.
      apply lookup_zip_with_Some. by exists fpath, jpath.
    - by destruct Hout as [_ ->]. }
  intros first sample Hhead Hsample Hall%drawable_stored.
  destruct (render_video_complete X fs _ _ output_mp4 fps _ _
              Hhead Hsample Hall) as (vid & -> & _ & _ & _ & Hlen & _).
  split; [done|]. by exists vid.
Qed.

(** ** More on the pose viewer *)

Section viewer_layout.
Import visualizer.

Lemma item_in_range (l : list (option R)) i :
  i < length l → item l i = Ok (mjoin (l !! i)).
Proof.
  intros [v Hv]%lookup_lt_is_Some. unfold item. by rewrite Hv.
Qed.

(** What the tracing loop appends: the segments of the drawn connectors. *)
Lemma trace_loop_spec xs ys zs conns lines_x lines_y lines_z :
  length ys = length xs → length zs = length xs →
  Forall (λ ab, ab.1 < length xs ∧ ab.2 < length xs) conns →
  trace_loop xs ys zs conns lines_x lines_y lines_z
  = Ok (lines_x ++ segments xs (drawn_connectors xs conns),
        lines_y ++ segments ys (drawn_connectors xs conns),
        lines_z ++ segments zs (drawn_connectors xs conns)).
Proof.
  intros Hy Hz. revert lines_x lines_y lines_z.
  induction conns as [|[a b] rest IH]; intros lines_x lines_y lines_z Hall.
  { simpl. by rewrite !app_nil_r. }
  apply Forall_cons in Hall as [[Ha Hb] Hall]. cbn [fst snd] in *.
  cbn [trace_loop]. unfold mbind at 1, result_bind, rbind.
  rewrite (item_in_range xs a Ha).
  unfold drawn_connectors in *. rewrite filter_cons. cbn [fst snd].
  destruct (decide (mjoin (xs !! a) = None)) as [Hna | Hpa].
  { rewrite IH by done. case_decide as Hd; [|done].
    destruct Hd as [[? Hs] _]. congruence. }
  unfold mbind at 1, result_bind, rbind.
  rewrite (item_in_range xs b Hb).
  destruct (decide (mjoin (xs !! b) = None)) as [Hnb | Hpb].
  { rewrite IH by done. case_decide as Hd; [|done].
    destruct Hd as [_ [? Hs]]. congruence. }
  unfold mbind at 1 2 3 4, result_bind, rbind.
  rewrite (item_in_range ys a), (item_in_range ys b) by lia.
  rewrite (item_in_range zs a), (item_in_range zs b) by lia.
  rewrite IH by done.
  case_decide as Hd.
  - unfold segments. rewrite !bind_cons. cbn [fst snd].
    by rewrite <- !app_assoc.
  - destruct Hd. split.
    + by destruct (mjoin (xs !! a)).
    + by destruct (mjoin (xs !! b)).
Qed.

Lemma segments_length cs conns : length (segments cs conns) = 3 * length conns.
Proof.
  induction conns as [|ab rest IH]; [done|].
  unfold segments in *. rewrite bind_cons, length_app, IH. simpl. lia.
Qed.

Lemma load_landmarks_lookup (fs : json_files) json_path (data : record) :
  fs !! fspath json_path = Some data →
  ∃ xs ys zs,
    _load_landmarks fs json_path = Ok (xs, ys, zs)
    ∧ length xs = 33 ∧ length ys = 33 ∧ length zs = 33
    ∧ ∀ i, i < 33 →
        xs !! i = Some (lm_x <$> data !! i)
        ∧ ys !! i = Some ((λ pt, (- lm_y pt)%R) <$> data !! i)
        ∧ zs !! i = Some (lm_z <$> data !! i).
Proof.
  intros Hdata. unfold _load_landmarks, load_json, mbind, result_bind, rbind.
  rewrite Hdata, load_loop_spec, !app_nil_l.
  eexists _, _, _. split; [reflexivity|].
  rewrite !length_fmap, !length_seq. repeat (split; [done|]).
  intros i Hi. by rewrite !list_lookup_fmap, !lookup_seq_lt.
Qed.

End viewer_layout.

Section viewer_records.
Import visualizer.

Lemma filter_ext_Forall {A} (P Q : A → Prop)
    `{!∀ x, Decision (P x)} `{!∀ x, Decision (Q x)} (l : list A) :
  Forall (λ x, P x ↔ Q x) l → filter P l = filter Q l.
Proof.
  induction 1 as [|x l Hx _ IH]; [done|].
  rewrite !filter_cons, IH.
  destruct (decide (P x)), (decide (Q x)); tauto.
Qed.

(** On the lists loaded from a record, a connector is drawn exactly when
    the record has both its end points. *)
Lemma drawn_connectors_of (data : record) xs :
  length xs = 33 →
  (∀ i, i < 33 → xs !! i = Some (lm_x <$> data !! i)) →
  drawn_connectors xs _CONNECTIONS = connectors_of data.
Proof.
  intros Hlen Hxs. unfold drawn_connectors, connectors_of.
  apply filter_ext_Forall.
  eapply Forall_impl; [apply connections_in_range|].
  intros [a b] [Ha Hb]. cbn [fst snd] in *.
  rewrite (Hxs a Ha), (Hxs b Hb). cbn [mjoin option_join].
  by rewrite !fmap_is_Some.
Qed.

(** The trace of a stored record. *)
Lemma skeleton_trace_of_record (fs : json_files) json_path (data : record)
    name color :
  fs !! fspath json_path = Some data →
  ∃ xs ys zs,
    _load_landmarks fs json_path = Ok (xs, ys, zs)
    ∧ _skeleton_trace xs ys zs name color
      = Ok (MkScatter3d (segments xs (connectors_of data))
              (segments ys (connectors_of data))
              (segments zs (connectors_of data)) "lines" 4 color name).
Proof.
  intros Hdata.
  destruct (load_landmarks_lookup fs json_path data Hdata)
    as (xs & ys & zs & Hload & Hx & Hy & Hz & Hlook).
  exists xs, ys, zs. split; [done|].
  unfold _skeleton_trace, mbind, result_bind, rbind.
  rewrite trace_loop_spec; [|lia|lia|rewrite Hx; apply connections_in_range].
  rewrite !app_nil_l, (drawn_connectors_of data xs Hx); [done|].
  intros i Hi. by destruct (Hlook i Hi).
Qed.

End viewer_records.

Section viewer_outcomes.
Import visualizer.

Lemma load_landmarks_missing (fs : json_files) json_path :
  fs !! fspath json_path = None →
  _load_landmarks fs json_path = Raise FileNotFoundError.
Proof.
  intros H. unfold _load_landmarks, load_json, mbind, result_bind, rbind.
  by rewrite H.
Qed.

Lemma plot_pose_3d_cases X (fs : json_files) json_path title :
  (stored fs json_path ∧ is_Ok (plot_pose_3d X fs json_path title))
  ∨ (¬ stored fs json_path
     ∧ plot_pose_3d X fs json_path title = Raise FileNotFoundError).
Proof.
  unfold stored. destruct (fs !! fspath json_path) as [r|] eqn:Hr.
  - left. split; [by eexists|].
    destruct (skeleton_trace_of_record fs json_path r "Actual" "blue" Hr)
      as (xs & ys & zs & Hload & Htrace).
    unfold plot_pose_3d, mbind, result_bind, rbind.
    by rewrite Hload, Htrace.
  - right. split; [by intros [? ?]|].
    unfold plot_pose_3d, mbind, result_bind, rbind.
    by rewrite (load_landmarks_missing fs json_path Hr).
Qed.


End viewer_outcomes.

(** X17: for a stored record, [_load_landmarks] returns three lists of 33
    entries each; entry [i] holds the [x], the negated [y] and the [z] of
    landmark [i], or [None] where the record has no such landmark.
    Landmarks with an index of 33 or more are not looked at. *)
Theorem X17_load_landmarks_layout (fs : json_files) json_path (data : record) :
  fs !! fspath json_path = Some data →
  ∃ xs ys zs,
    visualizer._load_landmarks fs json_path = Ok (xs, ys, zs)
    ∧ length xs = 33 ∧ length ys = 33 ∧ length zs = 33
    ∧ ∀ i, i < 33 →
        xs !! i = Some (lm_x <$> data !! i)
        ∧ ys !! i = Some ((λ pt, (- lm_y pt)%R) <$> data !! i)
        ∧ zs !! i = Some (lm_z <$> data !! i).
Proof.
  intros Hdata.
  destruct (load_landmarks_lookup fs json_path data Hdata)
    as (xs & ys & zs & Hload & Hrest).
  by exists xs, ys, zs.
Qed.

Lemma X17_load_landmarks_layout_witness :
  ∃ xs ys zs,
    visualizer._load_landmarks sample_files (PathObj "kp/frame_00000.json")
    = Ok (xs, ys, zs)
    ∧ length xs = 33 ∧ length ys = 33 ∧ length zs = 33
    ∧ ∀ i, i < 33 →
        xs !! i = Some (lm_x <$> upright !! i)
        ∧ ys !! i = Some ((λ pt, (- lm_y pt)%R) <$> upright !! i)
        ∧ zs !! i = Some (lm_z <$> upright !! i).
Proof.
  apply (X17_load_landmarks_layout sample_files
           (PathObj "kp/frame_00000.json") upright).
  unfold sample_files. cbn [fspath]. by rewrite lookup_insert_eq.
Defined.

(** X18: on coordinate lists of 33 entries [_skeleton_trace] raises
    nothing and draws exactly the connectors whose two end points are
    present in the [x] list: each adds its two end points and a [None]
    break to the three coordinate lists of the trace, which so have three
    entries per drawn connector; a connector with an absent end point
    adds nothing. *)
Theorem X18_skeleton_trace_segments xs ys zs name color :
  length xs = 33 → length ys = 33 → length zs = 33 →
  let drawn := drawn_connectors xs visualizer._CONNECTIONS in
  ∃ t,
    visualizer._skeleton_trace xs ys zs name color = Ok t
    ∧ visualizer.sc_x t = segments xs drawn
    ∧ visualizer.sc_y t = segments ys drawn
    ∧ visualizer.sc_z t = segments zs drawn
    ∧ length (visualizer.sc_x t) = 3 * length drawn
    ∧ visualizer.sc_name t = name ∧ visualizer.sc_color t = color.
Proof.
  intros Hx Hy Hz. cbn zeta.
  unfold visualizer._skeleton_trace, mbind, result_bind, rbind.
  rewrite trace_loop_spec; [|lia|lia|rewrite Hx; apply connections_in_range].
  rewrite !app_nil_l. eexists. split; [reflexivity|].
  cbn [visualizer.sc_x visualizer.sc_y visualizer.sc_z visualizer.sc_name
         visualizer.sc_color].
  rewrite segments_length. by repeat split.
Qed.

Lemma X18_skeleton_trace_segments_witness :
  ∃ t,
    visualizer._skeleton_trace
      ((λ i, lm_x <$> upright !! i) <$> seq 0 33)
      ((λ i, lm_y <$> upright !! i) <$> seq 0 33)
      ((λ i, lm_z <$> upright !! i) <$> seq 0 33) "Actual" "blue" = Ok t
    ∧ visualizer.sc_x t
      = segments ((λ i, lm_x <$> upright !! i) <$> seq 0 33)
          (drawn_connectors ((λ i, lm_x <$> upright !! i) <$> seq 0 33)
             visualizer._CONNECTIONS)
    ∧ visualizer.sc_y t
      = segments ((λ i, lm_y <$> upright !! i) <$> seq 0 33)
          (drawn_connectors ((λ i, lm_x <$> upright !! i) <$> seq 0 33)
             visualizer._CONNECTIONS)
    ∧ visualizer.sc_z t
      = segments ((λ i, lm_z <$> upright !! i) <$> seq 0 33)
          (drawn_connectors ((λ i, lm_x <$> upright !! i) <$> seq 0 33)
             visualizer._CONNECTIONS)
    ∧ length (visualizer.sc_x t)
      = 3 * length (drawn_connectors
                      ((λ i, lm_x <$> upright !! i) <$> seq 0 33)
                      visualizer._CONNECTIONS)
    ∧ visualizer.sc_name t = "Actual" ∧ visualizer.sc_color t = "blue".
Proof.
  apply (X18_skeleton_trace_segments
           ((λ i, lm_x <$> upright !! i) <$> seq 0 33)
           ((λ i, lm_y <$> upright !! i) <$> seq 0 33)
           ((λ i, lm_z <$> upright !! i) <$> seq 0 33) "Actual" "blue");
    by rewrite length_fmap, length_seq.
Defined.

(** X19: for a stored record [plot_pose_3d] returns a figure with one blue
    trace called Actual, which is the first trace that [compare_poses]
    draws for the same path; it has three entries per connector whose two
    end points the record has. The figure is titled with the given title,
    or with the stem of the path when no title or an empty one is
    given. *)
Theorem X19_plot_pose_3d X (fs : json_files) json_path (data : record) title :
  fs !! fspath json_path = Some data →
  ∃ t t_i,
    visualizer.plot_pose_3d X fs json_path title
    = Ok (visualizer.MkFigure [t]
            (visualizer.title_or_stem X json_path title))
    ∧ visualizer.compare_poses fs json_path json_path
      = Ok (visualizer.MkFigure [t; t_i] "Actual vs Ideal Pose")
    ∧ visualizer.sc_name t = "Actual" ∧ visualizer.sc_color t = "blue"
    ∧ length (visualizer.sc_x t) = 3 * length (connectors_of data)
    ∧ visualizer.title_or_stem X json_path (Some "")
      = stem X (fspath json_path)
    ∧ visualizer.title_or_stem X json_path None = stem X (fspath json_path).
Proof.
  intros Hdata.
  destruct (skeleton_trace_of_record fs json_path data "Actual" "blue" Hdata)
    as (xs & ys & zs & Hload & Htrace).
  pose proof (skeleton_trace_coords _ _ _ _ _ "Ideal" "green" _ Htrace)
    as Htrace_i.
  eexists _, _. split.
  { unfold visualizer.plot_pose_3d, mbind, result_bind, rbind.
    rewrite Hload, Htrace. reflexivity. }
  split.
  { unfold visualizer.compare_poses, mbind, result_bind, rbind.
    rewrite Hload, Htrace, Htrace_i. reflexivity. }
  cbn [visualizer.sc_x visualizer.sc_name visualizer.sc_color].
  rewrite segments_length. by repeat split.
Qed.

Lemma X19_plot_pose_3d_witness :
  ∃ t t_i,
    visualizer.plot_pose_3d sample_externals sample_files
      (PathObj "kp/frame_00000.json") (Some "clip — first pose")
    = Ok (visualizer.MkFigure [t] "clip — first pose")
    ∧ visualizer.compare_poses sample_files
        (PathObj "kp/frame_00000.json") (PathObj "kp/frame_00000.json")
      = Ok (visualizer.MkFigure [t; t_i] "Actual vs Ideal Pose")
    ∧ visualizer.sc_name t = "Actual" ∧ visualizer.sc_color t = "blue"
    ∧ length (visualizer.sc_x t) = 3 * length (connectors_of upright)
    ∧ visualizer.title_or_stem sample_externals
        (PathObj "kp/frame_00000.json") (Some "")
      = "kp/frame_00000.json"
    ∧ visualizer.title_or_stem sample_externals
        (PathObj "kp/frame_00000.json") None
      = "kp/frame_00000.json".
Proof.
  apply (X19_plot_pose_3d sample_externals sample_files
           (PathObj "kp/frame_00000.json") upright
           (Some "clip — first pose")).
  unfold sample_files. cbn [fspath]. by rewrite lookup_insert_eq.
Defined.


(** ** The pipeline *)

Section pipeline.
Import main.
Context (X : externals).

(** The run, stage by stage, once frames were sampled. *)
Lemma run_pipeline_sampled root v video_path fps fs frames eff :
  video_extractor.extract_frames v video_path (frames_dir_of X root video_path) fps
  = (Ok frames, eff) →
  frames ≠ [] →
  let pose :=
    pose_estimator.extract_pose_from_frames X frames
      (kp_dir_of X root video_path) fs in
  let rows := surviving_rows X pose.2 pose.1 in
  let rendered :=
    renderer.render_skeleton_video X pose.2 frames pose.1
      (mp4_out_of X root video_path) fps in
  Forall (stored pose.2) pose.1
  ∧ match pose.1 with
    | [] =>
        run_pipeline X root v video_path fps fs
        = (Ok (), Artifacts eff pose.2 None None None)
    | first_json :: _ =>
        ∃ fig,
          visualizer.plot_pose_3d X pose.2 first_json
            (Some (first_pose_title X video_path)) = Ok fig
          ∧ run_pipeline X root v video_path fps fs
            = match rendered.1 with
              | Ok _ =>
                  (Ok (),
                   Artifacts eff pose.2
                     (Some (csv_out_of X root video_path, rows))
                     rendered.2 (Some fig))
              | Raise e =>
                  (Raise e,
                   Artifacts eff pose.2
                     (Some (csv_out_of X root video_path, rows))
                     rendered.2 None)
              end
    end.
Proof.
  intros Hsampled Hne.
  unfold run_pipeline.
  unfold frames_dir_of, kp_dir_of, csv_out_of, mp4_out_of, first_pose_title in *.
  rewrite Hsampled.
  destruct frames as [|frame0 frames']; [done|]. clear Hne Hsampled.
  cbv beta iota zeta.
  set (frames := frame0 :: frames').
  unfold pose_estimator.extract_pose_from_frames.
  destruct (pose_loop_spec X frames
              (data_path root "keypoints" (stem X video_path)) [] fs)
    as (new & fs' & Hpose & _ & Hobj & Hfiles & _).
  rewrite Hpose. cbn [fst snd app].
  split; [done|].
  destruct new as [|first_json rest] eqn:Hnew; [done|]. rewrite <- Hnew in *.
  rewrite (extract_biomechanics_paths X fs' new _ Hobj Hfiles).
  cbn [feature_extractor.csv_written].
  assert (Hfirst : stored fs' first_json).
  { rewrite Hnew in Hfiles. by apply Forall_cons in Hfiles as [? _]. }
  destruct (plot_pose_3d_cases X fs' first_json
              (Some (stem X video_path ++ " — first pose")%string))
    as [(_ & Hplot) | (Hno & _)]; [|done].
  destruct (visualizer.plot_pose_3d X fs' first_json _) as [fig|]; [|done].
  exists fig. split; [done|].
  by destruct (renderer.render_skeleton_video X fs' frames new _ fps)
    as [[[]|e] video].
Qed.

End pipeline.

Section pipeline_stages.
Import main.
Context (X : externals).

(** Either one of the four checks fails and nothing was read, or every
    frame was read and the strided ones were written. *)
Lemma extract_frames_cases v video_path output_dir fps :
  let bad :=
    video_extractor.vid_exists v = false
    ∨ video_extractor.vid_opens v = false
    ∨ (video_extractor.vid_fps v == 0)%Q ∨ fps = 0%Z in
  (bad ∧ ∃ e, video_extractor.extract_frames v video_path output_dir fps
              = (Raise e, video_extractor.no_effects))
  ∨ (¬ bad
     ∧ ∃ saved written,
         video_extractor.extract_frames v video_path output_dir fps
         = (Ok saved,
            video_extractor.Effects (S (length (video_extractor.vid_frames v)))
              written)
         ∧ (saved = [] ↔ video_extractor.vid_frames v = [])
         ∧ (written = [] ↔ video_extractor.vid_frames v = [])).
Proof.
  cbn zeta.
  destruct (video_extractor.vid_exists v) eqn:He; cycle 1.
  { left. split; [by left|]. unfold video_extractor.extract_frames.
    rewrite He. by eexists. }
  destruct (video_extractor.vid_opens v) eqn:Ho; cycle 1.
  { left. split; [right; by left|]. unfold video_extractor.extract_frames.
    rewrite He, Ho. by eexists. }
  destruct (Qeq_bool (video_extractor.vid_fps v) 0) eqn:Hq.
  { left. split; [right; right; left; by apply Qeq_bool_iff|].
    unfold video_extractor.extract_frames. rewrite He, Ho. cbn [negb].
    rewrite Hq. by eexists. }
  assert (Hq' : ¬ (video_extractor.vid_fps v == 0)%Q).
  { intros H%Qeq_bool_iff. congruence. }
  destruct (decide (fps = 0%Z)) as [-> | Hz].
  { left. split; [by repeat right|].
    unfold video_extractor.extract_frames. rewrite He, Ho. cbn [negb].
    rewrite Hq. by eexists. }
  right. split; [intros [?|[?|[?|?]]]; done|].
  rewrite (extract_frames_Ok v video_path output_dir fps He Ho Hq' Hz).
  eexists _, _. split; [done|].
  destruct (video_extractor.vid_frames v) as [|frame rest]; [done|].
  rewrite strided_head. by split.
Qed.

(** Without a processed frame pose extraction changes nothing. *)
Lemma pose_none frame_paths output_dir (fs : json_files) :
  filter (processed X) frame_paths = [] →
  pose_estimator.extract_pose_from_frames X frame_paths output_dir fs
  = ([], fs).
Proof.
  intros Hnone. unfold pose_estimator.extract_pose_from_frames.
  pose proof (pose_loop_manifest X frame_paths output_dir [] fs) as Hman.
  destruct (pose_loop_files X frame_paths output_dir [] fs) as [Hkeep _].
  rewrite Hnone in *.
  destruct (pose_estimator.pose_loop X frame_paths output_dir [] fs)
    as [new fs'].
  cbn [fst snd fmap list_fmap app] in *. subst new. f_equal.
  apply map_eq. intros p. apply Hkeep. apply not_elem_of_nil.
Qed.

Lemma pose_manifest frame_paths output_dir (fs : json_files) :
  (pose_estimator.extract_pose_from_frames X frame_paths output_dir fs).1
  = record_path X output_dir <$> filter (processed X) frame_paths.
Proof.
  unfold pose_estimator.extract_pose_from_frames.
  by rewrite pose_loop_manifest.
Qed.

End pipeline_stages.

Section pipeline_run.
Import main.
Context (X : externals).


Lemma plot_pose_3d_title (fs : json_files) json_path title fig :
  visualizer.plot_pose_3d X fs json_path title = Ok fig →
  visualizer.fig_title fig = visualizer.title_or_stem X json_path title.
Proof.
  unfold visualizer.plot_pose_3d, mbind, result_bind, rbind.
  destruct (visualizer._load_landmarks fs json_path) as [[[xs ys] zs]|];
    [|done].
  destruct (visualizer._skeleton_trace xs ys zs "Actual" "blue"); [|done].
  by intros [= <-].
Qed.

Lemma first_pose_title_used json_path video_path :
  visualizer.title_or_stem X json_path (Some (first_pose_title X video_path))
  = first_pose_title X video_path.
Proof.
  unfold visualizer.title_or_stem. case_decide as Hempty; [|done].
  exfalso. unfold first_pose_title in Hempty.
  destruct (stem X video_path); cbv [String.append] in Hempty; done.
Qed.



(** The sampling effects and the JSON files of a run. *)
Lemma run_pipeline_Ok_frames root v video_path fps (fs : json_files) frames
    eff :
  video_extractor.extract_frames v video_path (frames_dir_of X root video_path)
    fps = (Ok frames, eff) →
  let run := run_pipeline X root v video_path fps fs in
  let pose :=
    pose_estimator.extract_pose_from_frames X frames
      (kp_dir_of X root video_path) fs in
  let rendered :=
    renderer.render_skeleton_video X pose.2 frames pose.1
      (mp4_out_of X root video_path) fps in
  sampling run.2 = eff ∧ json_after run.2 = pose.2
  ∧ (filter (processed X) frames = [] →
     run = (Ok (), Artifacts eff fs None None None))
  ∧ (filter (processed X) frames ≠ [] →
     Forall (stored pose.2) pose.1
     ∧ csv_file run.2
       = Some (csv_out_of X root video_path,
               surviving_rows X pose.2 pose.1)
     ∧ video_file run.2 = rendered.2
     ∧ (∀ e, run.1 = Raise e ↔ rendered.1 = Raise e)
     ∧ (run.1 = Ok () ↔ rendered.1 = Ok ())
     ∧ (run.1 = Ok () →
        ∃ fig, figure_shown run.2 = Some fig
               ∧ visualizer.fig_title fig = first_pose_title X video_path)
     ∧ (raises run.1 → figure_shown run.2 = None)).
Proof.
  intros Hsampled. cbn zeta.
  destruct frames as [|frame0 frames'] eqn:Hframes.
  { unfold run_pipeline. fold (frames_dir_of X root video_path).
    rewrite Hsampled. split; [done|]. split; [done|]. by split. }
  rewrite <- Hframes in *.
  assert (Hne : frames ≠ []) by (by rewrite Hframes).
  destruct (run_pipeline_sampled X root v video_path fps fs frames eff
              Hsampled Hne) as [Hsto Hrun].
  pose proof (pose_manifest X frames (kp_dir_of X root video_path) fs) as Hman.
  destruct (filter (processed X) frames) as [|g gs] eqn:Hfilter.
  - rewrite (pose_none X frames _ fs Hfilter) in *. cbn [fst snd] in *.
    rewrite Hrun. split; [done|]. split; [done|]. by split.
  - destruct ((pose_estimator.extract_pose_from_frames X frames
                 (kp_dir_of X root video_path) fs).1)
      as [|first_json rest] eqn:Hjsons; [done|].
    destruct Hrun as (fig & Hplot & Hrun). rewrite Hrun.
    apply plot_pose_3d_title in Hplot.
    rewrite first_pose_title_used in Hplot.
    destruct ((renderer.render_skeleton_video X _ frames
                 (first_json :: rest) _ fps).1) as [[]|e'];
      cbn [fst snd sampling json_after csv_file video_file figure_shown raises].
    + split; [done|]. split; [done|]. split; [done|]. intros _.
      split; [done|]. split; [done|]. split; [done|]. split; [done|].
      split; [done|]. split; [|done]. intros _. by exists fig.
    + split; [done|]. split; [done|]. split; [done|]. intros _.
      split; [done|]. split; [done|]. split; [done|]. split; [done|].
      split; [done|]. by split.
Qed.

End pipeline_run.

Section pipeline_records.
Context (X : externals).

(** With a pose model of at least 29 landmarks every record that pose
    extraction leaves is complete. *)
Lemma pose_records_complete frame_paths kp_dir (fs : json_files) :
  (∀ img landmarks,
     pose_process X img = Some landmarks → 29 ≤ length landmarks) →
  let run := pose_estimator.extract_pose_from_frames X frame_paths kp_dir fs in
  Forall (record_complete run.2) run.1.
Proof.
  intros Hmodel. cbn zeta. unfold pose_estimator.extract_pose_from_frames.
  destruct (pose_loop_files X frame_paths kp_dir [] fs) as [_ Hnew].
  rewrite pose_loop_manifest. cbn [app].
  apply Forall_forall. intros jpath Hin.
  destruct (Hnew jpath Hin) as (f & img & lms & _ & _ & _ & Hp & Hfile).
  exists (pose_estimator.lm_json lms). split; [done|].
  by apply lm_json_complete, (Hmodel img).
Qed.

Lemma processed_decodes fpath : processed X fpath → decodes X fpath.
Proof. intros (img & _ & Himg & _). by exists img. Qed.

Lemma filter_all {A} (P : A → Prop) `{!∀ a, Decision (P a)} (l : list A) :
  Forall P l → filter P l = l.
Proof.
  induction 1 as [|a l Ha _ IH]; [done|].
  by rewrite filter_cons_True, IH.
Qed.

End pipeline_records.

(** X21: when the source is missing, cannot be opened, reports a native
    rate of zero, or the target rate is zero, [run_pipeline] raises with
    no frame read and no image written, leaves the JSON files as they
    were and produces no table, video or figure.  For a source that passes
    the four checks but has no decodable frame it returns normally after
    the one read that finds the end, again with none of the products. *)
Theorem X21_pipeline_before_first_frame X root v video_path fps
    (fs : json_files) :
  let run := main.run_pipeline X root v video_path fps fs in
  let bad :=
    video_extractor.vid_exists v = false
    ∨ video_extractor.vid_opens v = false
    ∨ (video_extractor.vid_fps v == 0)%Q ∨ fps = 0%Z in
  let nothing_made :=
    main.json_after run.2 = fs
    ∧ main.csv_file run.2 = None
    ∧ main.video_file run.2 = None
    ∧ main.figure_shown run.2 = None in
  (bad →
     raises run.1
     ∧ video_extractor.reads (main.sampling run.2) = 0
     ∧ video_extractor.imwrites (main.sampling run.2) = []
     ∧ nothing_made)
  ∧ (¬ bad → video_extractor.vid_frames v = [] →
     run.1 = Ok ()
     ∧ video_extractor.reads (main.sampling run.2) = 1
     ∧ video_extractor.imwrites (main.sampling run.2) = []
     ∧ nothing_made).
Proof.
  cbn zeta.
  destruct (extract_frames_cases v video_path
              (frames_dir_of X root video_path) fps)
    as [(Hbad & e & Hrun) | (Hgood & saved & written & Hrun & Hsaved & Hwr)].
  - assert (Hpipe : main.run_pipeline X root v video_path fps fs
                    = (Raise e, main.Artifacts video_extractor.no_effects fs
                                  None None None)).
    { unfold main.run_pipeline. fold (frames_dir_of X root video_path).
      by rewrite Hrun. }
    rewrite Hpipe. split; [done|]. by intros [].
  - split; [done|]. intros _ Hempty.
    destruct (run_pipeline_Ok_frames X root v video_path fps fs saved _ Hrun)
      as (_ & _ & Hnone & _).
    assert (Hs : saved = []) by (by apply Hsaved).
    assert (Hw : written = []) by (by apply Hwr).
    rewrite Hs in Hnone. rewrite Hnone by done.
    by rewrite Hw, Hempty.
Qed.

(** X22: once frames were sampled, the feature table is written exactly
    when some sampled frame went through pose extraction. Without one the
    run returns normally and leaves the JSON files as they were, with no
    table, no video and no figure. A written table goes to
    [<stem>_features.csv], holds the rows of the complete records of the
    run, and has no more rows than there are processed frames. *)
Theorem X22_pipeline_table X root v video_path fps (fs : json_files) frames
    eff :
  video_extractor.extract_frames v video_path (frames_dir_of X root video_path)
    fps = (Ok frames, eff) →
  let run := main.run_pipeline X root v video_path fps fs in
  let pose :=
    pose_estimator.extract_pose_from_frames X frames
      (kp_dir_of X root video_path) fs in
  main.sampling run.2 = eff
  ∧ main.json_after run.2 = pose.2
  ∧ (is_Some (main.csv_file run.2) ↔ Exists (processed X) frames)
  ∧ (Forall (λ f, ¬ processed X f) frames →
     run = (Ok (), main.Artifacts eff fs None None None))
  ∧ (∀ csv, main.csv_file run.2 = Some csv →
       csv = (csv_out_of X root video_path, surviving_rows X pose.2 pose.1)
       ∧ length csv.2 ≤ length (filter (processed X) frames)
       ∧ length (filter (processed X) frames) ≤ length frames).
Proof.
  intros Hsampled. cbn zeta.
  destruct (run_pipeline_Ok_frames X root v video_path fps fs frames eff
              Hsampled) as (Heff & Hjson & Hnone & Hsome).
  pose proof (pose_manifest X frames (kp_dir_of X root video_path) fs) as Hman.
  split; [done|]. split; [done|].
  destruct (decide (filter (processed X) frames = [])) as [Hempty | Hne].
  - rewrite (Hnone Hempty). cbn [snd main.csv_file].
    assert (Hall : Forall (λ f, ¬ processed X f) frames).
    { apply Forall_forall. intros f Hf Hp.
      assert (Hin : f ∈ filter (processed X) frames)
        by (by apply list_elem_of_filter).
      rewrite Hempty in Hin. by apply not_elem_of_nil in Hin. }
    split.
    { split; [by intros [? [=]]|]. intros Hex%Exists_exists.
      destruct Hex as (f & Hf & Hp). rewrite Forall_forall in Hall.
      by destruct (Hall f Hf). }
    split; [done|]. by intros csv [=].
  - destruct (Hsome Hne) as (Hsto & Hcsv & _). rewrite Hcsv.
    assert (Hex : Exists (processed X) frames).
    { destruct (filter (processed X) frames) as [|g gs] eqn:Hfilter; [done|].
      assert (Hg : g ∈ filter (processed X) frames)
        by (rewrite Hfilter; left).
      apply list_elem_of_filter in Hg as [Hp Hg].
      apply Exists_exists. by exists g. }
    split; [by split|]. split.
    { intros Hall. apply Exists_exists in Hex as (f & Hf & Hp).
      rewrite Forall_forall in Hall. by destruct (Hall f Hf). }
    intros csv [= <-]. split; [done|]. cbn [snd].
    split; [|apply length_filter].
    rewrite surviving_rows_length, Hman.
    etrans; [apply length_filter|]. by rewrite length_fmap.
Qed.

Lemma X22_pipeline_table_witness :
  ∃ frames eff,
    video_extractor.extract_frames sample_video "clip.mp4"
      (frames_dir_of sample_externals "repo" "clip.mp4") 5 = (Ok frames, eff)
    ∧ (Forall (λ f, ¬ processed sample_externals f) frames →
       main.run_pipeline sample_externals "repo" sample_video "clip.mp4" 5
         sample_files
       = (Ok (), main.Artifacts eff sample_files None None None)).
Proof.
  eexists _, _. split; [reflexivity|].
  apply (X22_pipeline_table sample_externals "repo" sample_video "clip.mp4" 5
           sample_files).
  reflexivity.
Defined.

(** X23: once frames were sampled and some of them went through pose
    extraction, the outcome of the run hangs on the first sampled frame
    alone.  If its image does not decode in the renderer, the run raises
    [AttributeError] with the feature table already written, no video
    opened and no figure shown.  If it decodes, the run returns normally
    and shows the figure, the records having positions within reach; a
    later frame that does not decode raises nothing and is left out of the
    video, which is given one frame per image that decodes among the
    first [m] sampled frames, [m] being the number of processed frames. *)
Theorem X23_pipeline_outcome X root v video_path fps (fs : json_files) frames
    eff :
  video_extractor.extract_frames v video_path (frames_dir_of X root video_path)
    fps = (Ok frames, eff) →
  let run := main.run_pipeline X root v video_path fps fs in
  let pose :=
    pose_estimator.extract_pose_from_frames X frames
      (kp_dir_of X root video_path) fs in
  let m := length (filter (processed X) frames) in
  (∀ first,
     head frames = Some first → m ≠ 0 → ¬ decodes X first →
     run.1 = Raise AttributeError
     ∧ is_Some (main.csv_file run.2)
     ∧ main.video_file run.2 = None
     ∧ main.figure_shown run.2 = None)
  ∧ (∀ first sample,
       head frames = Some first → m ≠ 0 →
       imread X (fspath first) = Some sample →
       Forall (drawable pose.2 (img_w sample) (img_h sample)) pose.1 →
       run.1 = Ok ()
       ∧ is_Some (main.csv_file run.2)
       ∧ is_Some (main.figure_shown run.2)
       ∧ ∃ vid,
           main.video_file run.2 = Some vid
           ∧ length (renderer.out_frames vid)
             = length (filter (decodes X) (take m frames))).
Proof.
  intros Hsampled. cbn zeta.
  destruct (run_pipeline_Ok_frames X root v video_path fps fs frames eff
              Hsampled) as (_ & _ & _ & Hsome).
  pose proof (pose_manifest X frames (kp_dir_of X root video_path) fs) as Hman.
  set (pose := pose_estimator.extract_pose_from_frames X frames
                 (kp_dir_of X root video_path) fs) in *.
  assert (Hjlen : length pose.1 = length (filter (processed X) frames))
    by (by rewrite Hman, length_fmap).
  assert (Hne : length (filter (processed X) frames) ≠ 0 →
                filter (processed X) frames ≠ []).
  { intros Hm Hnil. by rewrite Hnil in Hm. }
  split.
  - intros first Hhead Hm%Hne Hno.
    destruct (Hsome Hm) as (_ & Hcsv & Hvid & Hraise & _ & _ & Hfig).
    assert (Hrender :
              renderer.render_skeleton_video X pose.2 frames pose.1
                (mp4_out_of X root video_path) fps
              = (Raise AttributeError, None)).
    { unfold renderer.render_skeleton_video.
      destruct frames as [|first' rest]; [done|]. injection Hhead as ->.
      destruct (imread X (fspath first)) as [sample|] eqn:Hs; [|done].
      destruct Hno. unfold decodes. by rewrite Hs. }
    rewrite Hrender in *. cbn [fst snd] in *.
    assert (Hrun : (main.run_pipeline X root v video_path fps fs).1
                   = Raise AttributeError) by (by apply Hraise).
    split; [done|]. split; [by rewrite Hcsv|]. split; [done|].
    apply Hfig. by rewrite Hrun.
  - intros first sample Hhead Hm%Hne Hsample Hreach%drawable_stored.
    destruct (Hsome Hm) as (_ & Hcsv & Hvid & _ & Hok & Hfig & _).
    assert (Hsto : Forall (stored pose.2) (take (length frames) pose.1))
      by (by apply Forall_take).
    destruct (render_video_complete X pose.2 frames pose.1
                (mp4_out_of X root video_path) fps first sample
                Hhead Hsample Hsto) as (vid & Hrender & _ & _ & _ & Hlen & _).
    rewrite Hrender in *. cbn [fst snd] in *.
    assert (Hrun : (main.run_pipeline X root v video_path fps fs).1 = Ok ())
      by (by apply Hok).
    split; [done|]. split; [by rewrite Hcsv|].
    split; [destruct (Hfig Hrun) as (fig & -> & _); by eexists|].
    exists vid. split; [done|]. by rewrite Hlen, Hjlen.
Qed.

Lemma detecting_in_reach :
  in_reach 640 480
    (pose_estimator.lm_json (replicate 33 (Landmark (1 / 2) (1 / 2) 0 1))).
Proof.
  intros i l Hl _. unfold pose_estimator.lm_json in Hl.
  apply lookup_map_seq_Some in Hl as [_ Hl].
  apply lookup_replicate in Hl as [-> _]. cbn [lm_x lm_y]. lra.
Qed.

Lemma X23_pipeline_outcome_witness :
  ∃ vid,
    (main.run_pipeline detecting_externals "repo" sample_video "clip.mp4" 5
       sample_files).1 = Ok ()
    ∧ main.video_file
        (main.run_pipeline detecting_externals "repo" sample_video "clip.mp4"
           5 sample_files).2 = Some vid
    ∧ length (renderer.out_frames vid) = 2.
Proof.
  destruct (X23_pipeline_outcome detecting_externals "repo" sample_video
              "clip.mp4" 5 sample_files _ _ eq_refl) as [_ Hok].
  destruct (Hok (PathObj "repo/data/extracted_frames/clip.mp4/frame_00000.jpg")
              (Image 480 640 0) eq_refl) as (Hrun & _ & _ & vid & Hvid & Hlen).
  - discriminate.
  - reflexivity.
  - repeat constructor; eexists; (split; [|apply detecting_in_reach]);
      reflexivity.
  - exists vid. split; [exact Hrun|]. split; [exact Hvid|exact Hlen].
Defined.

(** X24: when at least one frame was sampled and every sampled frame goes
    through pose extraction, the run returns normally with all three
    products: the feature table, a video at [<stem>_visualized.mp4] with
    the target rate and one frame per sampled frame, and the figure titled
    [<stem> — first pose]. The table has at most one row per sampled
    frame, and exactly one when the pose model yields at least 29
    landmarks. *)
Theorem X24_pipeline_all_processed X root v video_path fps (fs : json_files)
    frames eff :
  video_extractor.extract_frames v video_path (frames_dir_of X root video_path)
    fps = (Ok frames, eff) →
  frames ≠ [] →
  Forall (processed X) frames →
  let run := main.run_pipeline X root v video_path fps fs in
  ∃ rows vid fig,
    run.1 = Ok ()
    ∧ main.csv_file run.2 = Some (csv_out_of X root video_path, rows)
    ∧ main.video_file run.2 = Some vid
    ∧ main.figure_shown run.2 = Some fig
    ∧ renderer.out_path vid = mp4_out_of X root video_path
    ∧ renderer.out_fps vid = fps
    ∧ length (renderer.out_frames vid) = length frames
    ∧ visualizer.fig_title fig = first_pose_title X video_path
    ∧ length rows ≤ length frames
    ∧ ((∀ img landmarks,
          pose_process X img = Some landmarks → 29 ≤ length landmarks) →
       length rows = length frames).
Proof.
  intros Hsampled Hne Hall. cbn zeta.
  destruct (run_pipeline_Ok_frames X root v video_path fps fs frames eff
              Hsampled) as (_ & _ & _ & Hsome).
  pose proof (pose_manifest X frames (kp_dir_of X root video_path) fs) as Hman.
  pose proof (pose_records_complete X frames (kp_dir_of X root video_path) fs)
    as Hcomplete.
  rewrite (filter_all (processed X) frames Hall) in *.
  destruct (Hsome Hne) as (Hsto & Hcsv & Hvid & _ & Hok & Hfig & _).
  set (pose := pose_estimator.extract_pose_from_frames X frames
                 (kp_dir_of X root video_path) fs) in *.
  assert (Hjlen : length pose.1 = length frames)
    by (by rewrite Hman, length_fmap).
  assert (Hdec : Forall (decodes X) frames).
  { eapply Forall_impl; [done|]. apply processed_decodes. }
  destruct frames as [|first rest] eqn:Hframes; [done|].
  rewrite <- Hframes in *.
  assert (Hfirst : decodes X first).
  { rewrite Hframes in Hdec. by apply Forall_cons in Hdec as [? _]. }
  destruct Hfirst as [sample Hsample].
  destruct (render_video_complete X pose.2 frames pose.1
              (mp4_out_of X root video_path) fps first sample)
    as (vid & Hrender & Hpath & Hfps & _ & Hvlen & _);
    [by rewrite Hframes | done | by apply Forall_take |].
  rewrite Hrender in *. cbn [fst snd] in *.
  assert (Hrun : (main.run_pipeline X root v video_path fps fs).1 = Ok ())
    by (by apply Hok).
  destruct (Hfig Hrun) as (fig & Hshown & Htitle).
  exists (surviving_rows X pose.2 pose.1), vid, fig.
  split; [done|]. split; [done|]. split; [done|].
  split; [done|]. split; [done|]. split; [done|].
  split.
  { rewrite Hvlen, Hjlen, take_ge by done.
    by rewrite (filter_all (decodes X) frames Hdec). }
  split; [done|].
  rewrite surviving_rows_length, <- Hjlen.
  split; [apply length_filter|].
  intros Hmodel. apply filter_length_eq. by apply Hcomplete.
Qed.

Lemma X24_pipeline_all_processed_witness :
  ∃ rows vid fig,
    (main.run_pipeline detecting_externals "repo" sample_video "clip.mp4" 5
       sample_files).1 = Ok ()
    ∧ main.csv_file
        (main.run_pipeline detecting_externals "repo" sample_video "clip.mp4"
           5 sample_files).2
      = Some ("repo/data/analysis/clip.mp4_features.csv", rows)
    ∧ main.video_file
        (main.run_pipeline detecting_externals "repo" sample_video "clip.mp4"
           5 sample_files).2 = Some vid
    ∧ main.figure_shown
        (main.run_pipeline detecting_externals "repo" sample_video "clip.mp4"
           5 sample_files).2 = Some fig
    ∧ renderer.out_path vid = "repo/data/analysis/clip.mp4_visualized.mp4"
    ∧ renderer.out_fps vid = 5%Z
    ∧ length (renderer.out_frames vid) = 2
    ∧ visualizer.fig_title fig = "clip.mp4 — first pose"
    ∧ length rows ≤ 2
    ∧ ((∀ img landmarks,
          pose_process detecting_externals img = Some landmarks →
          29 ≤ length landmarks) →
       length rows = 2).
Proof.
  apply (X24_pipeline_all_processed detecting_externals "repo" sample_video
           "clip.mp4" 5 sample_files _ _ eq_refl).
  - discriminate.
  - repeat constructor; eexists _, _; split; reflexivity.
Defined.


